(** * Bank account record store (version2.c, version3.c)

    A shallow embedding of the fixed-slot binary store of the bank account
    teaching programs: the record layout of [struct client_data], the
    positioned read and write of one record, the input validators and the
    Create / Read / Update / Delete operations of version 3.

    Conventions of the model.
    - A C [char] and a byte of the data file are a [byte]; an [int] or
      [unsigned int] is a [Z], with the wrap-around of unsigned arithmetic
      written out where the source computes with it.
    - A [double] is its 64-bit IEEE pattern, a [Z]; the only arithmetic on a
      balance ([+=] in the update) is a field of the environment.
    - A [const char*] argument is an [option (list byte)]: [None] is NULL,
      [Some a] the bytes found from the pointer on; the string is the
      part of [a] before its first NUL.
    - The program's state is a [World]: what is left on standard input, the
      contents of accounts.dat (or its absence), the position of the open
      stream, and two ghost logs: the stdio calls made on the data file and
      the records handed to [display_client].  Other output is not modelled.
    - The disk does not fail: [fopen] fails only for a read mode on a missing
      file, [fwrite] only on a stream opened read-only.
    - A struct is its four fields.  The padding bytes of its object
      representation are not modelled: they are written as zero and never
      read, and statements about a file are about the records its blocks
      decode to.
    - What the source leaves to the C library or to chance is a field of
      [Env]: the conversions of [scanf], the sum of two doubles and the
      contents of uninitialised automatic variables.  The theorems hold for
      every environment; where one needs it, [env_ok] asks that a scanned
      double and an uninitialised struct have the size of their C type.

    In version3.c the text of two functions is in two pieces each, cut at
    the same token [FILE* file | _ptr]: [create_account] is lines 117-153
    continued by lines 672-691, and [account_exists] is lines 740-743
    continued by lines 153-162.  They are embedded joined that way. *)

From Stdlib Require Import ZArith List Lia Bool Sorted.
From Stdlib Require Import Strings.Byte.
From Stdlib Require Strings.String.
Import String.StringSyntax.
Delimit Scope string_scope with string.
Import ListNotations.
Local Open Scope Z_scope.

(* ================================================================= *)
(** ** Bytes and machine integers *)

Definition byte_to_Z (b : byte) : Z := Z.of_N (Byte.to_N b).

Definition byte_of_Z (z : Z) : byte :=
  match Byte.of_N (Z.to_N (z mod 256)) with
  | Some b => b
  | None => x00
  end.

(** Little-endian image of an integer on [n] bytes, and its value. *)
Fixpoint le_encode (n : nat) (z : Z) : list byte :=
  match n with
  | O => []
  | S k => byte_of_Z z :: le_encode k (z / 256)
  end.

Fixpoint le_decode (bs : list byte) : Z :=
  match bs with
  | [] => 0
  | b :: rest => byte_to_Z b + 256 * le_decode rest
  end.

Definition UINT_MOD : Z := 2 ^ 32.
Definition DOUBLE_MOD : Z := 2 ^ 64.

(** [(int)(acct_num - 1)] for an [unsigned int acct_num]. *)
Definition int_of_uint (u : Z) : Z :=
  if u <? 2 ^ 31 then u else u - UINT_MOD.

Definition position_of (acct : Z) : Z := int_of_uint ((acct - 1) mod UINT_MOD).

(** C truth values. *)
Definition Zb (b : bool) : Z := if b then 1 else 0.
Definition truthy (z : Z) : bool := negb (z =? 0).

(** The string held by a char array: the bytes before the first NUL. *)
Fixpoint cstr (a : list byte) : list byte :=
  match a with
  | [] => []
  | c :: rest => if Byte.eqb c x00 then [] else c :: cstr rest
  end.

Definition strlen (a : list byte) : nat := length (cstr a).

(** [strcmp(a, b) == 0] *)
Fixpoint bytes_eqb (a b : list byte) : bool :=
  match a, b with
  | [], [] => true
  | x :: a', y :: b' => Byte.eqb x y && bytes_eqb a' b'
  | _, _ => false
  end.

Definition streq (a b : list byte) : bool := bytes_eqb (cstr a) (cstr b).

(** A string literal: its characters and the terminator. *)
Definition lit (s : String.string) : list byte :=
  String.list_byte_of_string s ++ [x00].

(** An array of [n] chars initialised from a string literal. *)
Definition char_array (n : nat) (s : String.string) : list byte :=
  firstn n (String.list_byte_of_string s ++ repeat x00 n).

(** Array access and update by index; nothing happens out of range. *)
Definition get (a : list byte) (i : nat) : byte := nth i a x00.

Fixpoint set (a : list byte) (i : nat) (v : byte) : list byte :=
  match a, i with
  | [], _ => []
  | _ :: rest, O => v :: rest
  | c :: rest, S j => c :: set rest j v
  end.

(** [src] copied over the front of [dst], the length of [dst] kept. *)
Definition overwrite (dst src : list byte) : list byte :=
  firstn (length dst) (src ++ skipn (length src) dst).

(* ================================================================= *)
(** ** struct client_data and its object representation *)

Record client_data : Type := mk_client {
  acct_num : Z;               (* unsigned int acct_num  *)
  last_name : list byte;      (* char last_name[15]     *)
  first_name : list byte;     (* char first_name[10]    *)
  balance : Z                 (* double balance         *)
}.

Definition MAX_ACCOUNTS : Z := 100.
Definition MIN_ACCOUNT_NUM : Z := 1.
Definition MAX_ACCOUNT_NUM : Z := 100.
Definition LAST_NAME_SIZE : nat := 15.
Definition FIRST_NAME_SIZE : nat := 10.

(** [sizeof(struct client_data)]: 4 + 15 + 10, three bytes of padding so
    that the double is aligned, and 8. *)
Definition RECORD_SIZE : nat := 40.

(** The bytes [fwrite] takes from a struct and the struct [fread] leaves
    from a block of bytes.  The three bytes of padding are no field of the
    struct: [decode] does not look at them and [encode] writes them as
    zero, where the C program writes whatever the memory of the struct
    holds there (the bytes read from the file in [update_account], the
    contents of the stack for an automatic struct).  The claims on a file
    are therefore stated of the records its blocks decode to ([slot]), of
    its length and of its being unchanged, never of the bytes that a write
    put there. *)
Definition encode (c : client_data) : list byte :=
  le_encode 4 (acct_num c) ++ last_name c ++ first_name c
    ++ repeat x00 3 ++ le_encode 8 (balance c).

Definition decode (bs : list byte) : client_data :=
  {| acct_num := le_decode (firstn 4 bs);
     last_name := firstn LAST_NAME_SIZE (skipn 4 bs);
     first_name := firstn FIRST_NAME_SIZE (skipn 19 bs);
     balance := le_decode (firstn 8 (skipn 32 bs)) |}.

(** A struct as its C type has it. *)
Definition well_typed (c : client_data) : Prop :=
  0 <= acct_num c < UINT_MOD /\
  length (last_name c) = LAST_NAME_SIZE /\
  length (first_name c) = FIRST_NAME_SIZE /\
  0 <= balance c < DOUBLE_MOD.

(** [struct client_data empty_client] with the initialiser
    [{0, (empty string), (empty string), 0.0}]. *)
Definition empty_client : client_data :=
  {| acct_num := 0;
     last_name := char_array LAST_NAME_SIZE String.EmptyString;
     first_name := char_array FIRST_NAME_SIZE String.EmptyString;
     balance := 0 |}.

(** [memset(client, 0, sizeof(struct client_data))] *)
Definition memset_zero : client_data := decode (repeat x00 RECORD_SIZE).

(* ================================================================= *)
(** ** The world and the C library *)

(** The modes the programs open the data file in: rb, wb, rb+ and wb+. *)
Inductive fmode : Type := RB | WB | RBplus | WBplus.

(** A stdio call on the data file, as the ghost log records it. *)
Inductive io_event : Type :=
| EvOpen (mode : fmode) (ok : bool)
| EvSeek (offset : Z)
| EvRead (offset : Z) (got : nat)
| EvWrite (offset : Z) (block : list byte)
| EvClose.

Record World : Type := mk_world {
  w_stdin : list byte;              (* what is left on standard input     *)
  w_disk : option (list byte);      (* accounts.dat, None when missing    *)
  w_fpos : Z;                       (* position of the open stream        *)
  w_log : list io_event;            (* stdio calls made on the data file  *)
  w_shown : list client_data        (* records given to display_client    *)
}.

(** An open stream on the data file; the programs hold one at a time, and
    its position is [w_fpos]. *)
Record FILE : Type := mk_FILE { f_mode : fmode }.

(** What the program text does not fix. *)
Record Env : Type := mk_env {
  scan_uint : list byte -> option Z * list byte;     (* scanf("%u")  *)
  scan_int : list byte -> option Z * list byte;      (* scanf("%d")  *)
  scan_double : list byte -> option Z * list byte;   (* scanf("%lf") *)
  double_add : Z -> Z -> Z;                          (* a + b on doubles *)
  uninit_client : client_data;     (* struct client_data client;  *)
  uninit_last : list byte;         (* char last_name[15];         *)
  uninit_first : list byte         (* char first_name[10];        *)
}.

(** What the C types say of an environment: a double read by [scanf] is 64
    bits wide, and an uninitialised struct still has its arrays. *)
Record env_ok (E : Env) : Prop := mk_env_ok {
  scan_double_range : forall s v r, scan_double E s = (Some v, r) -> 0 <= v < DOUBLE_MOD;
  uninit_client_typed : well_typed (uninit_client E)
}.

(** State passing over the world. *)
Definition M (A : Type) : Type := World -> A * World.

Definition ret {A : Type} (a : A) : M A := fun w => (a, w).

Definition bind {A B : Type} (m : M A) (k : A -> M B) : M B :=
  fun w => let (a, w1) := m w in k a w1.

Notation "x <- m ;; k" := (bind m (fun x => k))
  (at level 61, m at next level, right associativity).
Notation "' pat <- m ;; k" := (bind m (fun x => match x with pat => k end))
  (at level 61, pat pattern, m at next level, right associativity).
Notation "m ;;; k" := (bind m (fun _ => k))
  (at level 61, right associativity).

Definition result {A : Type} (m : M A) (w : World) : A := fst (m w).
Definition after {A : Type} (m : M A) (w : World) : World := snd (m w).

Definition add_log (e : io_event) : M unit :=
  fun w => (tt, mk_world (w_stdin w) (w_disk w) (w_fpos w) (w_log w ++ [e]) (w_shown w)).

Definition set_fpos (p : Z) : M unit :=
  fun w => (tt, mk_world (w_stdin w) (w_disk w) p (w_log w) (w_shown w)).

Definition set_disk (d : option (list byte)) : M unit :=
  fun w => (tt, mk_world (w_stdin w) d (w_fpos w) (w_log w) (w_shown w)).

Definition set_stdin (s : list byte) : M unit :=
  fun w => (tt, mk_world s (w_disk w) (w_fpos w) (w_log w) (w_shown w)).

Definition contents (w : World) : list byte :=
  match w_disk w with Some d => d | None => [] end.

(** *** The data file *)

Definition can_read (m : fmode) : bool :=
  match m with WB => false | _ => true end.

Definition can_write (m : fmode) : bool :=
  match m with RB => false | _ => true end.

Definition creates (m : fmode) : bool :=
  match m with WB | WBplus => true | _ => false end.

(** [n] bytes of the file from offset [off], fewer at the end of the file. *)
Definition file_read_at (d : list byte) (off : Z) (n : nat) : list byte :=
  firstn n (skipn (Z.to_nat off) d).

(** The file after [block] is written at offset [off]; a gap between the end
    of the file and [off] reads as zeros. *)
Definition file_write_at (d : list byte) (off : Z) (block : list byte) : list byte :=
  firstn (Z.to_nat off) d
    ++ repeat x00 (Z.to_nat off - length d)
    ++ block
    ++ skipn (Z.to_nat off + length block) d.

Definition fopen (mode : fmode) : M (option FILE) :=
  fun w =>
    if creates mode then
      (add_log (EvOpen mode true) ;;;
       set_disk (Some []) ;;;
       set_fpos 0 ;;;
       ret (Some (mk_FILE mode))) w
    else
      match w_disk w with
      | None => (add_log (EvOpen mode false) ;;; ret None) w
      | Some _ =>
          (add_log (EvOpen mode true) ;;;
           set_fpos 0 ;;;
           ret (Some (mk_FILE mode))) w
      end.

Definition fclose (f : FILE) : M Z :=
  add_log EvClose ;;; ret 0.

(** [fseek(f, offset, SEEK_SET)] *)
Definition fseek (f : FILE) (offset : Z) : M Z :=
  if offset <? 0 then ret (-1)
  else add_log (EvSeek offset) ;;; set_fpos offset ;;; ret 0.

(** [fread(buf, size, 1, f)]: the count returned and the buffer afterwards.
    A short read leaves the bytes it got over the front of the buffer. *)
Definition fread1 (f : FILE) (size : nat) (buf : list byte) : M (Z * list byte) :=
  fun w =>
    if can_read (f_mode f) then
      let got := file_read_at (contents w) (w_fpos w) size in
      (add_log (EvRead (w_fpos w) (length got)) ;;;
       set_fpos (w_fpos w + Z.of_nat (length got)) ;;;
       ret (if Nat.eqb (length got) size then (1, got)
            else (0, overwrite buf got))) w
    else (0, buf, w).

(** [fwrite(block, size, 1, f)] with [size] the length of [block]. *)
Definition fwrite1 (f : FILE) (block : list byte) : M Z :=
  fun w =>
    if can_write (f_mode f) then
      (add_log (EvWrite (w_fpos w) block) ;;;
       set_disk (Some (file_write_at (contents w) (w_fpos w) block)) ;;;
       set_fpos (w_fpos w + Z.of_nat (length block)) ;;;
       ret 1) w
    else (0, w).

(** [ftell(f)], [fseek(f, 0, SEEK_END)] and [rewind(f)]. *)
Definition ftell (f : FILE) : M Z := fun w => (w_fpos w, w).

Definition fseek_end (f : FILE) : M Z :=
  fun w =>
    let size := Z.of_nat (length (contents w)) in
    (add_log (EvSeek size) ;;; set_fpos size ;;; ret 0) w.

Definition rewind (f : FILE) : M unit :=
  add_log (EvSeek 0) ;;; set_fpos 0.

(** *** Standard input *)

Definition is_newline (c : byte) : bool := Byte.eqb c x0a.

(** [isspace] and [isalpha] in the C locale. *)
Definition isspace (c : byte) : bool :=
  let n := byte_to_Z c in (n =? 32) || ((9 <=? n) && (n <=? 13)).

Definition isalpha (c : byte) : bool :=
  let n := byte_to_Z c in
  ((65 <=? n) && (n <=? 90)) || ((97 <=? n) && (n <=? 122)).

Definition tolower (c : byte) : byte :=
  let n := byte_to_Z c in
  if (65 <=? n) && (n <=? 90) then byte_of_Z (n + 32) else c.

(** What [fgets] with room for [room] characters takes from the input: up to
    and including the first newline. *)
Fixpoint take_line (room : nat) (s : list byte) : list byte * list byte :=
  match room, s with
  | O, _ => ([], s)
  | _, [] => ([], [])
  | S k, c :: rest =>
      if is_newline c then ([c], rest)
      else let (l, r) := take_line k rest in (c :: l, r)
  end.

(** [fgets(buffer, max_length, stdin)]: [None] is the NULL of end of file. *)
Definition fgets (buffer : list byte) (max_length : nat) : M (option (list byte)) :=
  fun w =>
    match w_stdin w with
    | [] => (None, w)
    | _ =>
        let (line, rest) := take_line (max_length - 1) (w_stdin w) in
        (set_stdin rest ;;; ret (Some (overwrite buffer (line ++ [x00])))) w
    end.

(** [while ((c = getchar()) != '\n' && c != EOF);] *)
Fixpoint skip_line (s : list byte) : list byte :=
  match s with
  | [] => []
  | c :: rest => if is_newline c then rest else skip_line rest
  end.

Definition clear_input_buffer : M unit :=
  fun w => set_stdin (skip_line (w_stdin w)) w.

Definition scanf_with (scan : list byte -> option Z * list byte) : M (option Z) :=
  fun w => let (v, rest) := scan (w_stdin w) in (set_stdin rest ;;; ret v) w.

(** [scanf(" %c", &c)]: white space is skipped, then one character read. *)
Fixpoint skip_spaces (s : list byte) : list byte :=
  match s with
  | [] => []
  | c :: rest => if isspace c then skip_spaces rest else s
  end.

Definition scanf_char : M (option byte) :=
  fun w =>
    match skip_spaces (w_stdin w) with
    | [] => (set_stdin [] ;;; ret None) w
    | c :: rest => (set_stdin rest ;;; ret (Some c)) w
    end.

(* ================================================================= *)
(** ** Code common in text to version2.c and version3.c *)

(** [strncpy(dst, src, n)]: the string of [src] cut at [n] characters and
    filled up with NULs to [n], over the front of [dst]. *)
Definition strncpy (dst src : list byte) (n : nat) : list byte :=
  overwrite dst (firstn n (cstr src ++ repeat x00 n)).

Definition copy_name (dst : list byte) (size : nat) (src : option (list byte)) : list byte :=
  match src with
  | Some s => set (strncpy dst s (size - 1)) (size - 1) x00
  | None => set dst 0 x00
  end.

(** [initialize_client] (version2.c 420-440, version3.c 396-417); [client]
    is the struct behind the pointer, which no caller passes as NULL. *)
Definition initialize_client (client : client_data) (acct : Z)
    (last first : option (list byte)) (bal : Z) : client_data :=
  {| acct_num := acct;
     last_name := copy_name (last_name client) LAST_NAME_SIZE last;
     first_name := copy_name (first_name client) FIRST_NAME_SIZE first;
     balance := bal |}.

(** The loop [for (i = 0; i < MAX_ACCOUNTS; i++)] writing the empty record,
    [n] rounds of it; version 2 leaves the loop at the first failed write. *)
Fixpoint write_empty_records (stop_on_error : bool) (n : nat) (f : FILE) : M unit :=
  match n with
  | O => ret tt
  | S k =>
      r <- fwrite1 f (encode empty_client) ;;
      if stop_on_error && negb (r =? 1) then ret tt
      else write_empty_records stop_on_error k f
  end.

(* ================================================================= *)
(** ** version2.c *)

Module V2.

Definition open_data_file (mode : fmode) : M (option FILE) := fopen mode.

Definition close_data_file (file_ptr : option FILE) : M Z :=
  match file_ptr with
  | None => ret (-1)
  | Some f => fclose f
  end.

Definition write_client_to_file (file_ptr : option FILE) (client : client_data)
    (position : Z) : M Z :=
  match file_ptr with
  | None => ret 0
  | Some f =>
      if (position <? 0) || (position >=? MAX_ACCOUNTS) then ret 0
      else
        let file_position := position * Z.of_nat RECORD_SIZE in
        s <- fseek f file_position ;;
        if negb (s =? 0) then ret 0
        else
          written <- fwrite1 f (encode client) ;;
          if written =? 1 then ret 1 else ret 0
  end.

(** The value returned and the struct behind [client] afterwards. *)
Definition read_client_from_file (file_ptr : option FILE) (client : client_data)
    (position : Z) : M (Z * client_data) :=
  match file_ptr with
  | None => ret (0, client)
  | Some f =>
      if (position <? 0) || (position >=? MAX_ACCOUNTS) then ret (0, client)
      else
        let file_position := position * Z.of_nat RECORD_SIZE in
        s <- fseek f file_position ;;
        if negb (s =? 0) then ret (0, client)
        else
          '(read_count, bytes) <- fread1 f RECORD_SIZE (encode client) ;;
          if read_count =? 1 then ret (1, decode bytes)
          else ret (0, memset_zero)
  end.

Definition initialize_data_file : M unit :=
  file_ptr <- fopen WB ;;
  match file_ptr with
  | None => ret tt
  | Some f =>
      write_empty_records true (Z.to_nat MAX_ACCOUNTS) f ;;;
      fclose f ;;;
      ret tt
  end.

(** 123.45 and 555.55 as doubles. *)
Definition d_123_45 : Z := 4638387438405602509.
Definition d_555_55 : Z := 4648097885297469030.

(** [test_file_writing]: record 99 goes to position 10. *)
Definition test_client : client_data :=
  {| acct_num := 99;
     last_name := char_array LAST_NAME_SIZE "TestLast"%string;
     first_name := char_array FIRST_NAME_SIZE "TestFirst"%string;
     balance := d_123_45 |}.

Definition test_file_writing : M Z :=
  file_ptr <- open_data_file WBplus ;;
  match file_ptr with
  | None => ret 0
  | Some _ =>
      ok <- write_client_to_file file_ptr test_client 10 ;;
      if negb (truthy ok) then close_data_file file_ptr ;;; ret 0
      else close_data_file file_ptr ;;; ret 1
  end.

(** [test_file_reading]: record 88 written to position 20 and read back. *)
Definition write_client : client_data :=
  {| acct_num := 88;
     last_name := char_array LAST_NAME_SIZE "ReadTest"%string;
     first_name := char_array FIRST_NAME_SIZE "User"%string;
     balance := d_555_55 |}.

Definition test_file_reading (E : Env) : M Z :=
  file_ptr <- open_data_file RBplus ;;
  match file_ptr with
  | None => ret 0
  | Some _ =>
      write_client_to_file file_ptr write_client 20 ;;;
      '(ok, read_client) <- read_client_from_file file_ptr (uninit_client E) 20 ;;
      if negb (truthy ok) then close_data_file file_ptr ;;; ret 0
      else if (acct_num read_client =? 88)
              && streq (last_name read_client) (lit "ReadTest"%string)
              && (balance read_client =? d_555_55)
      then close_data_file file_ptr ;;; ret 1
      else close_data_file file_ptr ;;; ret 0
  end.

Definition get_file_size (file_ptr : option FILE) : M Z :=
  match file_ptr with
  | None => ret (-1)
  | Some f =>
      current_pos <- ftell f ;;
      s <- fseek_end f ;;
      if negb (s =? 0) then ret (-1)
      else
        file_size <- ftell f ;;
        fseek f current_pos ;;;
        ret file_size
  end.

(** The loop of [count_records], [n] rounds of it: the struct read into and
    the count so far are carried along. *)
Fixpoint count_loop (n : nat) (f : FILE) (client : client_data) (count : Z) : M Z :=
  match n with
  | O => ret count
  | S k =>
      '(r, bytes) <- fread1 f RECORD_SIZE (encode client) ;;
      let client := decode bytes in
      if r =? 1 then
        if negb (acct_num client =? 0) then count_loop k f client (count + 1)
        else count_loop k f client count
      else count_loop k f client count
  end.

Definition count_records (E : Env) (file_ptr : option FILE) : M Z :=
  match file_ptr with
  | None => ret (-1)
  | Some f =>
      rewind f ;;;
      count_loop (Z.to_nat MAX_ACCOUNTS) f (uninit_client E) 0
  end.

(** A row of the table of [display_file_contents], recorded like a shown
    record. *)
Definition print_row (client : client_data) : M unit :=
  fun w => (tt, mk_world (w_stdin w) (w_disk w) (w_fpos w) (w_log w)
                         (w_shown w ++ [client])).

(** The loop of [display_file_contents] from position [i] on, [n] rounds of
    it: the struct read into and the number of rows so far are carried
    along. *)
Fixpoint contents_loop (n : nat) (i : Z) (file_ptr : option FILE)
    (client : client_data) (records_found : Z) : M Z :=
  match n with
  | O => ret records_found
  | S k =>
      '(ok, client) <- read_client_from_file file_ptr client i ;;
      if truthy ok then
        if negb (acct_num client =? 0) then
          print_row client ;;;
          contents_loop k (i + 1) file_ptr client (records_found + 1)
        else contents_loop k (i + 1) file_ptr client records_found
      else contents_loop k (i + 1) file_ptr client records_found
  end.

(** [display_file_contents]; the value is the total it prints, and [None]
    where the file cannot be opened and nothing is printed. *)
Definition display_file_contents (E : Env) : M (option Z) :=
  file_ptr <- open_data_file RB ;;
  match file_ptr with
  | None => ret None
  | Some f =>
      rewind f ;;;
      records_found <- contents_loop (Z.to_nat MAX_ACCOUNTS) 0 file_ptr (uninit_client E) 0 ;;
      close_data_file file_ptr ;;;
      ret (Some records_found)
  end.

(** 100.0 and 200.0 as doubles. *)
Definition d_100 : Z := 4636737291354636288.
Definition d_200 : Z := 4641240890982006784.

(** [test_file_positioning]: records 11 and 22 go to positions 5 and 15 and
    are read back in the other order. *)
Definition client1 : client_data :=
  {| acct_num := 11;
     last_name := char_array LAST_NAME_SIZE "First"%string;
     first_name := char_array FIRST_NAME_SIZE "Client"%string;
     balance := d_100 |}.

Definition client2 : client_data :=
  {| acct_num := 22;
     last_name := char_array LAST_NAME_SIZE "Second"%string;
     first_name := char_array FIRST_NAME_SIZE "Client"%string;
     balance := d_200 |}.

Definition test_file_positioning (E : Env) : M Z :=
  file_ptr <- open_data_file RBplus ;;
  match file_ptr with
  | None => ret 0
  | Some _ =>
      write_client_to_file file_ptr client1 5 ;;;
      write_client_to_file file_ptr client2 15 ;;;
      '(_, read_client) <- read_client_from_file file_ptr (uninit_client E) 15 ;;
      if negb (acct_num read_client =? 22) then close_data_file file_ptr ;;; ret 0
      else
        '(_, read_client) <- read_client_from_file file_ptr read_client 5 ;;
        if negb (acct_num read_client =? 11) then close_data_file file_ptr ;;; ret 0
        else close_data_file file_ptr ;;; ret 1
  end.

End V2.

(* ================================================================= *)
(** ** version3.c *)

Module V3.

(** *** Input validation *)

Definition validate_account_number (acct : Z) : Z :=
  Zb ((acct >=? MIN_ACCOUNT_NUM) && (acct <=? MAX_ACCOUNT_NUM)).

(** The loop of [validate_name] over the characters of the string. *)
Fixpoint name_chars_ok (s : list byte) : bool :=
  match s with
  | [] => true
  | c :: rest =>
      if negb (isalpha c) && negb (Byte.eqb c " ") && negb (Byte.eqb c "-")
         && negb (Byte.eqb c "'")
      then false
      else name_chars_ok rest
  end.

Definition validate_name (name : option (list byte)) : Z :=
  match name with
  | None => 0
  | Some a =>
      let len := strlen a in
      if Nat.eqb len 0 then 0
      else if name_chars_ok (cstr a) then 1 else 0
  end.

Definition get_account_number (E : Env) : M Z :=
  r <- scanf_with (scan_uint E) ;;
  match r with
  | None => clear_input_buffer ;;; ret 0
  | Some acct =>
      clear_input_buffer ;;;
      if negb (truthy (validate_account_number acct)) then ret 0 else ret acct
  end.

Definition get_balance_input (E : Env) : M Z :=
  r <- scanf_with (scan_double E) ;;
  match r with
  | None => clear_input_buffer ;;; ret 0
  | Some amount => clear_input_buffer ;;; ret amount
  end.

(** [while (isspace( *start)) start++;] as the index reached. *)
Fixpoint skip_leading (a : list byte) : nat :=
  match a with
  | [] => O
  | c :: rest => if isspace c then S (skip_leading rest) else O
  end.

(** [while (end > start && isspace( *end)) end--;] with [e] for [end + 1]. *)
Fixpoint trim_end (a : list byte) (start e : nat) : nat :=
  match e with
  | O => O
  | S e' =>
      if (start <? e')%nat && isspace (get a e') then trim_end a start e' else e
  end.

(** The buffer after the trimming of [get_name_input]. *)
Definition trim_buffer (buffer : list byte) : list byte :=
  let len := strlen buffer in
  let buffer :=
    if (0 <? len)%nat && is_newline (get buffer (len - 1))
    then set buffer (len - 1) x00 else buffer in
  let start := skip_leading buffer in
  let e := trim_end buffer start (start + strlen (skipn start buffer)) in
  let buffer := set buffer e x00 in
  if Nat.eqb start 0 then buffer
  else overwrite buffer
         (firstn (strlen (skipn start buffer) + 1) (skipn start buffer)).

Definition get_name_input (buffer : list byte) (max_length : nat) : M (list byte) :=
  r <- fgets buffer max_length ;;
  match r with
  | Some buffer => ret (trim_buffer buffer)
  | None => ret (set buffer 0 x00)
  end.

(** *** Display *)

Definition display_client (client : client_data) : M unit :=
  fun w => (tt, mk_world (w_stdin w) (w_disk w) (w_fpos w) (w_log w)
                         (w_shown w ++ [client])).

(** *** Core file operations *)

Definition open_data_file (mode : fmode) : M (option FILE) := fopen mode.

Definition close_data_file (file_ptr : option FILE) : M Z :=
  match file_ptr with
  | None => ret (-1)
  | Some f => fclose f
  end.

Definition write_client_to_file (file_ptr : option FILE) (client : client_data)
    (position : Z) : M Z :=
  match file_ptr with
  | None => ret 0
  | Some f =>
      if (position <? 0) || (position >=? MAX_ACCOUNTS) then ret 0
      else
        let file_position := position * Z.of_nat RECORD_SIZE in
        s <- fseek f file_position ;;
        if negb (s =? 0) then ret 0
        else
          n <- fwrite1 f (encode client) ;;
          ret (Zb (n =? 1))
  end.

Definition read_client_from_file (file_ptr : option FILE) (client : client_data)
    (position : Z) : M (Z * client_data) :=
  match file_ptr with
  | None => ret (0, client)
  | Some f =>
      if (position <? 0) || (position >=? MAX_ACCOUNTS) then ret (0, client)
      else
        let file_position := position * Z.of_nat RECORD_SIZE in
        s <- fseek f file_position ;;
        if negb (s =? 0) then ret (0, client)
        else
          '(n, bytes) <- fread1 f RECORD_SIZE (encode client) ;;
          ret (Zb (n =? 1), decode bytes)
  end.

(** Lines 740-743 continued by lines 153-162. *)
Definition account_exists (E : Env) (acct : Z) : M Z :=
  if negb (truthy (validate_account_number acct)) then ret 0
  else
    file_ptr <- open_data_file RB ;;
    match file_ptr with
    | None => ret 0
    | Some _ =>
        let position := position_of acct in
        '(success, client) <- read_client_from_file file_ptr (uninit_client E) position ;;
        close_data_file file_ptr ;;;
        ret (Zb (truthy success && negb (acct_num client =? 0)))
    end.

Definition initialize_data_file_if_needed : M unit :=
  test_file <- fopen RB ;;
  match test_file with
  | Some f => fclose f ;;; ret tt
  | None =>
      file_ptr <- fopen WB ;;
      match file_ptr with
      | None => ret tt
      | Some f =>
          write_empty_records false (Z.to_nat MAX_ACCOUNTS) f ;;;
          fclose f ;;;
          ret tt
      end
  end.

(** *** CRUD operations *)

(** Lines 117-153 continued by lines 672-691. *)
Definition create_account (E : Env) : M Z :=
  acct <- get_account_number E ;;
  if acct =? 0 then ret 0
  else
    ex <- account_exists E acct ;;
    if truthy ex then ret 0
    else
      last <- get_name_input (uninit_last E) LAST_NAME_SIZE ;;
      first <- get_name_input (uninit_first E) FIRST_NAME_SIZE ;;
      initial_balance <- get_balance_input E ;;
      if negb (truthy (validate_name (Some last)))
         || negb (truthy (validate_name (Some first)))
      then ret 0
      else
        let new_client :=
          initialize_client (uninit_client E) acct (Some last) (Some first)
                            initial_balance in
        file_ptr <- open_data_file RBplus ;;
        match file_ptr with
        | None => ret 0
        | Some _ =>
            let position := position_of acct in
            success <- write_client_to_file file_ptr new_client position ;;
            close_data_file file_ptr ;;;
            if truthy success then display_client new_client ;;; ret 1
            else ret 0
        end.

Definition read_account (E : Env) : M Z :=
  acct <- get_account_number E ;;
  if acct =? 0 then ret 0
  else
    file_ptr <- open_data_file RB ;;
    match file_ptr with
    | None => ret 0
    | Some _ =>
        let position := position_of acct in
        '(success, client) <- read_client_from_file file_ptr (uninit_client E) position ;;
        close_data_file file_ptr ;;;
        if truthy success && negb (acct_num client =? 0)
        then display_client client ;;; ret 1
        else ret 0
    end.

Definition with_balance (c : client_data) (b : Z) : client_data :=
  mk_client (acct_num c) (last_name c) (first_name c) b.

Definition with_names (c : client_data) (last first : list byte) : client_data :=
  mk_client (acct_num c) last first (balance c).

(** The end of [update_account]: "Write updated record". *)
Definition write_updated (file_ptr : option FILE) (client : client_data)
    (position : Z) : M Z :=
  success <- write_client_to_file file_ptr client position ;;
  close_data_file file_ptr ;;;
  if truthy success then display_client client ;;; ret 1 else ret 0.

Definition update_account (E : Env) : M Z :=
  acct <- get_account_number E ;;
  if acct =? 0 then ret 0
  else
    file_ptr <- open_data_file RBplus ;;
    match file_ptr with
    | None => ret 0
    | Some _ =>
        let position := position_of acct in
        '(success, client) <- read_client_from_file file_ptr (uninit_client E) position ;;
        if negb (truthy success) || (acct_num client =? 0)
        then close_data_file file_ptr ;;; ret 0
        else
          display_client client ;;;
          r <- scanf_with (scan_int E) ;;
          match r with
          | None => clear_input_buffer ;;; close_data_file file_ptr ;;; ret 0
          | Some choice =>
              clear_input_buffer ;;;
              if choice =? 1 then
                transaction <- get_balance_input E ;;
                let client :=
                  with_balance client (double_add E (balance client) transaction) in
                write_updated file_ptr client position
              else if choice =? 2 then
                last <- get_name_input (last_name client) LAST_NAME_SIZE ;;
                first <- get_name_input (first_name client) FIRST_NAME_SIZE ;;
                let client := with_names client last first in
                if negb (truthy (validate_name (Some (last_name client))))
                   || negb (truthy (validate_name (Some (first_name client))))
                then close_data_file file_ptr ;;; ret 0
                else write_updated file_ptr client position
              else if choice =? 3 then
                last <- get_name_input (last_name client) LAST_NAME_SIZE ;;
                first <- get_name_input (first_name client) FIRST_NAME_SIZE ;;
                new_balance <- get_balance_input E ;;
                let client := with_balance (with_names client last first) new_balance in
                if negb (truthy (validate_name (Some (last_name client))))
                   || negb (truthy (validate_name (Some (first_name client))))
                then close_data_file file_ptr ;;; ret 0
                else write_updated file_ptr client position
              else close_data_file file_ptr ;;; ret 0
          end
    end.

(** The warning printed for a balance that is not zero changes nothing but
    the output, which is not modelled. *)
Definition delete_account (E : Env) : M Z :=
  acct <- get_account_number E ;;
  if acct =? 0 then ret 0
  else
    file_ptr <- open_data_file RBplus ;;
    match file_ptr with
    | None => ret 0
    | Some _ =>
        let position := position_of acct in
        '(success, client) <- read_client_from_file file_ptr (uninit_client E) position ;;
        if negb (truthy success) || (acct_num client =? 0)
        then close_data_file file_ptr ;;; ret 0
        else
          display_client client ;;;
          r <- scanf_char ;;
          match r with
          | None => clear_input_buffer ;;; close_data_file file_ptr ;;; ret 0
          | Some confirmation =>
              clear_input_buffer ;;;
              if negb (Byte.eqb (tolower confirmation) "y")
              then close_data_file file_ptr ;;; ret 0
              else
                success <- write_client_to_file file_ptr empty_client position ;;
                close_data_file file_ptr ;;;
                if truthy success then ret 1 else ret 0
          end
    end.

(** *** The report of all accounts *)

(** A row of the report, recorded like a displayed record. *)
Definition print_account_row (client : client_data) : M unit :=
  display_client client.

(** The loop of [display_all_accounts] from slot [i] on, [n] rounds of it.
    The totals it adds up are only printed, and not modelled. *)
Fixpoint report_loop (n : nat) (i : Z) (file_ptr : option FILE)
    (client : client_data) : M unit :=
  match n with
  | O => ret tt
  | S k =>
      '(ok, client) <- read_client_from_file file_ptr client i ;;
      (if truthy ok && negb (acct_num client =? 0)
       then print_account_row client else ret tt) ;;;
      report_loop k (i + 1) file_ptr client
  end.

Definition display_all_accounts (E : Env) : M unit :=
  file_ptr <- open_data_file RB ;;
  match file_ptr with
  | None => ret tt
  | Some _ =>
      report_loop (Z.to_nat MAX_ACCOUNTS) 0 file_ptr (uninit_client E) ;;;
      close_data_file file_ptr ;;;
      ret tt
  end.

(** *** Tests *)

(** 100.0 and 50.0 as doubles. *)
Definition d_100 : Z := 4636737291354636288.
Definition d_50 : Z := 4632233691727265792.

Definition test_crud_operations (E : Env) : M Z :=
  file_ptr <- open_data_file RBplus ;;
  match file_ptr with
  | None => ret 0
  | Some _ =>
      let test_client :=
        initialize_client (uninit_client E) 99 (Some (lit "TestLast"%string))
                          (Some (lit "TestFirst"%string)) d_100 in
      ok <- write_client_to_file file_ptr test_client 98 ;;
      if negb (truthy ok) then close_data_file file_ptr ;;; ret 0
      else
        '(ok, read_client) <- read_client_from_file file_ptr (uninit_client E) 98 ;;
        if negb (truthy ok) then close_data_file file_ptr ;;; ret 0
        else
          let read_client :=
            with_balance read_client (double_add E (balance read_client) d_50) in
          ok <- write_client_to_file file_ptr read_client 98 ;;
          if negb (truthy ok) then close_data_file file_ptr ;;; ret 0
          else
            ok <- write_client_to_file file_ptr empty_client 98 ;;
            if negb (truthy ok) then close_data_file file_ptr ;;; ret 0
            else close_data_file file_ptr ;;; ret 1
  end.

Definition test_input_validation : Z :=
  if negb (truthy (validate_account_number 50))
     || truthy (validate_account_number 0)
     || truthy (validate_account_number 101)
  then 0
  else if negb (truthy (validate_name (Some (lit "Smith"%string))))
          || truthy (validate_name (Some (lit String.EmptyString)))
          || truthy (validate_name (Some (lit "123"%string)))
  then 0
  else 1.

(** 200.0 as a double. *)
Definition d_200 : Z := 4641240890982006784.

Definition test_account : client_data :=
  {| acct_num := 77;
     last_name := char_array LAST_NAME_SIZE "Manager"%string;
     first_name := char_array FIRST_NAME_SIZE "Test"%string;
     balance := d_200 |}.

Definition test_account_management (E : Env) : M Z :=
  file_ptr <- open_data_file RBplus ;;
  match file_ptr with
  | None => ret 0
  | Some _ =>
      write_client_to_file file_ptr test_account 76 ;;;
      close_data_file file_ptr ;;;
      e77 <- account_exists E 77 ;;
      if negb (truthy e77) then ret 0
      else
        e88 <- account_exists E 88 ;;
        if truthy e88 then ret 0 else ret 1
  end.

End V3.

(* ================================================================= *)
(** ** The store as the specification sees it *)

(** The record at slot [i] of a file, when the file reaches that far. *)
Definition slot (d : list byte) (i : Z) : option client_data :=
  let block := file_read_at d (i * Z.of_nat RECORD_SIZE) RECORD_SIZE in
  if Nat.eqb (length block) RECORD_SIZE then Some (decode block) else None.

Definition occupied (d : list byte) (i : Z) : Prop :=
  exists c, slot d i = Some c /\ acct_num c <> 0.

(** An initialised store: 100 slots, and an id stored at slot [i] is 0 or
    [i + 1]. *)
Definition store_inv (d : list byte) : Prop :=
  length d = (Z.to_nat MAX_ACCOUNTS * RECORD_SIZE)%nat /\
  forall i c, 0 <= i < MAX_ACCOUNTS -> slot d i = Some c ->
              acct_num c <> 0 -> acct_num c = i + 1.

(** The characters a name may be made of. *)
Definition name_char (c : byte) : Prop :=
  (65 <= byte_to_Z c <= 90) \/ (97 <= byte_to_Z c <= 122)
  \/ c = " "%byte \/ c = "-"%byte \/ c = "'"%byte.

(** A char array holds a string: there is a NUL in it. *)
Definition terminated (a : list byte) : Prop := In x00 a.

(** Stdio calls a run adds to the log. *)
Definition wrote (e : io_event) : bool :=
  match e with EvWrite _ _ => true | _ => false end.

(** A sample environment, for running the program on an input: [scanf]
    skips white space and reads decimal digits (for a double, the digits
    are taken as its bit pattern), the sum of doubles is that of their
    patterns, and uninitialised variables hold zeros. *)
Fixpoint scan_digits (acc : Z) (seen : bool) (s : list byte) : option Z * list byte :=
  match s with
  | [] => (if seen then Some acc else None, [])
  | c :: rest =>
      let n := byte_to_Z c in
      if (48 <=? n) && (n <=? 57)
      then scan_digits (acc * 10 + (n - 48)) true rest
      else (if seen then Some acc else None, s)
  end.

Definition sample_scan (m : Z) (s : list byte) : option Z * list byte :=
  match scan_digits 0 false (skip_spaces s) with
  | (Some v, r) => (Some (v mod m), r)
  | (None, r) => (None, r)
  end.

Definition sample_env : Env :=
  {| scan_uint := sample_scan UINT_MOD;
     scan_int := sample_scan UINT_MOD;
     scan_double := sample_scan DOUBLE_MOD;
     double_add := fun a b => (a + b) mod DOUBLE_MOD;
     uninit_client := memset_zero;
     uninit_last := repeat x00 LAST_NAME_SIZE;
     uninit_first := repeat x00 FIRST_NAME_SIZE |}.

Definition input (s : String.string) (d : option (list byte)) : World :=
  mk_world (String.list_byte_of_string s) d 0 [] [].

(** What a computation that only reads standard input makes of the input
    [s]: its value and the input left. *)
Definition on_stdin {A : Type} (m : M A) (s : list byte) : A * list byte :=
  let (a, w) := m (mk_world s None 0 [] []) in (a, w_stdin w).

Definition put_stdin (s : list byte) (w : World) : World :=
  mk_world s (w_disk w) (w_fpos w) (w_log w) (w_shown w).

(** The answers [create_account] takes from the input [s]: account number,
    last name, first name and balance, in the order it asks for them. *)
Definition create_form (E : Env) (s : list byte) : Z * list byte * list byte * Z :=
  let (acct, s1) := on_stdin (V3.get_account_number E) s in
  let (last, s2) := on_stdin (V3.get_name_input (uninit_last E) LAST_NAME_SIZE) s1 in
  let (first, s3) := on_stdin (V3.get_name_input (uninit_first E) FIRST_NAME_SIZE) s2 in
  let (bal, _) := on_stdin (V3.get_balance_input E) s3 in
  (acct, last, first, bal).

(** The answers [delete_account] takes: account number and confirmation. *)
Definition delete_form (E : Env) (s : list byte) : Z * option byte :=
  let (acct, s1) := on_stdin (V3.get_account_number E) s in
  let (c, _) := on_stdin scanf_char s1 in
  (acct, c).

(** [store_inv] as a check. *)
Definition slot_ok (d : list byte) (i : Z) : bool :=
  match slot d i with
  | Some c => (acct_num c =? 0) || (acct_num c =? i + 1)
  | None => true
  end.

Definition store_invb (d : list byte) : bool :=
  Nat.eqb (length d) (Z.to_nat MAX_ACCOUNTS * RECORD_SIZE)
  && forallb (fun i => slot_ok d (Z.of_nat i)) (seq 0 (Z.to_nat MAX_ACCOUNTS)).

(** The file of 100 empty records. *)
Definition fresh_store : list byte :=
  concat (repeat (encode empty_client) (Z.to_nat MAX_ACCOUNTS)).

(* ================================================================= *)
(** ** Vocabulary of the statements *)

(** [m] reads standard input and touches nothing else of the world. *)
Definition stdin_only {A : Type} (m : M A) : Prop :=
  forall w, m w = (fst (on_stdin m (w_stdin w)),
                   put_stdin (snd (on_stdin m (w_stdin w))) w).

(** [position * RECORD_SIZE], the offset of a slot in the file. *)
Definition slot_offset (p : Z) : Z := p * Z.of_nat RECORD_SIZE.

(** The stdio calls of [account_exists] on slot [p] of the file [d]. *)
Definition probe_log (d : list byte) (p : Z) : list io_event :=
  [EvOpen RB true; EvSeek (slot_offset p);
   EvRead (slot_offset p) (length (file_read_at d (slot_offset p) RECORD_SIZE));
   EvClose].

(** [occupied] as a check. *)
Definition occupiedb (d : list byte) (p : Z) : bool :=
  match slot d p with
  | Some c => negb (acct_num c =? 0)
  | None => false
  end.

(** The record Create builds from its answers. *)
Definition new_record (E : Env) (n : Z) (last first : list byte) (bal : Z) : client_data :=
  initialize_client (uninit_client E) n (Some last) (Some first) bal.

(** Both names pass [validate_name]. *)
Definition names_valid (last first : list byte) : bool :=
  truthy (V3.validate_name (Some last)) && truthy (V3.validate_name (Some first)).

(** The stdio calls of a Create that stores record [c] of id [n]. *)
Definition create_log (d : list byte) (n : Z) (c : client_data) : list io_event :=
  probe_log d (n - 1)
    ++ [EvOpen RBplus true; EvSeek (slot_offset (n - 1));
        EvWrite (slot_offset (n - 1)) (encode c); EvClose].

(** No call of [l] is a write. *)
Definition reads_only (l : list io_event) : bool :=
  forallb (fun e => negb (wrote e)) l.

(** The answer to the confirmation of Delete is y or Y. *)
Definition confirmed (conf : option byte) : bool :=
  match conf with
  | Some c => Byte.eqb (tolower c) "y"
  | None => false
  end.

(** [n] writes of the empty record, one slot after the other from offset
    [from] on. *)
Definition empty_writes (from : Z) (n : nat) : list io_event :=
  map (fun i => EvWrite (from + slot_offset (Z.of_nat i)) (encode empty_client))
      (seq 0 n).

(** The stdio calls of an initialisation with [n] records. *)
Definition init_log (n : nat) : list io_event :=
  EvOpen WB true :: empty_writes 0 n ++ [EvClose].

(** Standard input as typed: every answer followed by a newline. *)
Definition lines (l : list String.string) : list byte :=
  flat_map (fun s => String.list_byte_of_string s ++ [x0a]) l.

(** A world with the data file [d] and the answers [l] waiting on input. *)
Definition typed (l : list String.string) (d : list byte) : World :=
  mk_world (lines l) (Some d) 0 [] [].

(** [d'] is the file [d] with the record [c] at slot [p]: it is as long as
    [d], its slot [p] reads [c], and every other slot reads what it read
    in [d]. *)
Definition slot_set (d d' : list byte) (p : Z) (c : client_data) : Prop :=
  length d' = length d
  /\ slot d' p = Some c
  /\ forall i, 0 <= i -> i <> p -> slot d' i = slot d i.

(** What a Create may leave on the disk: the file as it was, or a record of
    id [n] at slot [n - 1], which was not occupied. *)
Definition created (d d' : list byte) : Prop :=
  d' = d \/
  exists n c,
    1 <= n <= 100 /\ ~ occupied d (n - 1) /\ acct_num c = n
    /\ slot_set d d' (n - 1) c.

(** What an Update may leave on the disk: the file as it was, or at one
    occupied slot a record with the id of the record that was there. *)
Definition updated (d d' : list byte) : Prop :=
  d' = d \/
  exists p c c',
    0 <= p < MAX_ACCOUNTS /\ slot d p = Some c /\ acct_num c <> 0
    /\ acct_num c' = acct_num c
    /\ slot_set d d' p c'.

(** What a Delete may leave on the disk: the file as it was, or the empty
    record at slot [n - 1], which was occupied. *)
Definition deleted (d d' : list byte) : Prop :=
  d' = d \/
  exists n,
    1 <= n <= 100 /\ occupied d (n - 1)
    /\ slot_set d d' (n - 1) empty_client.

(** The writes of a log in the order of the calls: the offset, the number
    of bytes and the record that the bytes written decode to. *)
Definition writes (l : list io_event) : list (Z * nat * client_data) :=
  flat_map (fun e => match e with
                     | EvWrite offset block => [(offset, length block, decode block)]
                     | _ => []
                     end) l.

(** The writes of an initialisation: the empty record at the offsets of the
    slots 0, 1, ..., [n - 1], in this order. *)
Definition empty_records (n : nat) : list (Z * nat * client_data) :=
  map (fun i => (slot_offset (Z.of_nat i), RECORD_SIZE, empty_client)) (seq 0 n).


(** White space taken off the end of a string. *)
Definition strip_trailing (s : list byte) : list byte :=
  rev (skip_spaces (rev s)).

(** A string without the newline it may end with. *)
Definition chomp (s : list byte) : list byte :=
  match rev s with
  | c :: r => if is_newline c then rev r else s
  | [] => s
  end.

(** A line as [get_name_input] keeps it: the newline at its end and the
    white space on both sides removed. *)
Definition trimmed (s : list byte) : list byte :=
  strip_trailing (skip_spaces (chomp s)).

(** The record of slot [j] when the slot is occupied, as a list. *)
Definition record_at (d : list byte) (j : nat) : list client_data :=
  match slot d (Z.of_nat j) with
  | Some c => if acct_num c =? 0 then [] else [c]
  | None => []
  end.

(** The records of the occupied slots among the [n] slots from [from] on,
    in the order of the slots. *)
Definition records_from (d : list byte) (from n : nat) : list client_data :=
  flat_map (record_at d) (seq from n).

(** The accounts of a store: the records of its occupied slots 0..99. *)
Definition accounts (d : list byte) : list client_data :=
  records_from d 0 (Z.to_nat MAX_ACCOUNTS).

(** The answers [update_account] takes first, the account number and the
    choice of the menu, and the input left after them. *)
Definition update_form (E : Env) (s : list byte) : Z * option Z * list byte :=
  let (acct, s1) := on_stdin (V3.get_account_number E) s in
  let (choice, s2) := on_stdin (scanf_with (scan_int E)) s1 in
  (acct, choice, skip_line s2).

(** The two names [update_account] reads into the record [c]. *)
Definition update_names (c : client_data) (s : list byte) : list byte * list byte * list byte :=
  let (last, s1) := on_stdin (V3.get_name_input (last_name c) LAST_NAME_SIZE) s in
  let (first, s2) := on_stdin (V3.get_name_input (first_name c) FIRST_NAME_SIZE) s1 in
  (last, first, s2).

(* ================================================================= *)
(** * Lemmas *)

(* ================================================================= *)
(** ** Bytes and little-endian integers *)

Lemma byte_to_Z_range (b : byte) : 0 <= byte_to_Z b < 256.
Proof.
  unfold byte_to_Z. pose proof (Byte.to_N_bounded b). lia.
Qed.

Lemma byte_to_of_Z (z : Z) : byte_to_Z (byte_of_Z z) = z mod 256.
Proof.
  unfold byte_of_Z, byte_to_Z.
  pose proof (Z.mod_pos_bound z 256 ltac:(lia)) as Hr.
  destruct (Byte.of_N (Z.to_N (z mod 256))) as [b|] eqn:Hb.
  - apply Byte.to_of_N in Hb. rewrite Hb. lia.
  - apply Byte.of_N_None_iff in Hb. lia.
Qed.

Lemma byte_of_to_Z (b : byte) : byte_of_Z (byte_to_Z b) = b.
Proof.
  unfold byte_of_Z. pose proof (byte_to_Z_range b) as Hr.
  rewrite Z.mod_small by lia. unfold byte_to_Z.
  rewrite N2Z.id, Byte.of_to_N. reflexivity.
Qed.

Lemma byte_eqb_eq (a b : byte) : Byte.eqb a b = true <-> a = b.
Proof.
  split; [apply Byte.byte_dec_bl | apply Byte.byte_dec_lb].
Qed.

Lemma byte_eqb_neq (a b : byte) : Byte.eqb a b = false <-> a <> b.
Proof.
  split.
  - intros H Heq. apply byte_eqb_eq in Heq. congruence.
  - intros H. destruct (Byte.eqb a b) eqn:Hab; [|reflexivity].
    apply byte_eqb_eq in Hab. contradiction.
Qed.

Lemma le_encode_length (n : nat) (z : Z) : length (le_encode n z) = n.
Proof.
  revert z. induction n as [|n IH]; intros z; simpl; [reflexivity|].
  now rewrite IH.
Qed.

Lemma le_decode_encode (n : nat) (z : Z) :
  le_decode (le_encode n z) = z mod 256 ^ Z.of_nat n.
Proof.
  revert z. induction n as [|n IH]; intros z.
  - simpl. now rewrite Z.mod_1_r.
  - cbn [le_encode le_decode]. rewrite IH, byte_to_of_Z.
    rewrite Nat2Z.inj_succ, Z.pow_succ_r by lia.
    rewrite Z.rem_mul_r by lia. reflexivity.
Qed.

Lemma le_decode_range (bs : list byte) :
  0 <= le_decode bs < 256 ^ Z.of_nat (length bs).
Proof.
  induction bs as [|b bs IH].
  - simpl. lia.
  - cbn [le_decode length]. rewrite Nat2Z.inj_succ, Z.pow_succ_r by lia.
    pose proof (byte_to_Z_range b). lia.
Qed.

Lemma le_decode_zeros (n : nat) : le_decode (repeat x00 n) = 0.
Proof.
  induction n as [|n IH]; simpl; [reflexivity|].
  rewrite IH. reflexivity.
Qed.

(* ================================================================= *)
(** ** Lists: arrays and file blocks *)

Lemma set_length (a : list byte) (i : nat) (v : byte) : length (set a i v) = length a.
Proof.
  revert i. induction a as [|c a IH]; intros [|i]; simpl; auto.
Qed.

Lemma overwrite_length (dst src : list byte) : length (overwrite dst src) = length dst.
Proof.
  unfold overwrite. rewrite length_firstn, length_app, length_skipn. lia.
Qed.

Lemma firstn_skipn_app_l {A : Type} (n k : nat) (a x : list A) :
  (k + n <= length a)%nat ->
  firstn n (skipn k (a ++ x)) = firstn n (skipn k a).
Proof.
  intros H. rewrite skipn_app, firstn_app, length_skipn.
  replace (n - (length a - k))%nat with 0%nat by lia.
  replace (k - length a)%nat with 0%nat by lia.
  simpl. now rewrite app_nil_r.
Qed.

Lemma skipn_app_r {A : Type} (k : nat) (a x : list A) :
  (length a <= k)%nat -> skipn k (a ++ x) = skipn (k - length a) x.
Proof.
  intros H. rewrite skipn_app, skipn_all2 by lia. reflexivity.
Qed.

(* ================================================================= *)
(** ** The record codec *)

Lemma encode_length (c : client_data) :
  length (last_name c) = LAST_NAME_SIZE ->
  length (first_name c) = FIRST_NAME_SIZE ->
  length (encode c) = RECORD_SIZE.
Proof.
  intros Hl Hf. unfold encode.
  rewrite !length_app, !le_encode_length, Hl, Hf, repeat_length. reflexivity.
Qed.

Lemma decode_encode_fields (c : client_data) :
  length (last_name c) = LAST_NAME_SIZE ->
  length (first_name c) = FIRST_NAME_SIZE ->
  decode (encode c) =
    mk_client (acct_num c mod UINT_MOD) (last_name c) (first_name c)
              (balance c mod DOUBLE_MOD).
Proof.
  intros Hl Hf. destruct c as [a l f b]. cbn [acct_num last_name first_name balance] in *.
  unfold decode, encode. cbn [acct_num last_name first_name balance].
  assert (H4 : length (le_encode 4 a) = 4%nat) by apply le_encode_length.
  assert (H8 : length (le_encode 8 b) = 8%nat) by apply le_encode_length.
  f_equal.
  - rewrite firstn_app, H4. simpl (4 - 4)%nat. rewrite firstn_O, app_nil_r.
    rewrite firstn_all2 by lia. apply le_decode_encode.
  - rewrite skipn_app_r by lia. rewrite H4. simpl (4 - 4)%nat. rewrite skipn_O.
    rewrite firstn_app, Hl. unfold LAST_NAME_SIZE. simpl (15 - 15)%nat.
    rewrite firstn_O, app_nil_r. apply firstn_all2. unfold LAST_NAME_SIZE in Hl. lia.
  - rewrite skipn_app_r by lia. rewrite H4.
    rewrite skipn_app_r by (rewrite Hl; unfold LAST_NAME_SIZE; lia).
    rewrite Hl. unfold LAST_NAME_SIZE. simpl (19 - 4 - 15)%nat. rewrite skipn_O.
    rewrite firstn_app, Hf. unfold FIRST_NAME_SIZE. simpl (10 - 10)%nat.
    rewrite firstn_O, app_nil_r. apply firstn_all2. unfold FIRST_NAME_SIZE in Hf. lia.
  - rewrite skipn_app_r by lia. rewrite H4.
    rewrite skipn_app_r by (rewrite Hl; unfold LAST_NAME_SIZE; lia).
    rewrite Hl. unfold LAST_NAME_SIZE.
    rewrite skipn_app_r by (rewrite Hf; unfold FIRST_NAME_SIZE; lia).
    rewrite Hf. unfold FIRST_NAME_SIZE.
    rewrite skipn_app_r by (rewrite repeat_length; lia).
    rewrite repeat_length. simpl (32 - 4 - 15 - 10 - 3)%nat. rewrite skipn_O.
    rewrite firstn_all2 by lia. apply le_decode_encode.
Qed.

Lemma decode_encode (c : client_data) : well_typed c -> decode (encode c) = c.
Proof.
  intros (Ha & Hl & Hf & Hb). rewrite decode_encode_fields by assumption.
  destruct c as [a l f b]. cbn [acct_num last_name first_name balance] in *.
  rewrite !Z.mod_small by assumption. reflexivity.
Qed.

Lemma decode_well_typed (bs : list byte) :
  length bs = RECORD_SIZE -> well_typed (decode bs).
Proof.
  intros H. unfold well_typed, decode. cbn [acct_num last_name first_name balance].
  unfold RECORD_SIZE in H. repeat split.
  - apply le_decode_range.
  - pose proof (le_decode_range (firstn 4 bs)) as Hr.
    rewrite length_firstn in Hr. replace (Nat.min 4 (length bs)) with 4%nat in Hr by lia.
    exact (proj2 Hr).
  - rewrite length_firstn, length_skipn. unfold LAST_NAME_SIZE. lia.
  - rewrite length_firstn, length_skipn. unfold FIRST_NAME_SIZE. lia.
  - apply le_decode_range.
  - pose proof (le_decode_range (firstn 8 (skipn 32 bs))) as Hr.
    rewrite length_firstn, length_skipn in Hr.
    replace (Nat.min 8 (length bs - 32)) with 8%nat in Hr by lia.
    exact (proj2 Hr).
Qed.

Lemma memset_zero_empty : memset_zero = empty_client.
Proof. reflexivity. Qed.

Lemma empty_client_typed : well_typed empty_client.
Proof.
  unfold well_typed. cbn. repeat split; try reflexivity; lia.
Qed.

Lemma encode_empty : encode empty_client = repeat x00 RECORD_SIZE.
Proof. reflexivity. Qed.

(* ================================================================= *)
(** ** Positioned reads and writes on the file *)

Lemma file_read_write_same (d block : list byte) (off : Z) :
  file_read_at (file_write_at d off block) off (length block) = block.
Proof.
  unfold file_read_at, file_write_at.
  rewrite app_assoc, skipn_app_r
    by (rewrite length_app, length_firstn, repeat_length; lia).
  rewrite length_app, length_firstn, repeat_length.
  replace (Z.to_nat off - _)%nat with 0%nat by lia.
  rewrite skipn_O, firstn_app, Nat.sub_diag, firstn_O, app_nil_r.
  apply firstn_all.
Qed.

Lemma file_write_length (d block : list byte) (off : Z) :
  (Z.to_nat off + length block <= length d)%nat ->
  length (file_write_at d off block) = length d.
Proof.
  intros H. unfold file_write_at.
  rewrite !length_app, length_firstn, repeat_length, length_skipn. lia.
Qed.

Lemma file_read_write_other (d block : list byte) (off off' : Z) (n : nat) :
  (Z.to_nat off + length block <= length d)%nat ->
  (Z.to_nat off' + n <= Z.to_nat off)%nat
  \/ (Z.to_nat off + length block <= Z.to_nat off')%nat ->
  file_read_at (file_write_at d off block) off' n = file_read_at d off' n.
Proof.
  intros Hin Hsep. unfold file_read_at, file_write_at.
  replace (Z.to_nat off - length d)%nat with 0%nat by lia.
  cbn [repeat app]. destruct Hsep as [Hb | Ha].
  - rewrite firstn_skipn_app_l by (rewrite length_firstn; lia).
    rewrite <- (firstn_skipn (Z.to_nat off) d) at 2.
    rewrite firstn_skipn_app_l by (rewrite length_firstn; lia).
    reflexivity.
  - rewrite app_assoc, skipn_app_r
      by (rewrite length_app, length_firstn; lia).
    rewrite length_app, length_firstn, skipn_skipn.
    f_equal. f_equal. lia.
Qed.

Lemma slot_write_same (d : list byte) (c : client_data) (p : Z) :
  length (encode c) = RECORD_SIZE ->
  slot (file_write_at d (p * Z.of_nat RECORD_SIZE) (encode c)) p
  = Some (decode (encode c)).
Proof.
  intros Hlen. unfold slot.
  pose proof (file_read_write_same d (encode c) (p * Z.of_nat RECORD_SIZE)) as H.
  rewrite Hlen in H. rewrite H, Hlen, Nat.eqb_refl. reflexivity.
Qed.

Lemma slot_write_other (d : list byte) (c : client_data) (p i : Z) :
  length (encode c) = RECORD_SIZE ->
  0 <= p -> 0 <= i -> i <> p ->
  ((Z.to_nat p + 1) * RECORD_SIZE <= length d)%nat ->
  slot (file_write_at d (p * Z.of_nat RECORD_SIZE) (encode c)) i = slot d i.
Proof.
  intros Hlen Hp Hi Hne Hin. unfold slot.
  rewrite file_read_write_other; [reflexivity | |].
  - rewrite Hlen. unfold RECORD_SIZE in *. lia.
  - rewrite Hlen. unfold RECORD_SIZE in *. lia.
Qed.

Lemma slot_length (d : list byte) (i : Z) (c : client_data) :
  0 <= i -> slot d i = Some c ->
  ((Z.to_nat i + 1) * RECORD_SIZE <= length d)%nat.
Proof.
  intros Hi. unfold slot, file_read_at.
  destruct (Nat.eqb _ RECORD_SIZE) eqn:He; [|discriminate].
  intros _. apply Nat.eqb_eq in He.
  rewrite length_firstn, length_skipn in He.
  unfold RECORD_SIZE in *. lia.
Qed.

Lemma slot_typed (d : list byte) (i : Z) (c : client_data) :
  slot d i = Some c -> well_typed c.
Proof.
  unfold slot. destruct (Nat.eqb _ RECORD_SIZE) eqn:He; [|discriminate].
  intros [= <-]. apply decode_well_typed. now apply Nat.eqb_eq.
Qed.

(* ================================================================= *)
(** ** Computations that only read standard input *)

Lemma put_stdin_same (w : World) : put_stdin (w_stdin w) w = w.
Proof. now destruct w. Qed.

Lemma stdin_only_ret {A : Type} (a : A) : stdin_only (ret a).
Proof.
  intros w. unfold on_stdin, ret. cbn. now rewrite put_stdin_same.
Qed.

Lemma stdin_only_bind {A B : Type} (m : M A) (k : A -> M B) :
  stdin_only m -> (forall a, stdin_only (k a)) -> stdin_only (bind m k).
Proof.
  intros Hm Hk w. unfold on_stdin, bind.
  rewrite (Hm (mk_world (w_stdin w) None 0 [] [])), (Hm w).
  cbn [w_stdin].
  destruct (on_stdin m (w_stdin w)) as [a s1]. cbn [fst snd].
  rewrite (Hk a (put_stdin s1 w)), (Hk a (put_stdin s1 (mk_world _ _ _ _ _))).
  cbn [w_stdin put_stdin fst snd w_disk w_fpos w_log w_shown].
  reflexivity.
Qed.

Lemma stdin_only_set_stdin (f : list byte -> list byte) :
  stdin_only (fun w => set_stdin (f (w_stdin w)) w).
Proof. intros w. reflexivity. Qed.

Lemma stdin_only_clear : stdin_only clear_input_buffer.
Proof. intros w. reflexivity. Qed.

Lemma stdin_only_scanf_with (scan : list byte -> option Z * list byte) :
  stdin_only (scanf_with scan).
Proof.
  intros w. unfold on_stdin, scanf_with. cbn [w_stdin].
  destruct (scan (w_stdin w)) as [v rest]. reflexivity.
Qed.

Lemma stdin_only_scanf_char : stdin_only scanf_char.
Proof.
  intros w. unfold on_stdin, scanf_char. cbn [w_stdin].
  destruct (skip_spaces (w_stdin w)); reflexivity.
Qed.

Lemma stdin_only_fgets (buffer : list byte) (n : nat) : stdin_only (fgets buffer n).
Proof.
  intros w. unfold on_stdin, fgets. cbn [w_stdin].
  destruct (w_stdin w) as [|c s] eqn:Hs.
  - cbn. rewrite <- Hs. now rewrite put_stdin_same.
  - destruct (take_line (n - 1) (c :: s)) as [line rest]. reflexivity.
Qed.

Lemma stdin_only_get_account_number (E : Env) : stdin_only (V3.get_account_number E).
Proof.
  unfold V3.get_account_number.
  apply stdin_only_bind; [apply stdin_only_scanf_with|].
  intros [acct|].
  - apply stdin_only_bind; [apply stdin_only_clear|]. intros _.
    destruct (negb _); apply stdin_only_ret.
  - apply stdin_only_bind; [apply stdin_only_clear|]. intros _.
    apply stdin_only_ret.
Qed.

Lemma stdin_only_get_balance_input (E : Env) : stdin_only (V3.get_balance_input E).
Proof.
  unfold V3.get_balance_input.
  apply stdin_only_bind; [apply stdin_only_scanf_with|].
  intros [amount|]; (apply stdin_only_bind; [apply stdin_only_clear|]);
    intros _; apply stdin_only_ret.
Qed.

Lemma stdin_only_get_name_input (buffer : list byte) (n : nat) :
  stdin_only (V3.get_name_input buffer n).
Proof.
  unfold V3.get_name_input.
  apply stdin_only_bind; [apply stdin_only_fgets|].
  intros [b|]; apply stdin_only_ret.
Qed.

Lemma run_stdin {A : Type} (m : M A) (w : World) (a : A) (s : list byte) :
  stdin_only m -> on_stdin m (w_stdin w) = (a, s) -> m w = (a, put_stdin s w).
Proof.
  intros Hm Hs. rewrite Hm, Hs. reflexivity.
Qed.

(* ================================================================= *)
(** ** One call of the slot store *)

Ltac run_world :=
  unfold bind, ret, add_log, set_fpos, set_disk, set_stdin, put_stdin,
         contents, result, after;
  cbn [fst snd w_stdin w_disk w_fpos w_log w_shown].

Lemma in_range_test (p : Z) :
  0 <= p < MAX_ACCOUNTS -> (p <? 0) || (p >=? MAX_ACCOUNTS) = false.
Proof.
  intros H. rewrite Z.geb_leb. apply orb_false_iff.
  split; [apply Z.ltb_ge | apply Z.leb_gt]; lia.
Qed.

Lemma out_of_range_test (p : Z) :
  p < 0 \/ MAX_ACCOUNTS <= p -> (p <? 0) || (p >=? MAX_ACCOUNTS) = true.
Proof.
  rewrite Z.geb_leb.
  intros [H | H]; apply orb_true_iff; [left; apply Z.ltb_lt | right; apply Z.leb_le]; lia.
Qed.

Lemma fopen_existing (mode : fmode) (w : World) (d : list byte) :
  creates mode = false -> w_disk w = Some d ->
  fopen mode w =
    (Some (mk_FILE mode),
     mk_world (w_stdin w) (Some d) 0 (w_log w ++ [EvOpen mode true]) (w_shown w)).
Proof.
  intros Hm Hd. unfold fopen. rewrite Hm, Hd. run_world. now rewrite Hd.
Qed.

Lemma fopen_missing (mode : fmode) (w : World) :
  creates mode = false -> w_disk w = None ->
  fopen mode w =
    (None,
     mk_world (w_stdin w) None (w_fpos w) (w_log w ++ [EvOpen mode false]) (w_shown w)).
Proof.
  intros Hm Hd. unfold fopen. rewrite Hm, Hd. run_world. now rewrite Hd.
Qed.

Lemma fseek_run (f : FILE) (off : Z) (w : World) :
  0 <= off ->
  fseek f off w =
    (0, mk_world (w_stdin w) (w_disk w) off (w_log w ++ [EvSeek off]) (w_shown w)).
Proof.
  intros H. unfold fseek. apply Z.ltb_ge in H. rewrite H. reflexivity.
Qed.

Lemma v3_read_hit (f : FILE) (buf c : client_data) (p : Z) (w : World) :
  can_read (f_mode f) = true -> 0 <= p < MAX_ACCOUNTS ->
  slot (contents w) p = Some c ->
  V3.read_client_from_file (Some f) buf p w =
    (1, c,
     mk_world (w_stdin w) (w_disk w) (slot_offset p + Z.of_nat RECORD_SIZE)
       (w_log w ++ [EvSeek (slot_offset p); EvRead (slot_offset p) RECORD_SIZE])
       (w_shown w)).
Proof.
  intros Hm Hp Hs. unfold V3.read_client_from_file.
  rewrite in_range_test by assumption. unfold bind at 1.
  rewrite fseek_run by (unfold MAX_ACCOUNTS, RECORD_SIZE in *; lia).
  cbn [negb Z.eqb]. unfold bind, fread1. rewrite Hm.
  run_world. cbn [w_disk w_fpos w_stdin w_log w_shown].
  unfold slot in Hs. fold (contents w). fold (slot_offset p).
  unfold slot_offset in *.
  destruct (Nat.eqb _ RECORD_SIZE) eqn:He; [|discriminate].
  injection Hs as <-. apply Nat.eqb_eq in He. rewrite He.
  rewrite <- app_assoc. reflexivity.
Qed.

Lemma v3_read_miss (f : FILE) (buf : client_data) (p : Z) (w : World) :
  can_read (f_mode f) = true -> 0 <= p < MAX_ACCOUNTS ->
  slot (contents w) p = None ->
  let got := file_read_at (contents w) (slot_offset p) RECORD_SIZE in
  V3.read_client_from_file (Some f) buf p w =
    (0, decode (overwrite (encode buf) got),
     mk_world (w_stdin w) (w_disk w) (slot_offset p + Z.of_nat (length got))
       (w_log w ++ [EvSeek (slot_offset p); EvRead (slot_offset p) (length got)])
       (w_shown w)).
Proof.
  intros Hm Hp Hs got. unfold V3.read_client_from_file.
  rewrite in_range_test by assumption. unfold bind at 1.
  rewrite fseek_run by (unfold MAX_ACCOUNTS, RECORD_SIZE in *; lia).
  cbn [negb Z.eqb]. unfold bind, fread1. rewrite Hm.
  run_world. cbn [w_disk w_fpos w_stdin w_log w_shown].
  unfold slot in Hs. fold (contents w). fold (slot_offset p). fold got.
  unfold slot_offset in *. fold got in Hs.
  destruct (Nat.eqb (length got) RECORD_SIZE) eqn:He; [discriminate|].
  rewrite <- app_assoc. reflexivity.
Qed.

Lemma v3_write_run (f : FILE) (c : client_data) (p : Z) (w : World) :
  can_write (f_mode f) = true -> 0 <= p < MAX_ACCOUNTS ->
  V3.write_client_to_file (Some f) c p w =
    (1,
     mk_world (w_stdin w)
       (Some (file_write_at (contents w) (slot_offset p) (encode c)))
       (slot_offset p + Z.of_nat (length (encode c)))
       (w_log w ++ [EvSeek (slot_offset p); EvWrite (slot_offset p) (encode c)])
       (w_shown w)).
Proof.
  intros Hm Hp. unfold V3.write_client_to_file.
  rewrite in_range_test by assumption. unfold bind at 1.
  rewrite fseek_run by (unfold MAX_ACCOUNTS, RECORD_SIZE in *; lia).
  cbn [negb Z.eqb]. unfold bind, fwrite1. rewrite Hm.
  run_world. cbn [w_disk w_fpos w_stdin w_log w_shown Z.eqb Zb].
  fold (slot_offset p). rewrite <- app_assoc. reflexivity.
Qed.

Lemma position_of_valid (n : Z) : 1 <= n <= 100 -> position_of n = n - 1.
Proof.
  intros H. unfold position_of, int_of_uint, UINT_MOD.
  rewrite Z.mod_small by lia.
  destruct (n - 1 <? 2 ^ 31) eqn:Hlt; [reflexivity|].
  apply Z.ltb_ge in Hlt. lia.
Qed.

Lemma validate_account_number_iff (n : Z) :
  V3.validate_account_number n = 1 <-> 1 <= n <= 100.
Proof.
  unfold V3.validate_account_number, MIN_ACCOUNT_NUM, MAX_ACCOUNT_NUM.
  destruct (n >=? 1) eqn:H1; destruct (n <=? 100) eqn:H2; cbn;
    rewrite ?Z.geb_leb in H1;
    try apply Z.leb_le in H1; try apply Z.leb_le in H2;
    try apply Z.leb_gt in H1; try apply Z.leb_gt in H2; split; intros; try lia; try discriminate.
Qed.

Lemma validate_account_number_bool (n : Z) :
  V3.validate_account_number n = 0 \/ V3.validate_account_number n = 1.
Proof.
  unfold V3.validate_account_number. destruct (_ && _); auto.
Qed.

(* ================================================================= *)
(** ** The existence probe and Create *)

Lemma bind_run {A B : Type} (m : M A) (k : A -> M B) (w w1 : World) (a : A) :
  m w = (a, w1) -> bind m k w = k a w1.
Proof. intros H. unfold bind. now rewrite H. Qed.

Lemma occupiedb_true (d : list byte) (p : Z) : occupiedb d p = true <-> occupied d p.
Proof.
  unfold occupiedb, occupied. destruct (slot d p) as [c|].
  - split.
    + intros H. exists c. split; [reflexivity|].
      apply negb_true_iff, Z.eqb_neq in H. exact H.
    + intros (c' & [= <-] & Hne). apply negb_true_iff, Z.eqb_neq. exact Hne.
  - split; [discriminate|]. intros (c' & Hc & _). discriminate.
Qed.

Lemma get_account_number_valid (E : Env) (s s1 : list byte) (n : Z) :
  on_stdin (V3.get_account_number E) s = (n, s1) -> n = 0 \/ 1 <= n <= 100.
Proof.
  unfold on_stdin, V3.get_account_number, scanf_with, clear_input_buffer.
  run_world. destruct (scan_uint E s) as [[v|] rest]; cbn [w_stdin].
  - destruct (validate_account_number_bool v) as [Hv | Hv]; rewrite Hv; cbn.
    + intros [= <- _]. now left.
    + intros [= <- _]. right. now apply validate_account_number_iff.
  - intros [= <- _]. now left.
Qed.

Lemma valid_truthy (n : Z) :
  1 <= n <= 100 -> negb (truthy (V3.validate_account_number n)) = false.
Proof.
  intros H. apply validate_account_number_iff in H. now rewrite H.
Qed.

Lemma account_exists_run (E : Env) (n : Z) (w : World) (d : list byte) :
  w_disk w = Some d -> 1 <= n <= 100 ->
  V3.account_exists E n w =
    (Zb (occupiedb d (n - 1)),
     mk_world (w_stdin w) (Some d)
       (slot_offset (n - 1)
        + Z.of_nat (length (file_read_at d (slot_offset (n - 1)) RECORD_SIZE)))
       (w_log w ++ probe_log d (n - 1)) (w_shown w)).
Proof.
  intros Hd Hn. unfold V3.account_exists, V3.open_data_file.
  rewrite valid_truthy by assumption.
  erewrite bind_run by (apply fopen_existing; [reflexivity | eassumption]).
  rewrite position_of_valid by assumption.
  unfold occupiedb, probe_log.
  destruct (slot d (n - 1)) as [c|] eqn:Hs.
  - erewrite bind_run
      by (apply v3_read_hit with (c := c);
          [reflexivity | unfold MAX_ACCOUNTS; lia | unfold contents; cbn; exact Hs]).
    unfold V3.close_data_file, fclose. run_world.
    unfold slot in Hs. unfold slot_offset.
    destruct (Nat.eqb _ RECORD_SIZE) eqn:He; [|discriminate].
    apply Nat.eqb_eq in He. rewrite He.
    rewrite <- !app_assoc. reflexivity.
  - erewrite bind_run
      by (apply v3_read_miss;
          [reflexivity | unfold MAX_ACCOUNTS; lia | unfold contents; cbn; exact Hs]).
    unfold V3.close_data_file, fclose. run_world.
    rewrite <- !app_assoc. reflexivity.
Qed.

Lemma account_exists_missing (E : Env) (n : Z) (w : World) :
  w_disk w = None -> 1 <= n <= 100 ->
  V3.account_exists E n w =
    (0, mk_world (w_stdin w) None (w_fpos w) (w_log w ++ [EvOpen RB false]) (w_shown w)).
Proof.
  intros Hd Hn. unfold V3.account_exists, V3.open_data_file.
  rewrite valid_truthy by assumption.
  erewrite bind_run by (apply fopen_missing; [reflexivity | eassumption]).
  reflexivity.
Qed.

Lemma account_exists_invalid (E : Env) (n : Z) (w : World) :
  ~ (1 <= n <= 100) -> V3.account_exists E n w = (0, w).
Proof.
  intros Hn. unfold V3.account_exists.
  destruct (validate_account_number_bool n) as [Hv | Hv].
  - rewrite Hv. reflexivity.
  - apply validate_account_number_iff in Hv. contradiction.
Qed.

Lemma create_account_bad_id (E : Env) (w : World) (s1 : list byte) :
  on_stdin (V3.get_account_number E) (w_stdin w) = (0, s1) ->
  V3.create_account E w = (0, put_stdin s1 w).
Proof.
  intros H. unfold V3.create_account.
  erewrite bind_run by (apply run_stdin; [apply stdin_only_get_account_number | exact H]).
  reflexivity.
Qed.

Lemma create_account_present (E : Env) (w : World) (d : list byte)
    (n bal : Z) (last first : list byte) :
  w_disk w = Some d ->
  create_form E (w_stdin w) = (n, last, first, bal) ->
  1 <= n <= 100 ->
  let c := new_record E n last first bal in
  let w' := after (V3.create_account E) w in
  if occupiedb d (n - 1) then
    result (V3.create_account E) w = 0 /\ w_disk w' = Some d
    /\ w_log w' = w_log w ++ probe_log d (n - 1) /\ w_shown w' = w_shown w
  else if names_valid last first then
    result (V3.create_account E) w = 1
    /\ w_disk w' = Some (file_write_at d (slot_offset (n - 1)) (encode c))
    /\ w_log w' = w_log w ++ create_log d n c
    /\ w_shown w' = w_shown w ++ [c]
  else
    result (V3.create_account E) w = 0 /\ w_disk w' = Some d
    /\ w_log w' = w_log w ++ probe_log d (n - 1) /\ w_shown w' = w_shown w.
Proof.
  intros Hd Hform Hn c w'. subst w' c. unfold result, after.
  unfold create_form in Hform.
  destruct (on_stdin (V3.get_account_number E) (w_stdin w)) as [n' s1] eqn:H1.
  destruct (on_stdin (V3.get_name_input _ LAST_NAME_SIZE) s1) as [l' s2] eqn:H2.
  destruct (on_stdin (V3.get_name_input _ FIRST_NAME_SIZE) s2) as [f' s3] eqn:H3.
  destruct (on_stdin (V3.get_balance_input E) s3) as [b' s4] eqn:H4.
  injection Hform as -> -> -> ->.
  unfold V3.create_account.
  erewrite bind_run by (apply run_stdin; [apply stdin_only_get_account_number | exact H1]).
  replace (n =? 0) with false by (symmetry; apply Z.eqb_neq; lia).
  erewrite bind_run by (apply account_exists_run; [exact Hd | exact Hn]).
  destruct (occupiedb d (n - 1)) eqn:Hocc.
  - cbn. auto.
  - cbn [Zb truthy Z.eqb negb].
    erewrite bind_run by (apply run_stdin; [apply stdin_only_get_name_input | exact H2]).
    erewrite bind_run by (apply run_stdin; [apply stdin_only_get_name_input | exact H3]).
    erewrite bind_run by (apply run_stdin; [apply stdin_only_get_balance_input | exact H4]).
    unfold names_valid.
    destruct (truthy (V3.validate_name (Some last))) eqn:Hl;
      [destruct (truthy (V3.validate_name (Some first))) eqn:Hf|];
      cbn [negb orb andb].
    + unfold V3.open_data_file.
      erewrite bind_run by (apply fopen_existing; [reflexivity | reflexivity]).
      rewrite position_of_valid by assumption.
      erewrite bind_run
        by (apply v3_write_run; [reflexivity | unfold MAX_ACCOUNTS; lia]).
      unfold V3.close_data_file, fclose, V3.display_client, create_log, new_record.
      run_world. cbn [Zb Z.eqb truthy negb fst snd w_disk w_log w_shown].
      rewrite <- !app_assoc. repeat split; reflexivity.
    + cbn. auto.
    + cbn. auto.
Qed.

Lemma create_account_missing (E : Env) (w : World) :
  w_disk w = None ->
  result (V3.create_account E) w = 0
  /\ w_disk (after (V3.create_account E) w) = None
  /\ exists l, w_log (after (V3.create_account E) w) = w_log w ++ l
               /\ reads_only l = true.
Proof.
  intros Hd. unfold result, after, V3.create_account.
  erewrite bind_run by apply stdin_only_get_account_number.
  destruct (on_stdin (V3.get_account_number E) (w_stdin w)) as [n s1] eqn:H1.
  cbn [fst snd].
  destruct (get_account_number_valid _ _ _ _ H1) as [-> | Hn].
  - cbn. repeat split; auto. exists []. now rewrite app_nil_r.
  - replace (n =? 0) with false by (symmetry; apply Z.eqb_neq; lia).
    erewrite bind_run by (apply account_exists_missing; [exact Hd | exact Hn]).
    cbn [Zb truthy Z.eqb negb].
    erewrite bind_run by apply stdin_only_get_name_input.
    erewrite bind_run by apply stdin_only_get_name_input.
    erewrite bind_run by apply stdin_only_get_balance_input.
    destruct (_ || _).
    + cbn. repeat split; auto. exists [EvOpen RB false]. auto.
    + unfold V3.open_data_file.
      erewrite bind_run by (apply fopen_missing; [reflexivity | reflexivity]).
      cbn. repeat split; auto. exists [EvOpen RB false; EvOpen RBplus false].
      rewrite <- app_assoc. auto.
Qed.

(* ================================================================= *)
(** ** Read and Delete *)

Lemma display_client_run (c : client_data) (w : World) :
  V3.display_client c w =
    (tt, mk_world (w_stdin w) (w_disk w) (w_fpos w) (w_log w) (w_shown w ++ [c])).
Proof. reflexivity. Qed.

Lemma clear_input_buffer_run (w : World) :
  clear_input_buffer w = (tt, put_stdin (skip_line (w_stdin w)) w).
Proof. reflexivity. Qed.

Lemma read_account_present (E : Env) (w : World) (d s1 : list byte) (n : Z) :
  w_disk w = Some d ->
  on_stdin (V3.get_account_number E) (w_stdin w) = (n, s1) ->
  1 <= n <= 100 ->
  let w' := after (V3.read_account E) w in
  match slot d (n - 1) with
  | Some c =>
      if acct_num c =? 0
      then result (V3.read_account E) w = 0 /\ w_shown w' = w_shown w
      else result (V3.read_account E) w = 1 /\ w_shown w' = w_shown w ++ [c]
  | None => result (V3.read_account E) w = 0 /\ w_shown w' = w_shown w
  end
  /\ w_disk w' = Some d.
Proof.
  intros Hd H1 Hn w'. subst w'. unfold result, after, V3.read_account.
  erewrite bind_run by (apply run_stdin; [apply stdin_only_get_account_number | exact H1]).
  replace (n =? 0) with false by (symmetry; apply Z.eqb_neq; lia).
  unfold V3.open_data_file.
  erewrite bind_run by (apply fopen_existing; [reflexivity | exact Hd]).
  rewrite position_of_valid by assumption.
  destruct (slot d (n - 1)) as [c|] eqn:Hs.
  - erewrite bind_run
      by (apply v3_read_hit with (c := c);
          [reflexivity | unfold MAX_ACCOUNTS; lia | unfold contents; cbn; exact Hs]).
    unfold V3.close_data_file, fclose, V3.display_client. run_world.
    destruct (acct_num c =? 0); cbn; auto.
  - erewrite bind_run
      by (apply v3_read_miss;
          [reflexivity | unfold MAX_ACCOUNTS; lia | unfold contents; cbn; exact Hs]).
    unfold V3.close_data_file, fclose, V3.display_client. run_world.
    cbn. auto.
Qed.

Lemma delete_account_present (E : Env) (w : World) (d : list byte) (n : Z)
    (conf : option byte) :
  w_disk w = Some d ->
  delete_form E (w_stdin w) = (n, conf) ->
  1 <= n <= 100 ->
  let w' := after (V3.delete_account E) w in
  if occupiedb d (n - 1) && confirmed conf then
    result (V3.delete_account E) w = 1
    /\ w_disk w' = Some (file_write_at d (slot_offset (n - 1)) (encode empty_client))
  else
    result (V3.delete_account E) w = 0 /\ w_disk w' = Some d.
Proof.
  intros Hd Hform Hn w'. subst w'. unfold result, after.
  unfold delete_form in Hform.
  destruct (on_stdin (V3.get_account_number E) (w_stdin w)) as [n' s1] eqn:H1.
  destruct (on_stdin scanf_char s1) as [c' s2] eqn:H2.
  injection Hform as -> ->.
  unfold V3.delete_account.
  erewrite bind_run by (apply run_stdin; [apply stdin_only_get_account_number | exact H1]).
  replace (n =? 0) with false by (symmetry; apply Z.eqb_neq; lia).
  unfold V3.open_data_file.
  erewrite bind_run by (apply fopen_existing; [reflexivity | exact Hd]).
  rewrite position_of_valid by assumption.
  unfold occupiedb.
  destruct (slot d (n - 1)) as [c|] eqn:Hs.
  - erewrite bind_run
      by (apply v3_read_hit with (c := c);
          [reflexivity | unfold MAX_ACCOUNTS; lia | unfold contents; cbn; exact Hs]).
    cbn [truthy Z.eqb negb orb].
    destruct (acct_num c =? 0) eqn:Hz; cbn [negb andb].
    + cbn. auto.
    + erewrite bind_run by apply display_client_run.
      erewrite bind_run by (apply run_stdin; [apply stdin_only_scanf_char | exact H2]).
      destruct conf as [ch|]; cbn [confirmed].
      * erewrite bind_run by apply clear_input_buffer_run.
        destruct (Byte.eqb (tolower ch) "y"); cbn [negb].
        -- erewrite bind_run
             by (apply v3_write_run; [reflexivity | unfold MAX_ACCOUNTS; lia]).
           cbn. auto.
        -- cbn. auto.
      * cbn. auto.
  - erewrite bind_run
      by (apply v3_read_miss;
          [reflexivity | unfold MAX_ACCOUNTS; lia | unfold contents; cbn; exact Hs]).
    cbn. auto.
Qed.

(* ================================================================= *)
(** ** Update *)

Lemma trim_buffer_length (b : list byte) : length (V3.trim_buffer b) = length b.
Proof.
  unfold V3.trim_buffer.
  destruct (_ && _); destruct (Nat.eqb _ 0);
    rewrite ?overwrite_length, ?set_length; reflexivity.
Qed.

Lemma get_name_input_length (buf : list byte) (n : nat) (s s' r : list byte) :
  on_stdin (V3.get_name_input buf n) s = (r, s') -> length r = length buf.
Proof.
  unfold on_stdin, V3.get_name_input, fgets. run_world.
  destruct s as [|c s0].
  - cbn. intros [= <- _]. apply set_length.
  - destruct (take_line (n - 1) (c :: s0)) as [line rest]. cbn.
    intros [= <- _]. rewrite trim_buffer_length. apply overwrite_length.
Qed.

Lemma fclose_run (f : FILE) (w : World) :
  fclose f w = (0, mk_world (w_stdin w) (w_disk w) (w_fpos w) (w_log w ++ [EvClose]) (w_shown w)).
Proof. reflexivity. Qed.

Lemma write_updated_disk (f : FILE) (c : client_data) (p : Z) (w : World) :
  can_write (f_mode f) = true -> 0 <= p < MAX_ACCOUNTS ->
  w_disk (snd (V3.write_updated (Some f) c p w))
  = Some (file_write_at (contents w) (slot_offset p) (encode c)).
Proof.
  intros Hm Hp. unfold V3.write_updated.
  erewrite bind_run by (apply v3_write_run; assumption).
  reflexivity.
Qed.

Lemma update_account_disk (E : Env) (w : World) (d : list byte) :
  w_disk w = Some d ->
  exists d', w_disk (after (V3.update_account E) w) = Some d'
    /\ (d' = d
        \/ exists p c c',
             0 <= p < MAX_ACCOUNTS /\ slot d p = Some c /\ acct_num c <> 0
             /\ acct_num c' = acct_num c
             /\ length (last_name c') = LAST_NAME_SIZE
             /\ length (first_name c') = FIRST_NAME_SIZE
             /\ d' = file_write_at d (slot_offset p) (encode c')).
Proof.
  intros Hd. unfold after, V3.update_account.
  erewrite bind_run by apply stdin_only_get_account_number.
  destruct (on_stdin (V3.get_account_number E) (w_stdin w)) as [n s1] eqn:H1.
  cbn [fst snd].
  destruct (get_account_number_valid _ _ _ _ H1) as [-> | Hn].
  { exists d. split; [exact Hd | now left]. }
  replace (n =? 0) with false by (symmetry; apply Z.eqb_neq; lia).
  unfold V3.open_data_file.
  erewrite bind_run by (apply fopen_existing; [reflexivity | exact Hd]).
  rewrite position_of_valid by assumption.
  destruct (slot d (n - 1)) as [c|] eqn:Hs.
  2:{ erewrite bind_run
        by (apply v3_read_miss;
            [reflexivity | unfold MAX_ACCOUNTS; lia | unfold contents; cbn; exact Hs]).
      exists d. split; [reflexivity | now left]. }
  erewrite bind_run
    by (apply v3_read_hit with (c := c);
        [reflexivity | unfold MAX_ACCOUNTS; lia | unfold contents; cbn; exact Hs]).
  cbn [truthy Z.eqb negb orb].
  destruct (acct_num c =? 0) eqn:Hz.
  { exists d. split; [reflexivity | now left]. }
  apply Z.eqb_neq in Hz.
  pose proof (slot_typed _ _ _ Hs) as (_ & Hcl & Hcf & _).
  assert (Hp : 0 <= n - 1 < MAX_ACCOUNTS) by (unfold MAX_ACCOUNTS; lia).
  erewrite bind_run by apply display_client_run.
  erewrite bind_run by apply stdin_only_scanf_with.
  cbn [w_stdin put_stdin].
  destruct (on_stdin (scanf_with (scan_int E)) s1) as [[choice|] s2] eqn:H2;
    cbn [fst snd].
  2:{ exists d. split; [reflexivity | now left]. }
  erewrite bind_run by apply clear_input_buffer_run.
  cbn [w_stdin put_stdin].
  destruct (choice =? 1).
  { erewrite bind_run by apply stdin_only_get_balance_input.
    rewrite write_updated_disk by (reflexivity || assumption).
    eexists. split; [reflexivity|]. right.
    exists (n - 1), c, (V3.with_balance c
      (double_add E (balance c)
         (fst (on_stdin (V3.get_balance_input E) (skip_line s2))))).
    repeat split; try assumption; try lia. }
  destruct (choice =? 2).
  { erewrite bind_run by apply stdin_only_get_name_input.
    cbn [w_stdin put_stdin].
    destruct (on_stdin (V3.get_name_input (last_name c) LAST_NAME_SIZE) (skip_line s2))
      as [l s3] eqn:H3. cbn [fst snd].
    erewrite bind_run by apply stdin_only_get_name_input.
    cbn [w_stdin put_stdin].
    destruct (on_stdin (V3.get_name_input (first_name c) FIRST_NAME_SIZE) s3)
      as [f s4] eqn:H4. cbn [fst snd].
    apply get_name_input_length in H3, H4.
    destruct (_ || _).
    - exists d. split; [reflexivity | now left].
    - rewrite write_updated_disk by (reflexivity || assumption).
      eexists. split; [reflexivity|]. right.
      exists (n - 1), c, (V3.with_names c l f).
      repeat split; try assumption; try lia; cbn; congruence. }
  destruct (choice =? 3).
  { erewrite bind_run by apply stdin_only_get_name_input.
    cbn [w_stdin put_stdin].
    destruct (on_stdin (V3.get_name_input (last_name c) LAST_NAME_SIZE) (skip_line s2))
      as [l s3] eqn:H3. cbn [fst snd].
    erewrite bind_run by apply stdin_only_get_name_input.
    cbn [w_stdin put_stdin].
    destruct (on_stdin (V3.get_name_input (first_name c) FIRST_NAME_SIZE) s3)
      as [f s4] eqn:H4. cbn [fst snd].
    erewrite bind_run by apply stdin_only_get_balance_input.
    apply get_name_input_length in H3, H4.
    destruct (_ || _).
    - exists d. split; [reflexivity | now left].
    - rewrite write_updated_disk by (reflexivity || assumption).
      eexists. split; [reflexivity|]. right.
      exists (n - 1), c,
        (V3.with_balance (V3.with_names c l f)
           (fst (on_stdin (V3.get_balance_input E) s4))).
      repeat split; try assumption; try lia; cbn; congruence. }
  exists d. split; [reflexivity | now left].
Qed.

(* ================================================================= *)
(** ** The store invariant *)

Lemma store_inv_write (d : list byte) (c : client_data) (p : Z) :
  store_inv d -> 0 <= p < MAX_ACCOUNTS ->
  length (last_name c) = LAST_NAME_SIZE ->
  length (first_name c) = FIRST_NAME_SIZE ->
  acct_num c mod UINT_MOD = 0 \/ acct_num c mod UINT_MOD = p + 1 ->
  store_inv (file_write_at d (slot_offset p) (encode c)).
Proof.
  intros [Hlen Hids] Hp Hl Hf Hid.
  pose proof (encode_length c Hl Hf) as Henc.
  assert (Hfit : ((Z.to_nat p + 1) * RECORD_SIZE <= length d)%nat).
  { rewrite Hlen. unfold MAX_ACCOUNTS, RECORD_SIZE in *. lia. }
  split.
  - rewrite file_write_length; [exact Hlen|].
    rewrite Henc. unfold slot_offset, RECORD_SIZE in *. lia.
  - intros i c' Hi Hs Hne.
    destruct (Z.eq_dec i p) as [-> | Hip].
    + unfold slot_offset in Hs. rewrite slot_write_same in Hs by assumption.
      injection Hs as <-. rewrite decode_encode_fields in * by assumption.
      cbn [acct_num] in *. lia.
    + unfold slot_offset in Hs.
      rewrite slot_write_other in Hs by (assumption || lia).
      now apply Hids.
Qed.

Lemma store_invb_sound (d : list byte) : store_invb d = true -> store_inv d.
Proof.
  unfold store_invb. intros H. apply andb_true_iff in H as [Hlen Hall].
  apply Nat.eqb_eq in Hlen. split; [exact Hlen|].
  intros i c Hi Hs Hne. rewrite forallb_forall in Hall.
  specialize (Hall (Z.to_nat i)). rewrite Z2Nat.id in Hall by lia.
  assert (Hin : In (Z.to_nat i) (seq 0 (Z.to_nat MAX_ACCOUNTS))).
  { apply in_seq. unfold MAX_ACCOUNTS in *. lia. }
  apply Hall in Hin. unfold slot_ok in Hin. rewrite Hs in Hin.
  apply orb_true_iff in Hin as [Hz | Hz]; apply Z.eqb_eq in Hz; lia.
Qed.

(* ================================================================= *)
(** ** version 2: one call of the slot store *)

Lemma v2_write_run (f : FILE) (c : client_data) (p : Z) (w : World) :
  can_write (f_mode f) = true -> 0 <= p < MAX_ACCOUNTS ->
  V2.write_client_to_file (Some f) c p w =
    (1,
     mk_world (w_stdin w)
       (Some (file_write_at (contents w) (slot_offset p) (encode c)))
       (slot_offset p + Z.of_nat (length (encode c)))
       (w_log w ++ [EvSeek (slot_offset p); EvWrite (slot_offset p) (encode c)])
       (w_shown w)).
Proof.
  intros Hm Hp. unfold V2.write_client_to_file.
  rewrite in_range_test by assumption. unfold bind at 1.
  rewrite fseek_run by (unfold MAX_ACCOUNTS, RECORD_SIZE in *; lia).
  cbn [negb Z.eqb]. unfold bind, fwrite1. rewrite Hm.
  run_world. cbn [w_disk w_fpos w_stdin w_log w_shown Z.eqb].
  fold (slot_offset p). rewrite <- app_assoc. reflexivity.
Qed.

Lemma v2_read_hit (f : FILE) (buf c : client_data) (p : Z) (w : World) :
  can_read (f_mode f) = true -> 0 <= p < MAX_ACCOUNTS ->
  slot (contents w) p = Some c ->
  V2.read_client_from_file (Some f) buf p w =
    (1, c,
     mk_world (w_stdin w) (w_disk w) (slot_offset p + Z.of_nat RECORD_SIZE)
       (w_log w ++ [EvSeek (slot_offset p); EvRead (slot_offset p) RECORD_SIZE])
       (w_shown w)).
Proof.
  intros Hm Hp Hs. unfold V2.read_client_from_file.
  rewrite in_range_test by assumption. unfold bind at 1.
  rewrite fseek_run by (unfold MAX_ACCOUNTS, RECORD_SIZE in *; lia).
  cbn [negb Z.eqb]. unfold bind, fread1. rewrite Hm.
  run_world. cbn [w_disk w_fpos w_stdin w_log w_shown].
  unfold slot in Hs. fold (contents w). fold (slot_offset p).
  unfold slot_offset in *.
  destruct (Nat.eqb _ RECORD_SIZE) eqn:He; [|discriminate].
  injection Hs as <-. apply Nat.eqb_eq in He. rewrite He.
  cbn [Z.eqb]. rewrite <- app_assoc. reflexivity.
Qed.

Lemma v2_read_miss (f : FILE) (buf : client_data) (p : Z) (w : World) :
  can_read (f_mode f) = true -> 0 <= p < MAX_ACCOUNTS ->
  slot (contents w) p = None ->
  let got := file_read_at (contents w) (slot_offset p) RECORD_SIZE in
  V2.read_client_from_file (Some f) buf p w =
    (0, memset_zero,
     mk_world (w_stdin w) (w_disk w) (slot_offset p + Z.of_nat (length got))
       (w_log w ++ [EvSeek (slot_offset p); EvRead (slot_offset p) (length got)])
       (w_shown w)).
Proof.
  intros Hm Hp Hs got. unfold V2.read_client_from_file.
  rewrite in_range_test by assumption. unfold bind at 1.
  rewrite fseek_run by (unfold MAX_ACCOUNTS, RECORD_SIZE in *; lia).
  cbn [negb Z.eqb]. unfold bind, fread1. rewrite Hm.
  run_world. cbn [w_disk w_fpos w_stdin w_log w_shown].
  unfold slot in Hs. fold (contents w). fold (slot_offset p). fold got.
  unfold slot_offset in *. fold got in Hs.
  destruct (Nat.eqb (length got) RECORD_SIZE) eqn:He; [discriminate|].
  cbn [Z.eqb]. rewrite <- app_assoc. reflexivity.
Qed.

Lemma v2_read_out_of_range (fp : option FILE) (buf : client_data) (p : Z) (w : World) :
  p < 0 \/ MAX_ACCOUNTS <= p ->
  V2.read_client_from_file fp buf p w = (0, buf, w).
Proof.
  intros H. unfold V2.read_client_from_file. destruct fp; [|reflexivity].
  now rewrite out_of_range_test.
Qed.

Lemma v3_read_out_of_range (fp : option FILE) (buf : client_data) (p : Z) (w : World) :
  p < 0 \/ MAX_ACCOUNTS <= p ->
  V3.read_client_from_file fp buf p w = (0, buf, w).
Proof.
  intros H. unfold V3.read_client_from_file. destruct fp; [|reflexivity].
  now rewrite out_of_range_test.
Qed.

(* ================================================================= *)
(** ** Initialising the data file *)

Lemma file_write_at_end (d block : list byte) :
  file_write_at d (Z.of_nat (length d)) block = d ++ block.
Proof.
  unfold file_write_at. rewrite Nat2Z.id, firstn_all, Nat.sub_diag.
  rewrite skipn_all2 by lia. cbn [repeat app]. now rewrite app_nil_r.
Qed.

Lemma write_empty_records_run (flag : bool) (n : nat) (f : FILE) (w : World) (d : list byte) :
  can_write (f_mode f) = true ->
  w_disk w = Some d -> w_fpos w = Z.of_nat (length d) ->
  write_empty_records flag n f w =
    (tt, mk_world (w_stdin w)
           (Some (d ++ concat (repeat (encode empty_client) n)))
           (w_fpos w + slot_offset (Z.of_nat n))
           (w_log w ++ empty_writes (w_fpos w) n) (w_shown w)).
Proof.
  intros Hm. revert w d. induction n as [|n IH]; intros w d Hd Hpos.
  - cbn [write_empty_records repeat concat]. unfold ret, empty_writes, slot_offset.
    cbn [seq map]. rewrite !app_nil_r, Z.add_0_r, <- Hd. now destruct w.
  - cbn [write_empty_records]. unfold bind at 1, fwrite1. rewrite Hm.
    run_world. rewrite Hd, Hpos, file_write_at_end.
    cbn [Z.eqb negb andb]. rewrite andb_false_r.
    erewrite IH; cbn [w_disk w_fpos w_stdin w_log w_shown]; try reflexivity.
    + f_equal. f_equal.
      * cbn [repeat concat]. now rewrite <- app_assoc.
      * unfold slot_offset, RECORD_SIZE. rewrite encode_empty, repeat_length.
        unfold RECORD_SIZE. lia.
      * rewrite <- app_assoc. f_equal. unfold empty_writes. cbn [seq map app].
        f_equal.
        -- unfold slot_offset. f_equal. lia.
        -- rewrite <- seq_shift, map_map. apply map_ext. intros i.
           f_equal. unfold slot_offset. rewrite encode_empty, repeat_length.
           unfold RECORD_SIZE. lia.
    + rewrite length_app, Nat2Z.inj_add. reflexivity.
Qed.

Lemma v2_initialize_run (w : World) :
  V2.initialize_data_file w =
    (tt, mk_world (w_stdin w) (Some fresh_store)
           (slot_offset MAX_ACCOUNTS)
           (w_log w ++ init_log (Z.to_nat MAX_ACCOUNTS)) (w_shown w)).
Proof.
  unfold V2.initialize_data_file.
  erewrite bind_run by reflexivity.
  cbv beta iota.
  erewrite bind_run
    by (apply write_empty_records_run with (d := []); reflexivity).
  unfold fclose. run_world. unfold init_log, fresh_store.
  rewrite <- !app_assoc. reflexivity.
Qed.

Lemma v3_initialize_run (w : World) :
  w_disk w = None ->
  V3.initialize_data_file_if_needed w =
    (tt, mk_world (w_stdin w) (Some fresh_store)
           (slot_offset MAX_ACCOUNTS)
           (w_log w ++ EvOpen RB false :: init_log (Z.to_nat MAX_ACCOUNTS))
           (w_shown w)).
Proof.
  intros Hd. unfold V3.initialize_data_file_if_needed.
  erewrite bind_run by (apply fopen_missing; [reflexivity | exact Hd]).
  cbv beta iota.
  erewrite bind_run by reflexivity.
  cbv beta iota.
  erewrite bind_run
    by (apply write_empty_records_run with (d := []); reflexivity).
  unfold fclose. run_world. unfold init_log, fresh_store.
  rewrite <- !app_assoc. reflexivity.
Qed.

Lemma v3_initialize_existing (w : World) (d : list byte) :
  w_disk w = Some d -> w_disk (after V3.initialize_data_file_if_needed w) = Some d.
Proof.
  intros Hd. unfold after, V3.initialize_data_file_if_needed.
  erewrite bind_run by (apply fopen_existing; [reflexivity | exact Hd]).
  reflexivity.
Qed.

Lemma concat_repeat_length (blk : list byte) (n : nat) :
  length (concat (repeat blk n)) = (n * length blk)%nat.
Proof.
  induction n as [|n IH]; cbn [repeat concat]; [reflexivity|].
  rewrite length_app, IH. lia.
Qed.

Lemma slot_concat_repeat (blk : list byte) (n : nat) (i : Z) :
  length blk = RECORD_SIZE -> 0 <= i < Z.of_nat n ->
  slot (concat (repeat blk n)) i = Some (decode blk).
Proof.
  intros Hb Hi. unfold slot, file_read_at.
  replace n with (Z.to_nat i + S (n - Z.to_nat i - 1))%nat by lia.
  rewrite repeat_app, concat_app.
  rewrite skipn_app_r by (rewrite concat_repeat_length, Hb; unfold RECORD_SIZE; lia).
  rewrite concat_repeat_length, Hb.
  replace (Z.to_nat (i * Z.of_nat RECORD_SIZE) - Z.to_nat i * RECORD_SIZE)%nat
    with 0%nat by (unfold RECORD_SIZE; lia).
  cbn [skipn repeat concat]. rewrite firstn_app, <- Hb, Nat.sub_diag, firstn_O.
  rewrite firstn_all, app_nil_r, Nat.eqb_refl. reflexivity.
Qed.

Lemma slot_fresh_store (i : Z) :
  0 <= i < MAX_ACCOUNTS -> slot fresh_store i = Some empty_client.
Proof.
  intros Hi. unfold fresh_store. rewrite slot_concat_repeat.
  - f_equal.
  - reflexivity.
  - unfold MAX_ACCOUNTS in *. lia.
Qed.

Lemma fresh_store_inv : store_inv fresh_store.
Proof.
  split.
  - unfold fresh_store. rewrite concat_repeat_length. reflexivity.
  - intros i c Hi Hs Hne. rewrite slot_fresh_store in Hs by assumption.
    injection Hs as <-. cbn in Hne. contradiction.
Qed.

(* ================================================================= *)
(** ** Names *)

Lemma isalpha_iff (c : byte) :
  isalpha c = true <-> (65 <= byte_to_Z c <= 90) \/ (97 <= byte_to_Z c <= 122).
Proof.
  unfold isalpha. rewrite orb_true_iff, !andb_true_iff, !Z.leb_le. tauto.
Qed.

Lemma name_char_test (c : byte) :
  negb (isalpha c) && negb (Byte.eqb c " ") && negb (Byte.eqb c "-")
    && negb (Byte.eqb c "'") = false
  <-> name_char c.
Proof.
  unfold name_char.
  pose proof (isalpha_iff c) as Ha.
  pose proof (byte_eqb_eq c " ") as Hs.
  pose proof (byte_eqb_eq c "-") as Hh.
  pose proof (byte_eqb_eq c "'") as Hq.
  destruct (isalpha c), (Byte.eqb c " "), (Byte.eqb c "-"), (Byte.eqb c "'");
    cbn [negb andb]; split; intros H; try reflexivity; try discriminate;
    try tauto.
  destruct H as [H | [H | [H | [H | H]]]];
    [ apply (fun x => proj2 Ha (or_introl x)) in H
    | apply (fun x => proj2 Ha (or_intror x)) in H
    | apply Hs in H | apply Hh in H | apply Hq in H ]; discriminate.
Qed.

Lemma name_chars_ok_iff (s : list byte) :
  V3.name_chars_ok s = true <-> Forall name_char s.
Proof.
  induction s as [|c s IH]; cbn [V3.name_chars_ok].
  - split; [constructor | reflexivity].
  - destruct (negb (isalpha c) && _ && _ && _) eqn:Hc.
    + split; [discriminate|]. intros H. inversion H as [|? ? Hn _]; subst.
      apply name_char_test in Hn. congruence.
    + apply name_char_test in Hc. rewrite IH. split.
      * intros H. now constructor.
      * intros H. now inversion H.
Qed.

Lemma name_chars_bad_iff (s : list byte) :
  V3.name_chars_ok s = false <-> exists c, In c s /\ ~ name_char c.
Proof.
  induction s as [|c s IH]; cbn [V3.name_chars_ok].
  - split; [discriminate | intros (c & [] & _)].
  - destruct (negb (isalpha c) && _ && _ && _) eqn:Hc.
    + split; [|reflexivity]. intros _. exists c. split; [now left|].
      intros Hn. apply name_char_test in Hn. congruence.
    + apply name_char_test in Hc. rewrite IH. split.
      * intros (x & Hin & Hx). exists x. split; [now right | exact Hx].
      * intros (x & [<- | Hin] & Hx); [contradiction|]. now exists x.
Qed.

Lemma cstr_no_nul (a : list byte) : ~ In x00 (cstr a).
Proof.
  induction a as [|c a IH]; cbn [cstr]; [tauto|].
  destruct (Byte.eqb c x00) eqn:Hc; [tauto|].
  apply byte_eqb_neq in Hc. intros [H | H]; [congruence | contradiction].
Qed.

Lemma cstr_app_nul (l r : list byte) : ~ In x00 l -> cstr (l ++ x00 :: r) = l.
Proof.
  induction l as [|c l IH]; intros H; cbn [app cstr].
  - reflexivity.
  - destruct (Byte.eqb c x00) eqn:Hc.
    + apply byte_eqb_eq in Hc. subst c. exfalso. apply H. now left.
    + f_equal. apply IH. intros Hin. apply H. now right.
Qed.

Lemma firstn_no_nul (n : nat) (l : list byte) : ~ In x00 l -> ~ In x00 (firstn n l).
Proof.
  intros H Hin. apply H. rewrite <- (firstn_skipn n l). apply in_or_app. now left.
Qed.

(** The array [copy_name] leaves for a string: the string cut to the room
    there is, NULs up to the last place, and the NUL stored there. *)
Lemma copy_name_some (dst s : list byte) (size : nat) :
  length dst = size -> (0 < size)%nat ->
  copy_name dst size (Some s)
  = firstn (size - 1) (cstr s ++ repeat x00 (size - 1)) ++ [x00].
Proof.
  intros Hlen Hpos. unfold copy_name, strncpy, overwrite.
  set (x := firstn (size - 1) (cstr s ++ repeat x00 (size - 1))).
  assert (Hx : length x = (size - 1)%nat).
  { unfold x. rewrite length_firstn, length_app, repeat_length. lia. }
  rewrite Hx, Hlen.
  destruct (skipn (size - 1) dst) as [|y rest] eqn:Hsk.
  { apply (f_equal (@length byte)) in Hsk. rewrite length_skipn in Hsk.
    cbn in Hsk. lia. }
  assert (Hs : forall (l : list byte) (v z : byte) (t : list byte),
             set (firstn (length l + 1) (l ++ z :: t)) (length l) v = l ++ [v]).
  { induction l as [|a l IH]; intros v z t; cbn [length app Nat.add firstn set].
    - reflexivity.
    - f_equal. apply IH. }
  replace size with (length x + 1)%nat at 1 by lia.
  rewrite <- Hx. apply Hs.
Qed.

Lemma cstr_copied (s : list byte) (n : nat) :
  cstr (firstn n (cstr s ++ repeat x00 n) ++ [x00]) = firstn n (cstr s).
Proof.
  destruct (Nat.le_gt_cases n (length (cstr s))) as [Hle | Hgt].
  - rewrite firstn_app. replace (n - length (cstr s))%nat with 0%nat by lia.
    rewrite firstn_O, app_nil_r.
    apply cstr_app_nul, firstn_no_nul, cstr_no_nul.
  - rewrite firstn_app, (firstn_all2 (cstr s)) by lia.
    rewrite <- app_assoc.
    assert (Hz : exists r, firstn (n - length (cstr s)) (repeat x00 n) ++ [x00] = x00 :: r).
    { destruct (n - length (cstr s))%nat as [|k]; destruct n as [|m]; cbn;
        eexists; reflexivity. }
    destruct Hz as [r ->]. apply cstr_app_nul, cstr_no_nul.
Qed.

Lemma copy_name_spec (dst : list byte) (size : nat) (src : option (list byte)) :
  length dst = size -> (0 < size)%nat ->
  let a := copy_name dst size src in
  length a = size /\ terminated a
  /\ cstr a = match src with
              | Some s => firstn (size - 1) (cstr s)
              | None => []
              end.
Proof.
  intros Hlen Hpos a. subst a. destruct src as [s|].
  - rewrite copy_name_some by assumption. repeat split.
    + rewrite length_app, length_firstn, length_app, repeat_length. cbn. lia.
    + unfold terminated. apply in_or_app. right. now left.
    + apply cstr_copied.
  - unfold copy_name. destruct dst as [|c dst]; [cbn in Hlen; lia|].
    cbn [set]. repeat split.
    + exact Hlen.
    + now left.
Qed.

(* ================================================================= *)
(** ** Environments *)

Lemma sample_scan_range (m : Z) (s r : list byte) (v : Z) :
  0 < m -> sample_scan m s = (Some v, r) -> 0 <= v < m.
Proof.
  intros Hm. unfold sample_scan.
  destruct (scan_digits 0 false (skip_spaces s)) as [[x|] rest]; [|discriminate].
  intros [= <- _]. now apply Z.mod_pos_bound.
Qed.

Lemma sample_env_ok : env_ok sample_env.
Proof.
  constructor; cbn.
  - intros s v r. apply sample_scan_range. reflexivity.
  - apply decode_well_typed. reflexivity.
Qed.

Lemma get_balance_input_range (E : Env) (s s' : list byte) (b : Z) :
  env_ok E -> on_stdin (V3.get_balance_input E) s = (b, s') -> 0 <= b < DOUBLE_MOD.
Proof.
  intros HE. unfold on_stdin, V3.get_balance_input, scanf_with, clear_input_buffer.
  run_world. destruct (scan_double E s) as [[v|] rest] eqn:Hs; cbn [w_stdin].
  - intros [= <- _]. eapply scan_double_range; eassumption.
  - intros [= <- _]. unfold DOUBLE_MOD. lia.
Qed.

Lemma create_form_facts (E : Env) (s : list byte) (n bal : Z) (last first : list byte) :
  env_ok E -> create_form E s = (n, last, first, bal) ->
  (n = 0 \/ 1 <= n <= 100) /\ 0 <= bal < DOUBLE_MOD.
Proof.
  intros HE. unfold create_form.
  destruct (on_stdin (V3.get_account_number E) s) as [n' s1] eqn:H1.
  destruct (on_stdin (V3.get_name_input _ LAST_NAME_SIZE) s1) as [l' s2].
  destruct (on_stdin (V3.get_name_input _ FIRST_NAME_SIZE) s2) as [f' s3].
  destruct (on_stdin (V3.get_balance_input E) s3) as [b' s4] eqn:H4.
  intros [= <- <- <- <-]. split.
  - eapply get_account_number_valid; eassumption.
  - eapply get_balance_input_range; eassumption.
Qed.

Lemma new_record_typed (E : Env) (n bal : Z) (last first : list byte) :
  env_ok E -> 1 <= n <= 100 -> 0 <= bal < DOUBLE_MOD ->
  well_typed (new_record E n last first bal).
Proof.
  intros HE Hn Hb. destruct (uninit_client_typed E HE) as (_ & Hl & Hf & _).
  unfold new_record, initialize_client, well_typed.
  cbn [acct_num last_name first_name balance].
  repeat split; try lia.
  - unfold UINT_MOD. lia.
  - apply copy_name_spec; [exact Hl | unfold LAST_NAME_SIZE; lia].
  - apply copy_name_spec; [exact Hf | unfold FIRST_NAME_SIZE; lia].
Qed.

(* ================================================================= *)
(** ** Forms *)

Lemma create_form_acct (E : Env) (s : list byte) (n bal : Z) (last first : list byte) :
  create_form E s = (n, last, first, bal) ->
  exists s1, on_stdin (V3.get_account_number E) s = (n, s1).
Proof.
  unfold create_form.
  destruct (on_stdin (V3.get_account_number E) s) as [n' s1].
  destruct (on_stdin (V3.get_name_input _ LAST_NAME_SIZE) s1) as [l' s2].
  destruct (on_stdin (V3.get_name_input _ FIRST_NAME_SIZE) s2) as [f' s3].
  destruct (on_stdin (V3.get_balance_input E) s3) as [b' s4].
  intros [= <- <- <- <-]. now exists s1.
Qed.

Lemma delete_form_acct (E : Env) (s : list byte) (n : Z) (conf : option byte) :
  delete_form E s = (n, conf) ->
  exists s1, on_stdin (V3.get_account_number E) s = (n, s1).
Proof.
  unfold delete_form.
  destruct (on_stdin (V3.get_account_number E) s) as [n' s1].
  destruct (on_stdin scanf_char s1) as [c' s2].
  intros [= <- <-]. now exists s1.
Qed.

Lemma delete_account_bad_id (E : Env) (w : World) (s1 : list byte) :
  on_stdin (V3.get_account_number E) (w_stdin w) = (0, s1) ->
  V3.delete_account E w = (0, put_stdin s1 w).
Proof.
  intros H. unfold V3.delete_account.
  erewrite bind_run by (apply run_stdin; [apply stdin_only_get_account_number | exact H]).
  reflexivity.
Qed.

Lemma get_account_number_scan (E : Env) (s rest : list byte) (v : Z) :
  scan_uint E s = (Some v, rest) ->
  on_stdin (V3.get_account_number E) s
  = (if V3.validate_account_number v =? 0 then 0 else v, skip_line rest).
Proof.
  intros H. unfold on_stdin, V3.get_account_number, scanf_with, clear_input_buffer.
  run_world. rewrite H. cbn [w_stdin]. unfold truthy.
  destruct (V3.validate_account_number v =? 0); reflexivity.
Qed.

Lemma probe_reads_only (d : list byte) (p : Z) : reads_only (probe_log d p) = true.
Proof. reflexivity. Qed.

Lemma occupiedb_after_write (d : list byte) (c : client_data) (p : Z) :
  well_typed c ->
  slot (file_write_at d (slot_offset p) (encode c)) p = Some c.
Proof.
  intros Hc. pose proof Hc as (_ & Hl & Hf & _). unfold slot_offset.
  rewrite slot_write_same by (apply encode_length; assumption).
  now rewrite decode_encode.
Qed.

(* ================================================================= *)
(** ** The programs' own tests, run on the model *)

Example test_input_validation_passes : V3.test_input_validation = 1.
Proof. reflexivity. Qed.

Example test_account_management_passes :
  result (V3.test_account_management sample_env)
         (input String.EmptyString (Some fresh_store)) = 1.
Proof. vm_compute. reflexivity. Qed.

Example test_file_writing_passes :
  result V2.test_file_writing (input String.EmptyString None) = 1.
Proof. reflexivity. Qed.

Example test_file_reading_passes :
  result (V2.test_file_reading sample_env)
         (input String.EmptyString (Some fresh_store)) = 1.
Proof. vm_compute. reflexivity. Qed.

(* ================================================================= *)
(** ** Trimming a name *)

Lemma cstr_app_nul_any (l t : list byte) : cstr (l ++ x00 :: t) = cstr l.
Proof.
  induction l as [|c l IH]; cbn [app cstr]; [reflexivity|].
  destruct (Byte.eqb c x00); [reflexivity | now rewrite IH].
Qed.

Lemma cstr_split (b : list byte) :
  terminated b -> exists t, b = cstr b ++ x00 :: t.
Proof.
  unfold terminated. induction b as [|c b IH]; [intros []|].
  intros Hin. cbn [cstr]. destruct (Byte.eqb c x00) eqn:Hc.
  - apply byte_eqb_eq in Hc. subst c. now exists b.
  - apply byte_eqb_neq in Hc. destruct Hin as [H | H]; [congruence|].
    destruct (IH H) as [t Ht]. exists t. cbn [app]. now rewrite <- Ht.
Qed.

Lemma set_app_at (s t : list byte) (x v : byte) :
  set (s ++ x :: t) (length s) v = s ++ v :: t.
Proof.
  induction s as [|c s IH]; cbn [app length set]; [reflexivity | now rewrite IH].
Qed.

Lemma get_app_at (s t : list byte) (x : byte) : get (s ++ x :: t) (length s) = x.
Proof.
  unfold get. induction s as [|c s IH]; cbn [app length nth]; [reflexivity | exact IH].
Qed.

Lemma not_in_app_l (l r : list byte) : ~ In x00 (l ++ r) -> ~ In x00 l.
Proof. intros H Hin. apply H, in_or_app. now left. Qed.

Lemma not_in_app_r (l r : list byte) : ~ In x00 (l ++ r) -> ~ In x00 r.
Proof. intros H Hin. apply H, in_or_app. now right. Qed.

Lemma isspace_nul : isspace x00 = false.
Proof. reflexivity. Qed.

(** The first step: the newline at the end of the string goes. *)
Lemma chomp_step (s t : list byte) :
  ~ In x00 s ->
  let b := s ++ x00 :: t in
  let len := strlen b in
  exists t1,
    (if (0 <? len)%nat && is_newline (get b (len - 1))
     then set b (len - 1) x00 else b) = chomp s ++ x00 :: t1
    /\ ~ In x00 (chomp s).
Proof.
  intros Hs b len. subst b len. unfold strlen.
  rewrite cstr_app_nul by assumption. unfold chomp.
  destruct (rev s) as [|c r] eqn:Hr.
  - apply (f_equal (@rev byte)) in Hr. rewrite rev_involutive in Hr. subst s.
    cbn. exists t. split; [reflexivity | tauto].
  - apply (f_equal (@rev byte)) in Hr. rewrite rev_involutive in Hr.
    cbn [rev] in Hr. subst s. rewrite length_app. cbn [length].
    replace (0 <? length (rev r) + 1)%nat with true
      by (symmetry; apply Nat.ltb_lt; lia).
    replace (length (rev r) + 1 - 1)%nat with (length (rev r)) by lia.
    rewrite <- app_assoc. cbn [app]. rewrite get_app_at. cbn [andb].
    destruct (is_newline c).
    + rewrite set_app_at. exists (x00 :: t). split; [reflexivity|].
      now apply not_in_app_l in Hs.
    + exists t. rewrite <- app_assoc. split; [reflexivity | exact Hs].
Qed.

Lemma skip_leading_app (s t : list byte) :
  V3.skip_leading (s ++ x00 :: t) = V3.skip_leading s.
Proof.
  induction s as [|c s IH]; cbn [app V3.skip_leading].
  - now rewrite isspace_nul.
  - destruct (isspace c); [now rewrite IH | reflexivity].
Qed.

Lemma skip_leading_split (s : list byte) :
  exists sp, s = sp ++ skip_spaces s /\ length sp = V3.skip_leading s.
Proof.
  induction s as [|c s IH]; cbn [V3.skip_leading skip_spaces].
  - now exists [].
  - destruct (isspace c).
    + destruct IH as (sp & Hs & Hl). exists (c :: sp). cbn [app length].
      split; [now rewrite <- Hs | now rewrite Hl].
    + now exists [].
Qed.

Lemma skip_spaces_head (s : list byte) (c : byte) (r : list byte) :
  skip_spaces s = c :: r -> isspace c = false.
Proof.
  induction s as [|x s IH]; cbn [skip_spaces]; [discriminate|].
  destruct (isspace x) eqn:Hx; [exact IH|]. intros [= <- _]. exact Hx.
Qed.

Lemma skip_spaces_suffix (s : list byte) : exists pre, s = pre ++ skip_spaces s.
Proof.
  destruct (skip_leading_split s) as (sp & Hs & _). now exists sp.
Qed.

Lemma skip_spaces_no_nul (s : list byte) : ~ In x00 s -> ~ In x00 (skip_spaces s).
Proof.
  intros H. destruct (skip_spaces_suffix s) as [pre Hp]. rewrite Hp in H.
  now apply not_in_app_r in H.
Qed.

Lemma strip_trailing_split (s : list byte) : exists sp, s = strip_trailing s ++ sp.
Proof.
  unfold strip_trailing. destruct (skip_spaces_suffix (rev s)) as [pre Hp].
  exists (rev pre). rewrite <- rev_app_distr, <- Hp. now rewrite rev_involutive.
Qed.

Lemma strip_trailing_snoc (s : list byte) (c : byte) :
  strip_trailing (s ++ [c]) = if isspace c then strip_trailing s else s ++ [c].
Proof.
  unfold strip_trailing. rewrite rev_app_distr. cbn [rev app skip_spaces].
  destruct (isspace c); [reflexivity|].
  cbn [rev]. now rewrite rev_involutive.
Qed.

Lemma get_middle (sp s : list byte) (c : byte) (rest : list byte) :
  get (sp ++ (s ++ [c]) ++ rest) (length sp + length s) = c.
Proof.
  rewrite <- app_assoc, app_assoc. cbn [app].
  rewrite <- length_app. apply get_app_at.
Qed.

(** The loop that walks back over the white space at the end. *)
Lemma trim_end_spec (sp s rest : list byte) :
  (forall c r, s = c :: r -> isspace c = false) ->
  V3.trim_end (sp ++ s ++ rest) (length sp) (length sp + length s)
  = (length sp + length (strip_trailing s))%nat.
Proof.
  revert rest. induction s as [|c s IH] using rev_ind; intros rest Hhead.
  - cbn [length strip_trailing]. rewrite Nat.add_0_r.
    destruct (length sp) as [|k] eqn:Hk; cbn [V3.trim_end]; [reflexivity|].
    replace (S k <? k)%nat with false by (symmetry; apply Nat.ltb_ge; lia).
    cbn. lia.
  - rewrite length_app. cbn [length].
    replace (length sp + (length s + 1))%nat with (S (length sp + length s)) by lia.
    cbn [V3.trim_end]. rewrite get_middle, strip_trailing_snoc.
    destruct s as [|x s'].
    + cbn [length]. rewrite Nat.add_0_r, Nat.ltb_irrefl. cbn [andb app].
      rewrite (Hhead c [] eq_refl). cbn [length]. lia.
    + replace (length sp <? length sp + length (x :: s'))%nat with true
        by (symmetry; apply Nat.ltb_lt; cbn [length]; lia).
      cbn [andb]. destruct (isspace c).
      * rewrite <- app_assoc. apply IH.
        intros c0 r0 [= <- <-]. apply (Hhead x (s' ++ [c])). reflexivity.
      * rewrite length_app. cbn [length]. lia.
Qed.

Lemma chomp_sub (s : list byte) : exists r, s = chomp s ++ r.
Proof.
  unfold chomp. destruct (rev s) as [|c r] eqn:Hr.
  - exists []. now rewrite app_nil_r.
  - destruct (is_newline c).
    + exists [c]. apply (f_equal (@rev byte)) in Hr.
      now rewrite rev_involutive in Hr.
    + exists []. now rewrite app_nil_r.
Qed.

(** The buffer [trim_buffer] leaves, for a buffer that holds a string. *)
Lemma trim_buffer_shape (b : list byte) :
  terminated b ->
  exists rest, V3.trim_buffer b = trimmed (cstr b) ++ x00 :: rest.
Proof.
  intros Hb. destruct (cstr_split b Hb) as [t Hbt].
  pose proof (cstr_no_nul b) as Hs. set (s := cstr b) in *.
  unfold V3.trim_buffer. rewrite Hbt.
  destruct (chomp_step s t Hs) as (t1 & -> & Hs1).
  set (s1 := chomp s) in *.
  rewrite skip_leading_app.
  destruct (skip_leading_split s1) as (sp & Hsplit & Hsp).
  set (s2 := skip_spaces s1) in *.
  assert (Hs2 : ~ In x00 s2) by now apply skip_spaces_no_nul.
  assert (Hskip : skipn (V3.skip_leading s1) (s1 ++ x00 :: t1) = s2 ++ x00 :: t1).
  { rewrite <- Hsp. rewrite Hsplit at 1. rewrite <- app_assoc.
    rewrite skipn_app, skipn_all, Nat.sub_diag. reflexivity. }
  rewrite Hskip.
  assert (Hlen : strlen (s2 ++ x00 :: t1) = length s2)
    by (unfold strlen; now rewrite cstr_app_nul).
  rewrite Hlen.
  assert (Htrim : V3.trim_end (s1 ++ x00 :: t1) (V3.skip_leading s1)
                    (V3.skip_leading s1 + length s2)
                  = (length sp + length (strip_trailing s2))%nat).
  { rewrite <- Hsp. rewrite Hsplit at 1. rewrite <- app_assoc.
    apply trim_end_spec. intros c r Hc. eapply skip_spaces_head. exact Hc. }
  rewrite Htrim.
  destruct (strip_trailing_split s2) as [sp2 Hsp2].
  set (s3 := strip_trailing s2) in *.
  assert (Hs3 : ~ In x00 s3) by (rewrite Hsp2 in Hs2; now apply not_in_app_l in Hs2).
  assert (Hset : exists rest,
             set (s1 ++ x00 :: t1) (length sp + length s3) x00
             = sp ++ s3 ++ x00 :: rest).
  { rewrite Hsplit. fold s2. rewrite Hsp2. rewrite <- !app_assoc.
    rewrite app_assoc, <- length_app.
    destruct (sp2 ++ x00 :: t1) as [|y rest] eqn:Hy.
    - destruct sp2; discriminate.
    - exists rest. rewrite set_app_at. now rewrite <- app_assoc. }
  destruct Hset as [rest ->].
  unfold trimmed. fold s1 s2 s3.
  destruct (Nat.eqb (V3.skip_leading s1) 0) eqn:Hz.
  - apply Nat.eqb_eq in Hz. rewrite Hz in Hsp. destruct sp; [|discriminate].
    cbn [app]. now exists rest.
  - assert (Hsk : skipn (V3.skip_leading s1) (sp ++ s3 ++ x00 :: rest)
                  = s3 ++ x00 :: rest).
    { rewrite <- Hsp, skipn_app, skipn_all, Nat.sub_diag. reflexivity. }
    rewrite Hsk. unfold strlen. rewrite cstr_app_nul by assumption.
    rewrite firstn_app, firstn_all2 by lia.
    replace (length s3 + 1 - length s3)%nat with 1%nat by lia.
    cbn [firstn]. unfold overwrite.
    rewrite <- app_assoc. cbn [app].
    rewrite firstn_app.
    rewrite firstn_all2 by (rewrite !length_app; cbn [length]; lia).
    rewrite !length_app. cbn [length].
    replace (length sp + (length s3 + S (length rest)) - length s3)%nat
      with (S (length sp + length rest)) by lia.
    cbn [firstn]. eexists. reflexivity.
Qed.

Lemma trim_buffer_spec (b : list byte) :
  terminated b ->
  cstr (V3.trim_buffer b) = trimmed (cstr b) /\ terminated (V3.trim_buffer b).
Proof.
  intros Hb. destruct (trim_buffer_shape b Hb) as [rest ->]. split.
  - apply cstr_app_nul. unfold trimmed, strip_trailing.
    intros Hin. apply in_rev in Hin.
    revert Hin. apply skip_spaces_no_nul.
    intros Hin. apply in_rev in Hin. revert Hin.
    apply skip_spaces_no_nul.
    destruct (chomp_sub (cstr b)) as [r Hr]. intros Hin.
    apply (cstr_no_nul b). rewrite Hr. apply in_or_app. now left.
  - apply in_elt.
Qed.

Lemma trimmed_edges (s : list byte) :
  (forall c r, trimmed s = c :: r -> isspace c = false)
  /\ (forall c r, trimmed s = r ++ [c] -> isspace c = false).
Proof.
  unfold trimmed. set (s2 := skip_spaces (chomp s)).
  assert (Hhead : forall c r, s2 = c :: r -> isspace c = false)
    by (intros c r H; eapply skip_spaces_head; exact H).
  split.
  - intros c r H. destruct (strip_trailing_split s2) as [sp Hsp].
    rewrite H in Hsp. cbn [app] in Hsp. now apply (Hhead c (r ++ sp)).
  - intros c r H. unfold strip_trailing in H.
    apply (f_equal (@rev byte)) in H.
    rewrite rev_involutive, rev_app_distr in H. cbn [rev app] in H.
    eapply skip_spaces_head. exact H.
Qed.

Lemma skip_spaces_all (s : list byte) :
  Forall (fun c => isspace c = true) s -> skip_spaces s = [].
Proof.
  induction 1 as [|c s Hc _ IH]; cbn [skip_spaces]; [reflexivity|].
  now rewrite Hc.
Qed.

Lemma trimmed_blank (s : list byte) :
  Forall (fun c => isspace c = true) s -> trimmed s = [].
Proof.
  intros H. unfold trimmed. destruct (chomp_sub s) as [r Hr].
  rewrite Hr in H. apply Forall_app in H as [H _].
  now rewrite skip_spaces_all.
Qed.

(* ================================================================= *)
(** ** Reading a line *)

Lemma take_line_length (room : nat) (s : list byte) :
  (length (fst (take_line room s)) <= room)%nat.
Proof.
  revert s. induction room as [|k IH]; intros s; [cbn; lia|].
  destruct s as [|c s]; cbn [take_line]; [cbn; lia|].
  destruct (is_newline c); [cbn; lia|].
  specialize (IH s). destruct (take_line k s) as [l r]. cbn in *. lia.
Qed.

Lemma take_line_short (room : nat) (l rest : list byte) :
  Forall (fun c => is_newline c = false) l -> (length l < room)%nat ->
  take_line room (l ++ x0a :: rest) = (l ++ [x0a], rest).
Proof.
  intros Hl. revert room. induction Hl as [|c l Hc _ IH]; intros room Hlen.
  - destruct room; [cbn in Hlen; lia | reflexivity].
  - destruct room as [|k]; [cbn in Hlen; lia|].
    cbn [app take_line]. rewrite Hc, IH by (cbn in Hlen; lia). reflexivity.
Qed.

Lemma take_line_long (room : nat) (l rest : list byte) :
  Forall (fun c => is_newline c = false) l -> (room <= length l)%nat ->
  take_line room (l ++ rest) = (firstn room l, skipn room l ++ rest).
Proof.
  intros Hl. revert room. induction Hl as [|c l Hc _ IH]; intros room Hlen.
  - destruct room; [reflexivity | cbn in Hlen; lia].
  - destruct room as [|k]; [reflexivity|].
    cbn [app take_line firstn skipn]. rewrite Hc, IH by (cbn in Hlen; lia).
    reflexivity.
Qed.

Lemma overwrite_fit (dst src : list byte) :
  (length src <= length dst)%nat ->
  overwrite dst src = src ++ skipn (length src) dst.
Proof.
  intros H. unfold overwrite. apply firstn_all2.
  rewrite length_app, length_skipn. lia.
Qed.

Lemma get_name_input_run (buf : list byte) (n : nat) (s : list byte) :
  on_stdin (V3.get_name_input buf n) s =
    match s with
    | [] => (set buf 0 x00, [])
    | _ => (V3.trim_buffer (overwrite buf (fst (take_line (n - 1) s) ++ [x00])),
            snd (take_line (n - 1) s))
    end.
Proof.
  unfold on_stdin, V3.get_name_input, fgets. run_world.
  destruct s as [|c s]; [reflexivity|].
  destruct (take_line (n - 1) (c :: s)) as [line rest]. reflexivity.
Qed.

(** The name [get_name_input] leaves in a buffer of [n] chars. *)
Lemma get_name_input_string (buf : list byte) (n : nat) (s s' r : list byte) :
  length buf = n -> (1 <= n)%nat ->
  on_stdin (V3.get_name_input buf n) s = (r, s') ->
  length r = n /\ terminated r
  /\ s' = snd (take_line (n - 1) s)
  /\ cstr r = match s with
              | [] => []
              | _ => trimmed (cstr (fst (take_line (n - 1) s)))
              end.
Proof.
  intros Hlen Hn Hrun. rewrite get_name_input_run in Hrun.
  destruct s as [|c s].
  - injection Hrun as <- <-. destruct buf as [|b buf]; [cbn in Hlen; lia|].
    cbn [set]. repeat split; try assumption.
    + now left.
    + now destruct (n - 1)%nat.
  - injection Hrun as <- <-.
    pose proof (take_line_length (n - 1) (c :: s)) as Hl.
    set (line := fst (take_line (n - 1) (c :: s))) in *.
    rewrite overwrite_fit by (rewrite length_app; cbn [length]; lia).
    rewrite <- app_assoc. cbn [app].
    assert (Ht : terminated (line ++ x00 :: skipn (length (line ++ [x00])) buf))
      by apply in_elt.
    destruct (trim_buffer_spec _ Ht) as [Hc Hterm].
    repeat split; try assumption.
    + rewrite trim_buffer_length, length_app. cbn [length].
      rewrite length_skipn, length_app. cbn [length]. lia.
    + rewrite Hc. now rewrite cstr_app_nul_any.
Qed.

(* ================================================================= *)
(** ** Writes that lengthen the file *)

Lemma file_write_length_max (d block : list byte) (off : Z) :
  length (file_write_at d off block)
  = Nat.max (length d) (Z.to_nat off + length block).
Proof.
  unfold file_write_at.
  rewrite !length_app, length_firstn, repeat_length, length_skipn. lia.
Qed.

Lemma file_read_write_before (d block : list byte) (off off' : Z) (n : nat) :
  (Z.to_nat off' + n <= Z.to_nat off)%nat ->
  (Z.to_nat off' + n <= length d)%nat ->
  file_read_at (file_write_at d off block) off' n = file_read_at d off' n.
Proof.
  intros Hb Hd. unfold file_read_at, file_write_at.
  rewrite firstn_skipn_app_l by (rewrite length_firstn; lia).
  rewrite <- (firstn_skipn (Z.to_nat off) d) at 2.
  rewrite firstn_skipn_app_l by (rewrite length_firstn; lia).
  reflexivity.
Qed.

Lemma file_read_beyond (d : list byte) (off : Z) (n : nat) :
  (length d <= Z.to_nat off)%nat -> file_read_at d off n = [].
Proof.
  intros H. unfold file_read_at. rewrite skipn_all2 by lia. apply firstn_nil.
Qed.

(** A record stored at another slot stays where it is, also when the write
    lengthens the file. *)
Lemma slot_write_keep (d : list byte) (c r : client_data) (p i : Z) :
  length (encode c) = RECORD_SIZE ->
  0 <= p -> 0 <= i -> i <> p ->
  slot d i = Some r ->
  slot (file_write_at d (slot_offset p) (encode c)) i = Some r.
Proof.
  intros Hlen Hp Hi Hne Hs.
  pose proof (slot_length d i r Hi Hs) as Hfit.
  destruct (Z.lt_ge_cases i p) as [Hlt | Hge].
  - unfold slot in *. unfold slot_offset.
    rewrite file_read_write_before; [exact Hs | |];
      unfold RECORD_SIZE in *; lia.
  - rewrite <- Hs. unfold slot_offset. apply slot_write_other; try assumption.
    unfold RECORD_SIZE in *. lia.
Qed.

(** Slots above the one written are as they were, complete or not. *)
Lemma slot_write_above (d : list byte) (c : client_data) (p i : Z) :
  length (encode c) = RECORD_SIZE -> 0 <= p < i ->
  slot (file_write_at d (slot_offset p) (encode c)) i = slot d i.
Proof.
  intros Hlen Hpi.
  destruct (Nat.le_gt_cases ((Z.to_nat p + 1) * RECORD_SIZE) (length d)) as [Hin | Hout].
  - unfold slot_offset. apply slot_write_other; try assumption; lia.
  - unfold slot. rewrite !file_read_beyond; [reflexivity | |].
    + unfold RECORD_SIZE in *. lia.
    + rewrite file_write_length_max, Hlen. unfold slot_offset, RECORD_SIZE in *. lia.
Qed.

Lemma occupiedb_write_above (d : list byte) (c : client_data) (p i : Z) :
  length (encode c) = RECORD_SIZE -> 0 <= p < i ->
  occupiedb (file_write_at d (slot_offset p) (encode c)) i = occupiedb d i.
Proof.
  intros Hlen Hpi. unfold occupiedb. now rewrite slot_write_above.
Qed.

(** Slots that the file did not reach and that the write passes over read
    as the empty record. *)
Lemma slot_write_gap (d : list byte) (c : client_data) (p i : Z) :
  length (encode c) = RECORD_SIZE ->
  0 <= i < p -> (length d <= Z.to_nat i * RECORD_SIZE)%nat ->
  slot (file_write_at d (slot_offset p) (encode c)) i = Some empty_client.
Proof.
  intros Hlen Hip Hd. unfold slot, file_read_at, file_write_at, slot_offset.
  rewrite (@firstn_all2 _ (Z.to_nat (p * Z.of_nat RECORD_SIZE)) d)
    by (unfold RECORD_SIZE in *; lia).
  rewrite app_assoc, firstn_skipn_app_l
    by (rewrite length_app, repeat_length; unfold RECORD_SIZE in *; lia).
  rewrite skipn_app_r by (unfold RECORD_SIZE in *; lia).
  assert (Hrep : forall k m, (k + RECORD_SIZE <= m)%nat ->
             firstn RECORD_SIZE (skipn k (repeat x00 m)) = repeat x00 RECORD_SIZE).
  { intros k m Hkm. replace m with (k + (RECORD_SIZE + (m - k - RECORD_SIZE)))%nat by lia.
    rewrite repeat_app, skipn_app_r by (rewrite repeat_length; lia).
    rewrite repeat_length, Nat.sub_diag, skipn_O, repeat_app, firstn_app.
    rewrite repeat_length, Nat.sub_diag, firstn_O, app_nil_r.
    apply firstn_all2. rewrite repeat_length. lia. }
  rewrite Hrep by (unfold RECORD_SIZE in *; lia).
  rewrite repeat_length, Nat.eqb_refl. reflexivity.
Qed.

(* ================================================================= *)
(** ** Scans of the whole file *)

Lemma fread1_run (f : FILE) (size : nat) (buf : list byte) (w : World) :
  can_read (f_mode f) = true ->
  let got := file_read_at (contents w) (w_fpos w) size in
  fread1 f size buf w =
    (if Nat.eqb (length got) size then (1, got) else (0, overwrite buf got),
     mk_world (w_stdin w) (w_disk w) (w_fpos w + Z.of_nat (length got))
       (w_log w ++ [EvRead (w_fpos w) (length got)]) (w_shown w)).
Proof.
  intros Hm got. unfold fread1. rewrite Hm. reflexivity.
Qed.

Lemma records_from_step (d : list byte) (i n : nat) :
  records_from d i (S n) = record_at d i ++ records_from d (S i) n.
Proof. reflexivity. Qed.

(** A sequential read at the [i]-th record gets the block of slot [i]. *)
Lemma sequential_block (d : list byte) (i : nat) :
  file_read_at d (Z.of_nat (Nat.min (i * RECORD_SIZE) (length d))) RECORD_SIZE
  = file_read_at d (Z.of_nat i * Z.of_nat RECORD_SIZE) RECORD_SIZE.
Proof.
  unfold file_read_at. rewrite Nat2Z.id.
  replace (Z.to_nat (Z.of_nat i * Z.of_nat RECORD_SIZE)) with (i * RECORD_SIZE)%nat by lia.
  destruct (Nat.le_gt_cases (i * RECORD_SIZE) (length d)) as [H | H].
  - now rewrite Nat.min_l.
  - rewrite Nat.min_r by lia. now rewrite !skipn_all2 by lia.
Qed.

Lemma sequential_next (d : list byte) (i : nat) :
  (Nat.min (i * RECORD_SIZE) (length d)
   + length (file_read_at d (Z.of_nat i * Z.of_nat RECORD_SIZE) RECORD_SIZE))%nat
  = Nat.min (S i * RECORD_SIZE) (length d).
Proof.
  unfold file_read_at. rewrite length_firstn, length_skipn.
  replace (Z.to_nat (Z.of_nat i * Z.of_nat RECORD_SIZE)) with (i * RECORD_SIZE)%nat by lia.
  lia.
Qed.

Lemma count_loop_run (n i : nat) (f : FILE) (client : client_data) (count : Z)
    (w : World) (d : list byte) :
  can_read (f_mode f) = true ->
  w_disk w = Some d ->
  w_fpos w = Z.of_nat (Nat.min (i * RECORD_SIZE) (length d)) ->
  result (V2.count_loop n f client count) w
  = count + Z.of_nat (length (records_from d i n))
  /\ w_disk (after (V2.count_loop n f client count) w) = Some d
  /\ w_stdin (after (V2.count_loop n f client count) w) = w_stdin w
  /\ w_shown (after (V2.count_loop n f client count) w) = w_shown w.
Proof.
  intros Hm. revert i client count w.
  induction n as [|n IH]; intros i client count w Hd Hpos.
  - cbn. rewrite Z.add_0_r. auto.
  - unfold result, after in *. cbn [V2.count_loop].
    erewrite bind_run by (apply fread1_run; exact Hm).
    unfold contents. rewrite Hd, Hpos, sequential_block.
    rewrite <- Nat2Z.inj_add, sequential_next.
    rewrite records_from_step, length_app, Nat2Z.inj_add.
    unfold record_at, slot.
    set (got := file_read_at d (Z.of_nat i * Z.of_nat RECORD_SIZE) RECORD_SIZE).
    assert (Hstep : forall c k (w1 : World),
               w_disk w1 = Some d ->
               w_fpos w1 = Z.of_nat (Nat.min (S i * RECORD_SIZE) (length d)) ->
               w_stdin w1 = w_stdin w -> w_shown w1 = w_shown w ->
               forall m, k + Z.of_nat (length (records_from d (S i) n)) = m ->
               fst (V2.count_loop n f c k w1) = m
               /\ w_disk (snd (V2.count_loop n f c k w1)) = Some d
               /\ w_stdin (snd (V2.count_loop n f c k w1)) = w_stdin w
               /\ w_shown (snd (V2.count_loop n f c k w1)) = w_shown w).
    { intros c k w1 H1 H2 H3 H4 m <-.
      destruct (IH (S i) c k w1 H1 H2) as (-> & -> & -> & ->). auto. }
    destruct (Nat.eqb (length got) RECORD_SIZE).
    + cbn [Z.eqb]. destruct (acct_num (decode got) =? 0); cbn [negb length];
        apply Hstep; try reflexivity; lia.
    + cbn [Z.eqb length]. apply Hstep; try reflexivity; lia.
Qed.

Lemma count_records_run (E : Env) (f : FILE) (w : World) (d : list byte) :
  can_read (f_mode f) = true -> w_disk w = Some d ->
  result (V2.count_records E (Some f)) w = Z.of_nat (length (accounts d))
  /\ w_disk (after (V2.count_records E (Some f)) w) = Some d.
Proof.
  intros Hm Hd. unfold result, after, V2.count_records, rewind.
  erewrite bind_run by reflexivity.
  pose proof (count_loop_run (Z.to_nat MAX_ACCOUNTS) 0 f (uninit_client E) 0
                (mk_world (w_stdin w) (w_disk w) 0 (w_log w ++ [EvSeek 0]) (w_shown w))
                d Hm Hd eq_refl) as (Hr & Hdisk & _).
  unfold result, after in *. unfold bind, add_log, set_fpos. cbn [fst snd w_stdin w_disk w_fpos w_log w_shown].
  split; [exact Hr | exact Hdisk].
Qed.

Lemma report_loop_run (n j : nat) (f : FILE) (client : client_data)
    (w : World) (d : list byte) :
  can_read (f_mode f) = true ->
  w_disk w = Some d ->
  (j + n <= Z.to_nat MAX_ACCOUNTS)%nat ->
  let w' := after (V3.report_loop n (Z.of_nat j) (Some f) client) w in
  w_shown w' = w_shown w ++ records_from d j n
  /\ w_disk w' = Some d
  /\ w_stdin w' = w_stdin w
  /\ exists l, w_log w' = w_log w ++ l /\ reads_only l = true.
Proof.
  intros Hm. revert j client w.
  induction n as [|n IH]; intros j client w Hd Hjn w'; subst w'.
  - cbn. rewrite !app_nil_r. repeat split; auto. exists []. now rewrite app_nil_r.
  - unfold after in *. cbn [V3.report_loop].
    assert (Hp : 0 <= Z.of_nat j < MAX_ACCOUNTS) by (unfold MAX_ACCOUNTS in *; lia).
    rewrite records_from_step. unfold record_at.
    replace (Z.of_nat j + 1) with (Z.of_nat (S j)) by lia.
    assert (Hstep : forall c (w1 : World) pre l1,
               w_disk w1 = Some d -> w_stdin w1 = w_stdin w ->
               w_shown w1 = w_shown w ++ pre ->
               w_log w1 = w_log w ++ l1 -> reads_only l1 = true ->
               let w' := snd (V3.report_loop n (Z.of_nat (S j)) (Some f) c w1) in
               w_shown w' = w_shown w ++ pre ++ records_from d (S j) n
               /\ w_disk w' = Some d /\ w_stdin w' = w_stdin w
               /\ exists l, w_log w' = w_log w ++ l /\ reads_only l = true).
    { intros c w1 pre l1 H1 H2 H3 H4 H5 w'. subst w'.
      destruct (IH (S j) c w1 H1 ltac:(lia)) as (-> & -> & -> & l & -> & Hl).
      rewrite H2, H3, H4, <- !app_assoc. repeat split.
      exists (l1 ++ l). split; [reflexivity|].
      unfold reads_only in *. rewrite forallb_app, H5, Hl. reflexivity. }
    destruct (slot d (Z.of_nat j)) as [c|] eqn:Hs.
    + erewrite bind_run
        by (apply v3_read_hit with (c := c);
            [exact Hm | exact Hp | unfold contents; rewrite Hd; exact Hs]).
      cbn [truthy Z.eqb negb andb].
      destruct (acct_num c =? 0); cbn [negb].
      * erewrite bind_run by reflexivity.
        eapply (Hstep c _ []); cbn [w_disk w_stdin w_shown w_log];
          try reflexivity; try assumption. now rewrite app_nil_r.
      * unfold V3.print_account_row.
        erewrite bind_run by apply display_client_run.
        eapply (Hstep c _ [c]); cbn [w_disk w_stdin w_shown w_log];
          try reflexivity; assumption.
    + erewrite bind_run
        by (apply v3_read_miss;
            [exact Hm | exact Hp | unfold contents; rewrite Hd; exact Hs]).
      cbn [truthy Z.eqb negb andb].
      erewrite bind_run by reflexivity.
      eapply (Hstep _ _ []); cbn [w_disk w_stdin w_shown w_log];
        try reflexivity; try assumption. now rewrite app_nil_r.
Qed.

Lemma accounts_fresh : accounts fresh_store = [].
Proof. vm_compute. reflexivity. Qed.

(* ================================================================= *)
(** ** Update, branch by branch *)

Lemma update_form_acct (E : Env) (s s3 : list byte) (n : Z) (choice : option Z) :
  update_form E s = (n, choice, s3) ->
  exists s1 s2,
    on_stdin (V3.get_account_number E) s = (n, s1)
    /\ on_stdin (scanf_with (scan_int E)) s1 = (choice, s2)
    /\ s3 = skip_line s2.
Proof.
  unfold update_form.
  destruct (on_stdin (V3.get_account_number E) s) as [n' s1] eqn:H1.
  destruct (on_stdin (scanf_with (scan_int E)) s1) as [c' s2] eqn:H2.
  intros [= <- <- <-]. exists s1, s2. auto.
Qed.

Lemma update_account_bad_id (E : Env) (w : World) (s1 : list byte) :
  on_stdin (V3.get_account_number E) (w_stdin w) = (0, s1) ->
  V3.update_account E w = (0, put_stdin s1 w).
Proof.
  intros H. unfold V3.update_account.
  erewrite bind_run by (apply run_stdin; [apply stdin_only_get_account_number | exact H]).
  reflexivity.
Qed.

Lemma update_account_missing (E : Env) (w : World) :
  w_disk w = None ->
  result (V3.update_account E) w = 0
  /\ w_disk (after (V3.update_account E) w) = None.
Proof.
  intros Hd. unfold result, after, V3.update_account.
  erewrite bind_run by apply stdin_only_get_account_number.
  destruct (on_stdin (V3.get_account_number E) (w_stdin w)) as [n s1].
  cbn [fst snd]. destruct (n =? 0); [cbn; auto|].
  unfold V3.open_data_file.
  erewrite bind_run by (apply fopen_missing; [reflexivity | exact Hd]).
  cbn. auto.
Qed.

Lemma update_account_not_found (E : Env) (w : World) (d s1 : list byte) (n : Z) :
  w_disk w = Some d ->
  on_stdin (V3.get_account_number E) (w_stdin w) = (n, s1) ->
  1 <= n <= 100 ->
  occupiedb d (n - 1) = false ->
  result (V3.update_account E) w = 0
  /\ w_disk (after (V3.update_account E) w) = Some d
  /\ w_shown (after (V3.update_account E) w) = w_shown w.
Proof.
  intros Hd H1 Hn Hocc. unfold result, after, V3.update_account.
  erewrite bind_run by (apply run_stdin; [apply stdin_only_get_account_number | exact H1]).
  replace (n =? 0) with false by (symmetry; apply Z.eqb_neq; lia).
  unfold V3.open_data_file.
  erewrite bind_run by (apply fopen_existing; [reflexivity | exact Hd]).
  rewrite position_of_valid by assumption.
  unfold occupiedb in Hocc.
  destruct (slot d (n - 1)) as [c|] eqn:Hs.
  - erewrite bind_run
      by (apply v3_read_hit with (c := c);
          [reflexivity | unfold MAX_ACCOUNTS; lia | unfold contents; cbn; exact Hs]).
    cbn [truthy Z.eqb negb orb]. apply negb_false_iff in Hocc. rewrite Hocc.
    cbn. auto.
  - erewrite bind_run
      by (apply v3_read_miss;
          [reflexivity | unfold MAX_ACCOUNTS; lia | unfold contents; cbn; exact Hs]).
    cbn. auto.
Qed.

(** The steps every update of an occupied slot begins with. *)
Ltac update_prefix Hd H1 H2 Hn Hs Hid :=
  unfold result, after, V3.update_account;
  erewrite bind_run by (apply run_stdin; [apply stdin_only_get_account_number | exact H1]);
  match type of Hn with
  | 1 <= ?n <= 100 =>
      replace (n =? 0) with false by (symmetry; apply Z.eqb_neq; lia)
  end;
  unfold V3.open_data_file;
  erewrite bind_run by (apply fopen_existing; [reflexivity | exact Hd]);
  rewrite position_of_valid by assumption;
  erewrite bind_run
    by (eapply v3_read_hit;
        [reflexivity | unfold MAX_ACCOUNTS; lia | unfold contents; cbn; exact Hs]);
  cbn [truthy Z.eqb negb orb];
  match type of Hid with
  | acct_num ?c <> 0 =>
      replace (acct_num c =? 0) with false by (symmetry; apply Z.eqb_neq; exact Hid)
  end;
  erewrite bind_run by apply display_client_run;
  erewrite bind_run by (apply run_stdin; [apply stdin_only_scanf_with | exact H2]);
  cbv beta iota.

Lemma write_updated_run (f : FILE) (c : client_data) (p : Z) (w : World) :
  can_write (f_mode f) = true -> 0 <= p < MAX_ACCOUNTS ->
  V3.write_updated (Some f) c p w =
    (1, mk_world (w_stdin w)
          (Some (file_write_at (contents w) (slot_offset p) (encode c)))
          (slot_offset p + Z.of_nat (length (encode c)))
          (w_log w ++ [EvSeek (slot_offset p); EvWrite (slot_offset p) (encode c);
                       EvClose])
          (w_shown w ++ [c])).
Proof.
  intros Hm Hp. unfold V3.write_updated.
  erewrite bind_run by (apply v3_write_run; assumption).
  unfold V3.close_data_file, fclose, V3.display_client. run_world.
  cbn [truthy Z.eqb negb]. rewrite <- app_assoc. reflexivity.
Qed.

Lemma update_balance_run (E : Env) (w : World) (d s3 s4 : list byte)
    (c : client_data) (n t : Z) :
  w_disk w = Some d ->
  update_form E (w_stdin w) = (n, Some 1, s3) ->
  1 <= n <= 100 ->
  slot d (n - 1) = Some c -> acct_num c <> 0 ->
  on_stdin (V3.get_balance_input E) s3 = (t, s4) ->
  let c' := V3.with_balance c (double_add E (balance c) t) in
  result (V3.update_account E) w = 1
  /\ w_disk (after (V3.update_account E) w)
     = Some (file_write_at d (slot_offset (n - 1)) (encode c'))
  /\ w_shown (after (V3.update_account E) w) = w_shown w ++ [c; c'].
Proof.
  intros Hd Hform Hn Hs Hid Ht c'. subst c'.
  destruct (update_form_acct _ _ _ _ _ Hform) as (s1 & s2 & H1 & H2 & ->).
  update_prefix Hd H1 H2 Hn Hs Hid.
  erewrite bind_run by apply clear_input_buffer_run.
  cbn [Z.eqb Pos.eqb].
  erewrite bind_run by (apply run_stdin; [apply stdin_only_get_balance_input | exact Ht]).
  rewrite write_updated_run by (reflexivity || (unfold MAX_ACCOUNTS; lia)).
  unfold put_stdin, contents. cbn [fst snd w_disk w_shown w_stdin w_log w_fpos].
  rewrite <- ?app_assoc. auto.
Qed.

Lemma update_names_run (E : Env) (w : World) (d s3 s5 : list byte)
    (c : client_data) (n choice : Z) (last first : list byte) :
  w_disk w = Some d ->
  update_form E (w_stdin w) = (n, Some choice, s3) ->
  1 <= n <= 100 ->
  slot d (n - 1) = Some c -> acct_num c <> 0 ->
  choice = 2 \/ choice = 3 ->
  update_names c s3 = (last, first, s5) ->
  let c' := if choice =? 2 then V3.with_names c last first
            else V3.with_balance (V3.with_names c last first)
                   (fst (on_stdin (V3.get_balance_input E) s5)) in
  if names_valid last first then
    result (V3.update_account E) w = 1
    /\ w_disk (after (V3.update_account E) w)
       = Some (file_write_at d (slot_offset (n - 1)) (encode c'))
    /\ w_shown (after (V3.update_account E) w) = w_shown w ++ [c; c']
  else
    result (V3.update_account E) w = 0
    /\ w_disk (after (V3.update_account E) w) = Some d.
Proof.
  intros Hd Hform Hn Hs Hid Hch Hnames c'. subst c'.
  destruct (update_form_acct _ _ _ _ _ Hform) as (s1 & s2 & H1 & H2 & ->).
  unfold update_names in Hnames.
  destruct (on_stdin (V3.get_name_input (last_name c) LAST_NAME_SIZE) (skip_line s2))
    as [l s4] eqn:H3.
  destruct (on_stdin (V3.get_name_input (first_name c) FIRST_NAME_SIZE) s4)
    as [f s5'] eqn:H4.
  injection Hnames as -> -> ->.
  update_prefix Hd H1 H2 Hn Hs Hid.
  erewrite bind_run by apply clear_input_buffer_run.
  unfold names_valid.
  destruct Hch as [-> | ->]; cbn [Z.eqb Pos.eqb].
  - erewrite bind_run by (apply run_stdin; [apply stdin_only_get_name_input | exact H3]).
    erewrite bind_run by (apply run_stdin; [apply stdin_only_get_name_input | exact H4]).
    cbn [V3.with_names last_name first_name].
    destruct (truthy (V3.validate_name (Some last))) eqn:Hl;
      [destruct (truthy (V3.validate_name (Some first))) eqn:Hf|];
      cbn [negb orb andb].
    + rewrite write_updated_run by (reflexivity || (unfold MAX_ACCOUNTS; lia)).
      unfold put_stdin, contents. cbn [fst snd w_disk w_shown w_stdin w_log w_fpos].
      rewrite <- ?app_assoc. auto.
    + cbn. auto.
    + cbn. auto.
  - erewrite bind_run by (apply run_stdin; [apply stdin_only_get_name_input | exact H3]).
    erewrite bind_run by (apply run_stdin; [apply stdin_only_get_name_input | exact H4]).
    erewrite bind_run by apply stdin_only_get_balance_input.
    cbn [w_stdin put_stdin V3.with_names V3.with_balance last_name first_name].
    destruct (truthy (V3.validate_name (Some last))) eqn:Hl;
      [destruct (truthy (V3.validate_name (Some first))) eqn:Hf|];
      cbn [negb orb andb].
    + rewrite write_updated_run by (reflexivity || (unfold MAX_ACCOUNTS; lia)).
      unfold put_stdin, contents. cbn [fst snd w_disk w_shown w_stdin w_log w_fpos].
      rewrite <- ?app_assoc. auto.
    + cbn. auto.
    + cbn. auto.
Qed.

Lemma update_no_choice_run (E : Env) (w : World) (d s3 : list byte)
    (c : client_data) (n : Z) (choice : option Z) :
  w_disk w = Some d ->
  update_form E (w_stdin w) = (n, choice, s3) ->
  1 <= n <= 100 ->
  slot d (n - 1) = Some c -> acct_num c <> 0 ->
  match choice with
  | Some k => k <> 1 /\ k <> 2 /\ k <> 3
  | None => True
  end ->
  result (V3.update_account E) w = 0
  /\ w_disk (after (V3.update_account E) w) = Some d.
Proof.
  intros Hd Hform Hn Hs Hid Hch.
  destruct (update_form_acct _ _ _ _ _ Hform) as (s1 & s2 & H1 & H2 & ->).
  update_prefix Hd H1 H2 Hn Hs Hid.
  destruct choice as [k|]; cbv beta iota.
  - erewrite bind_run by apply clear_input_buffer_run.
    destruct Hch as (K1 & K2 & K3).
    replace (k =? 1) with false by (symmetry; apply Z.eqb_neq; exact K1).
    replace (k =? 2) with false by (symmetry; apply Z.eqb_neq; exact K2).
    replace (k =? 3) with false by (symmetry; apply Z.eqb_neq; exact K3).
    cbn. auto.
  - cbn. auto.
Qed.

(* ================================================================= *)
(** ** Create that stops short *)

Lemma create_account_rejects (E : Env) (w : World) (n bal : Z)
    (last first : list byte) :
  create_form E (w_stdin w) = (n, last, first, bal) ->
  n = 0 \/ names_valid last first = false ->
  result (V3.create_account E) w = 0
  /\ w_disk (after (V3.create_account E) w) = w_disk w.
Proof.
  intros Hform Hbad. destruct (create_form_acct _ _ _ _ _ _ Hform) as [s1 H1].
  destruct (get_account_number_valid _ _ _ _ H1) as [-> | Hn].
  - unfold result, after. rewrite (create_account_bad_id _ _ _ H1). cbn. auto.
  - destruct Hbad as [-> | Hnames]; [lia|].
    destruct (w_disk w) as [d|] eqn:Hd.
    + pose proof (create_account_present E w d n bal last first Hd Hform Hn) as H.
      cbv zeta in H. rewrite Hnames in H.
      destruct (occupiedb d (n - 1)); destruct H as (Hr & Hdisk & _); auto.
    + destruct (create_account_missing E w Hd) as (Hr & Hdisk & _). auto.
Qed.

(* ================================================================= *)
(** ** The report and the size of the file *)

Lemma display_all_accounts_run (E : Env) (w : World) (d : list byte) :
  w_disk w = Some d ->
  let w' := after (V3.display_all_accounts E) w in
  w_shown w' = w_shown w ++ accounts d
  /\ w_disk w' = Some d
  /\ w_stdin w' = w_stdin w
  /\ exists l, w_log w' = w_log w ++ l /\ reads_only l = true.
Proof.
  intros Hd w'. subst w'. unfold after, V3.display_all_accounts, V3.open_data_file.
  erewrite bind_run by (apply fopen_existing; [reflexivity | exact Hd]).
  cbv beta iota.
  pose proof (report_loop_run (Z.to_nat MAX_ACCOUNTS) 0 (mk_FILE RB) (uninit_client E)
                (mk_world (w_stdin w) (Some d) 0 (w_log w ++ [EvOpen RB true]) (w_shown w))
                d eq_refl eq_refl ltac:(lia)) as H.
  cbv zeta in H. unfold after in H. cbn [Z.of_nat] in H.
  destruct H as (H1 & H2 & H3 & l & H4 & H5).
  destruct (V3.report_loop (Z.to_nat MAX_ACCOUNTS) 0 (Some (mk_FILE RB)) (uninit_client E) _)
    as [u w1] eqn:Hloop.
  erewrite bind_run by exact Hloop.
  cbn [snd w_shown w_disk w_stdin w_log] in *.
  unfold V3.close_data_file, fclose. run_world.
  split; [exact H1 | split; [exact H2 | split; [exact H3 |]]].
  exists ([EvOpen RB true] ++ l ++ [EvClose]). rewrite H4, <- !app_assoc.
  split; [reflexivity|]. unfold reads_only in *.
  cbn [app forallb wrote negb andb]. rewrite forallb_app, H5. reflexivity.
Qed.

Lemma get_file_size_run (f : FILE) (w : World) :
  0 <= w_fpos w ->
  let size := Z.of_nat (length (contents w)) in
  V2.get_file_size (Some f) w =
    (size, mk_world (w_stdin w) (w_disk w) (w_fpos w)
             (w_log w ++ [EvSeek size; EvSeek (w_fpos w)]) (w_shown w)).
Proof.
  intros Hpos size. unfold V2.get_file_size, ftell, fseek_end.
  unfold bind at 1. unfold bind at 1. run_world. cbn [Z.eqb negb].
  unfold fseek. apply Z.ltb_ge in Hpos. rewrite Hpos. run_world.
  rewrite <- app_assoc. reflexivity.
Qed.

(* ================================================================= *)
(** ** More on strings and slots *)

Lemma strlen_terminated (a : list byte) : terminated a -> (strlen a < length a)%nat.
Proof.
  intros H. destruct (cstr_split a H) as [t Ht]. unfold strlen.
  rewrite Ht at 2. rewrite length_app. cbn [length]. lia.
Qed.

Lemma validate_name_empty (a : list byte) : cstr a = [] -> V3.validate_name (Some a) = 0.
Proof.
  intros H. unfold V3.validate_name, strlen. now rewrite H.
Qed.

Lemma with_balance_encode_length (c : client_data) (b : Z) :
  length (last_name c) = LAST_NAME_SIZE -> length (first_name c) = FIRST_NAME_SIZE ->
  length (encode (V3.with_balance c b)) = RECORD_SIZE.
Proof. intros Hl Hf. now apply encode_length. Qed.

Lemma occupiedb_false (d : list byte) (p : Z) : occupiedb d p = false <-> ~ occupied d p.
Proof.
  split.
  - intros H Ho. apply occupiedb_true in Ho. congruence.
  - intros H. destruct (occupiedb d p) eqn:Ho; [|reflexivity].
    exfalso. now apply H, occupiedb_true.
Qed.

Lemma occupiedb_slot (d : list byte) (p : Z) (c : client_data) :
  slot d p = Some c -> acct_num c <> 0 -> occupiedb d p = true.
Proof.
  intros Hs Hid. apply occupiedb_true. now exists c.
Qed.

(* ================================================================= *)
(** ** Writes that are refused *)

Lemma v2_write_refused (fp : option FILE) (c : client_data) (p : Z) (w : World) :
  fp = None \/ p < 0 \/ MAX_ACCOUNTS <= p ->
  V2.write_client_to_file fp c p w = (0, w).
Proof.
  intros H. unfold V2.write_client_to_file. destruct fp as [f|]; [|reflexivity].
  destruct H as [H | H]; [discriminate|]. now rewrite out_of_range_test.
Qed.

Lemma v3_write_refused (fp : option FILE) (c : client_data) (p : Z) (w : World) :
  fp = None \/ p < 0 \/ MAX_ACCOUNTS <= p ->
  V3.write_client_to_file fp c p w = (0, w).
Proof.
  intros H. unfold V3.write_client_to_file. destruct fp as [f|]; [|reflexivity].
  destruct H as [H | H]; [discriminate|]. now rewrite out_of_range_test.
Qed.

Lemma write_read_only (f : FILE) (c : client_data) (p : Z) (w : World) :
  can_write (f_mode f) = false -> 0 <= p < MAX_ACCOUNTS ->
  (result (V2.write_client_to_file (Some f) c p) w = 0
   /\ w_disk (after (V2.write_client_to_file (Some f) c p) w) = w_disk w)
  /\ (result (V3.write_client_to_file (Some f) c p) w = 0
      /\ w_disk (after (V3.write_client_to_file (Some f) c p) w) = w_disk w).
Proof.
  intros Hm Hp.
  assert (Hoff : 0 <= p * Z.of_nat RECORD_SIZE)
    by (unfold MAX_ACCOUNTS, RECORD_SIZE in *; lia).
  split.
  - unfold result, after, V2.write_client_to_file.
    rewrite in_range_test by assumption.
    erewrite bind_run by (apply fseek_run; exact Hoff).
    cbn [negb Z.eqb]. unfold bind, fwrite1. rewrite Hm. cbn. auto.
  - unfold result, after, V3.write_client_to_file.
    rewrite in_range_test by assumption.
    erewrite bind_run by (apply fseek_run; exact Hoff).
    cbn [negb Z.eqb]. unfold bind, fwrite1. rewrite Hm. cbn. auto.
Qed.

(* ================================================================= *)
(** ** Missing file and rejected id, for Read and Delete *)

Lemma read_account_bad_id (E : Env) (w : World) (s1 : list byte) :
  on_stdin (V3.get_account_number E) (w_stdin w) = (0, s1) ->
  V3.read_account E w = (0, put_stdin s1 w).
Proof.
  intros H. unfold V3.read_account.
  erewrite bind_run by (apply run_stdin; [apply stdin_only_get_account_number | exact H]).
  reflexivity.
Qed.

Lemma read_account_missing (E : Env) (w : World) :
  w_disk w = None ->
  result (V3.read_account E) w = 0
  /\ w_disk (after (V3.read_account E) w) = None
  /\ w_shown (after (V3.read_account E) w) = w_shown w.
Proof.
  intros Hd. unfold result, after, V3.read_account.
  erewrite bind_run by apply stdin_only_get_account_number.
  destruct (on_stdin (V3.get_account_number E) (w_stdin w)) as [n s1].
  cbn [fst snd]. destruct (n =? 0); [cbn; auto|].
  unfold V3.open_data_file.
  erewrite bind_run by (apply fopen_missing; [reflexivity | exact Hd]).
  cbn. auto.
Qed.

Lemma delete_account_missing (E : Env) (w : World) :
  w_disk w = None ->
  result (V3.delete_account E) w = 0
  /\ w_disk (after (V3.delete_account E) w) = None.
Proof.
  intros Hd. unfold result, after, V3.delete_account.
  erewrite bind_run by apply stdin_only_get_account_number.
  destruct (on_stdin (V3.get_account_number E) (w_stdin w)) as [n s1].
  cbn [fst snd]. destruct (n =? 0); [cbn; auto|].
  unfold V3.open_data_file.
  erewrite bind_run by (apply fopen_missing; [reflexivity | exact Hd]).
  cbn. auto.
Qed.

(* ================================================================= *)
(** ** The tests of version 3 on a file that exists *)

Lemma test_client_length (E : Env) (acct bal : Z) (last first : option (list byte)) :
  env_ok E ->
  length (encode (initialize_client (uninit_client E) acct last first bal)) = RECORD_SIZE.
Proof.
  intros HE. destruct (uninit_client_typed E HE) as (_ & Hl & Hf & _).
  apply encode_length; cbn [initialize_client last_name first_name].
  - apply copy_name_spec; [exact Hl | unfold LAST_NAME_SIZE; lia].
  - apply copy_name_spec; [exact Hf | unfold FIRST_NAME_SIZE; lia].
Qed.

Lemma test_crud_operations_run (E : Env) (w : World) (d : list byte) :
  env_ok E -> w_disk w = Some d ->
  exists c1 c2,
    length (encode c1) = RECORD_SIZE /\ length (encode c2) = RECORD_SIZE
    /\ result (V3.test_crud_operations E) w = 1
    /\ w_disk (after (V3.test_crud_operations E) w)
       = Some (file_write_at
                 (file_write_at (file_write_at d (slot_offset 98) (encode c1))
                                (slot_offset 98) (encode c2))
                 (slot_offset 98) (encode empty_client)).
Proof.
  intros HE Hd.
  set (c1 := initialize_client (uninit_client E) 99 (Some (lit "TestLast"%string))
               (Some (lit "TestFirst"%string)) V3.d_100).
  assert (H1 : length (encode c1) = RECORD_SIZE) by now apply test_client_length.
  set (r := decode (encode c1)).
  set (c2 := V3.with_balance r (double_add E (balance r) V3.d_50)).
  assert (H2 : length (encode c2) = RECORD_SIZE).
  { apply with_balance_encode_length; apply decode_well_typed; exact H1. }
  exists c1, c2. split; [exact H1|]. split; [exact H2|].
  unfold result, after, V3.test_crud_operations, V3.open_data_file. fold c1.
  erewrite bind_run by (apply fopen_existing; [reflexivity | exact Hd]).
  cbv beta iota.
  erewrite bind_run by (apply v3_write_run; [reflexivity | unfold MAX_ACCOUNTS; lia]).
  cbn [truthy Z.eqb negb].
  erewrite bind_run
    by (apply v3_read_hit with (c := r);
        [reflexivity | unfold MAX_ACCOUNTS; lia
        | unfold contents; cbn [w_disk]; unfold slot_offset;
          now apply slot_write_same]).
  cbn [truthy Z.eqb negb]. fold c2.
  erewrite bind_run by (apply v3_write_run; [reflexivity | unfold MAX_ACCOUNTS; lia]).
  cbn [truthy Z.eqb negb].
  erewrite bind_run by (apply v3_write_run; [reflexivity | unfold MAX_ACCOUNTS; lia]).
  cbn [truthy Z.eqb negb]. unfold V3.close_data_file, fclose. run_world.
  unfold contents. cbn [w_disk]. auto.
Qed.

Lemma test_account_management_run (E : Env) (w : World) (d : list byte) :
  w_disk w = Some d ->
  result (V3.test_account_management E) w = Zb (negb (occupiedb d 87))
  /\ w_disk (after (V3.test_account_management E) w)
     = Some (file_write_at d (slot_offset 76) (encode V3.test_account)).
Proof.
  intros Hd. unfold result, after, V3.test_account_management, V3.open_data_file.
  erewrite bind_run by (apply fopen_existing; [reflexivity | exact Hd]).
  cbv beta iota.
  erewrite bind_run by (apply v3_write_run; [reflexivity | unfold MAX_ACCOUNTS; lia]).
  erewrite bind_run by reflexivity.
  erewrite bind_run by (apply account_exists_run; [reflexivity | lia]).
  unfold contents. cbn [w_disk].
  assert (H77 : occupiedb (file_write_at d (slot_offset 76) (encode V3.test_account)) (77 - 1) = true).
  { eapply occupiedb_slot.
    - apply occupiedb_after_write. repeat split; vm_compute; (reflexivity || discriminate).
    - discriminate. }
  rewrite H77. cbn [Zb truthy Z.eqb negb].
  erewrite bind_run by (apply account_exists_run; [reflexivity | lia]).
  replace (88 - 1) with 87 by lia.
  rewrite occupiedb_write_above by (reflexivity || lia).
  destruct (occupiedb d 87); cbn; auto.
Qed.

(* ================================================================= *)
(** ** The account numbers of a store *)

Lemma records_from_ids (d : list byte) (from n : nat) :
  store_inv d -> (from + n <= Z.to_nat MAX_ACCOUNTS)%nat ->
  Forall (fun c => Z.of_nat from < acct_num c) (records_from d from n)
  /\ StronglySorted Z.lt (map acct_num (records_from d from n)).
Proof.
  intros [_ Hids]. revert from. induction n as [|n IH]; intros from Hle.
  - cbn. split; constructor.
  - rewrite records_from_step. destruct (IH (S from) ltac:(lia)) as [Hall Hsorted].
    assert (Hweak : Forall (fun c => Z.of_nat from < acct_num c) (records_from d (S from) n)).
    { eapply Forall_impl; [|exact Hall]. cbn beta. intros c Hc. lia. }
    unfold record_at. destruct (slot d (Z.of_nat from)) as [c|] eqn:Hs;
      [destruct (acct_num c =? 0) eqn:Hz|]; cbn [app]; try (split; assumption).
    apply Z.eqb_neq in Hz.
    assert (Hid : acct_num c = Z.of_nat from + 1).
    { apply Hids; try assumption. unfold MAX_ACCOUNTS in *. lia. }
    split.
    + constructor; [lia | exact Hweak].
    + cbn [map]. constructor; [exact Hsorted|].
      rewrite Forall_map. eapply Forall_impl; [|exact Hall].
      cbn beta. intros c' Hc'. lia.
Qed.

(* ================================================================= *)
(** ** The table of version 2 and its tests *)

Lemma contents_loop_run (n j : nat) (f : FILE) (client : client_data) (count : Z)
    (w : World) (d : list byte) :
  can_read (f_mode f) = true ->
  w_disk w = Some d ->
  (j + n <= Z.to_nat MAX_ACCOUNTS)%nat ->
  let r := V2.contents_loop n (Z.of_nat j) (Some f) client count w in
  fst r = count + Z.of_nat (length (records_from d j n))
  /\ w_shown (snd r) = w_shown w ++ records_from d j n
  /\ w_disk (snd r) = Some d
  /\ w_stdin (snd r) = w_stdin w
  /\ exists l, w_log (snd r) = w_log w ++ l /\ reads_only l = true.
Proof.
  intros Hm. revert j client count w.
  induction n as [|n IH]; intros j client count w Hd Hjn r; subst r.
  - cbn. rewrite !app_nil_r, Z.add_0_r. repeat split; auto.
    exists []. now rewrite app_nil_r.
  - cbn [V2.contents_loop].
    assert (Hp : 0 <= Z.of_nat j < MAX_ACCOUNTS) by (unfold MAX_ACCOUNTS in *; lia).
    rewrite records_from_step. unfold record_at.
    replace (Z.of_nat j + 1) with (Z.of_nat (S j)) by lia.
    assert (Hstep : forall c k (w1 : World) pre l1,
               w_disk w1 = Some d -> w_stdin w1 = w_stdin w ->
               w_shown w1 = w_shown w ++ pre ->
               w_log w1 = w_log w ++ l1 -> reads_only l1 = true ->
               k = count + Z.of_nat (length pre) ->
               let r := V2.contents_loop n (Z.of_nat (S j)) (Some f) c k w1 in
               fst r = count + Z.of_nat (length (pre ++ records_from d (S j) n))
               /\ w_shown (snd r) = w_shown w ++ pre ++ records_from d (S j) n
               /\ w_disk (snd r) = Some d /\ w_stdin (snd r) = w_stdin w
               /\ exists l, w_log (snd r) = w_log w ++ l /\ reads_only l = true).
    { intros c k w1 pre l1 H1 H2 H3 H4 H5 H6 r. subst r.
      destruct (IH (S j) c k w1 H1 ltac:(lia)) as (-> & -> & -> & -> & l & -> & Hl).
      rewrite H2, H3, H4, <- !app_assoc, length_app, Nat2Z.inj_add.
      split; [lia|]. repeat split.
      exists (l1 ++ l). split; [reflexivity|].
      unfold reads_only in *. rewrite forallb_app, H5, Hl. reflexivity. }
    destruct (slot d (Z.of_nat j)) as [c|] eqn:Hs.
    + erewrite bind_run
        by (apply v2_read_hit with (c := c);
            [exact Hm | exact Hp | unfold contents; rewrite Hd; exact Hs]).
      cbn [truthy Z.eqb negb].
      destruct (acct_num c =? 0); cbn [negb].
      * eapply (Hstep c _ _ []); cbn [w_disk w_stdin w_shown w_log length];
          try reflexivity; try assumption; [now rewrite app_nil_r | lia].
      * erewrite bind_run by reflexivity.
        eapply (Hstep c _ _ [c]); cbn [w_disk w_stdin w_shown w_log length];
          try reflexivity; try assumption.
    + erewrite bind_run
        by (apply v2_read_miss;
            [exact Hm | exact Hp | unfold contents; rewrite Hd; exact Hs]).
      cbn [truthy Z.eqb negb].
      eapply (Hstep _ _ _ []); cbn [w_disk w_stdin w_shown w_log length];
        try reflexivity; try assumption; [now rewrite app_nil_r | lia].
Qed.

Lemma rewind_run (f : FILE) (w : World) :
  rewind f w
  = (tt, mk_world (w_stdin w) (w_disk w) 0 (w_log w ++ [EvSeek 0]) (w_shown w)).
Proof. reflexivity. Qed.

Lemma display_file_contents_run (E : Env) (w : World) (d : list byte) :
  w_disk w = Some d ->
  let r := V2.display_file_contents E w in
  fst r = Some (Z.of_nat (length (accounts d)))
  /\ w_shown (snd r) = w_shown w ++ accounts d
  /\ w_disk (snd r) = Some d
  /\ w_stdin (snd r) = w_stdin w
  /\ exists l, w_log (snd r) = w_log w ++ l /\ reads_only l = true.
Proof.
  intros Hd r. subst r. unfold V2.display_file_contents, V2.open_data_file.
  erewrite bind_run by (apply fopen_existing; [reflexivity | exact Hd]).
  cbv beta iota.
  erewrite bind_run by apply rewind_run.
  cbn [w_stdin w_disk w_fpos w_log w_shown].
  pose proof (contents_loop_run (Z.to_nat MAX_ACCOUNTS) 0 (mk_FILE RB) (uninit_client E) 0
                (mk_world (w_stdin w) (Some d) 0
                   ((w_log w ++ [EvOpen RB true]) ++ [EvSeek 0]) (w_shown w))
                d eq_refl eq_refl ltac:(lia)) as H.
  cbv zeta in H. cbn [Z.of_nat] in H.
  destruct H as (H0 & H1 & H2 & H3 & l & H4 & H5).
  destruct (V2.contents_loop (Z.to_nat MAX_ACCOUNTS) 0 (Some (mk_FILE RB)) (uninit_client E) 0 _)
    as [k w1] eqn:Hloop.
  erewrite bind_run by exact Hloop.
  cbn [fst snd w_shown w_disk w_stdin w_log] in *.
  unfold V2.close_data_file, fclose. run_world.
  split; [now rewrite H0 | split; [exact H1 | split; [exact H2 | split; [exact H3 |]]]].
  exists ([EvOpen RB true; EvSeek 0] ++ l ++ [EvClose]). rewrite H4, <- !app_assoc.
  split; [reflexivity|]. unfold reads_only in *.
  cbn [app forallb wrote negb andb]. rewrite forallb_app, H5. reflexivity.
Qed.

Lemma fopen_creates (mode : fmode) (w : World) :
  creates mode = true ->
  fopen mode w =
    (Some (mk_FILE mode),
     mk_world (w_stdin w) (Some []) 0 (w_log w ++ [EvOpen mode true]) (w_shown w)).
Proof. intros H. unfold fopen. rewrite H. reflexivity. Qed.

Lemma v2_samples_typed :
  well_typed V2.test_client /\ well_typed V2.write_client
  /\ well_typed V2.client1 /\ well_typed V2.client2.
Proof.
  unfold well_typed. cbn [acct_num last_name first_name balance V2.test_client
    V2.write_client V2.client1 V2.client2].
  unfold UINT_MOD, DOUBLE_MOD, V2.d_123_45, V2.d_555_55, V2.d_100, V2.d_200.
  repeat split; try lia; reflexivity.
Qed.

Lemma test_file_writing_run (w : World) :
  result V2.test_file_writing w = 1
  /\ w_disk (after V2.test_file_writing w)
     = Some (file_write_at [] (slot_offset 10) (encode V2.test_client)).
Proof.
  unfold result, after, V2.test_file_writing, V2.open_data_file.
  erewrite bind_run by (apply fopen_creates; reflexivity).
  cbv beta iota.
  erewrite bind_run by (apply v2_write_run; [reflexivity | unfold MAX_ACCOUNTS; lia]).
  cbn [truthy negb Z.eqb]. unfold V2.close_data_file, fclose. run_world. auto.
Qed.

Lemma test_file_reading_run (E : Env) (w : World) (d : list byte) :
  w_disk w = Some d ->
  result (V2.test_file_reading E) w = 1
  /\ w_disk (after (V2.test_file_reading E) w)
     = Some (file_write_at d (slot_offset 20) (encode V2.write_client)).
Proof.
  intros Hd. unfold result, after, V2.test_file_reading, V2.open_data_file.
  erewrite bind_run by (apply fopen_existing; [reflexivity | exact Hd]).
  cbv beta iota.
  erewrite bind_run by (apply v2_write_run; [reflexivity | unfold MAX_ACCOUNTS; lia]).
  erewrite bind_run
    by (apply v2_read_hit with (c := V2.write_client);
        [reflexivity | unfold MAX_ACCOUNTS; lia
        | unfold contents; cbn [w_disk]; apply occupiedb_after_write;
          apply v2_samples_typed]).
  cbn [truthy negb Z.eqb].
  replace ((acct_num V2.write_client =? 88)
           && streq (last_name V2.write_client) (lit "ReadTest"%string)
           && (balance V2.write_client =? V2.d_555_55)) with true
    by (vm_compute; reflexivity).
  unfold V2.close_data_file, fclose. run_world. auto.
Qed.

Lemma test_file_positioning_run (E : Env) (w : World) (d : list byte) :
  w_disk w = Some d ->
  result (V2.test_file_positioning E) w = 1
  /\ w_disk (after (V2.test_file_positioning E) w)
     = Some (file_write_at (file_write_at d (slot_offset 5) (encode V2.client1))
               (slot_offset 15) (encode V2.client2)).
Proof.
  intros Hd. unfold result, after, V2.test_file_positioning, V2.open_data_file.
  erewrite bind_run by (apply fopen_existing; [reflexivity | exact Hd]).
  cbv beta iota.
  erewrite bind_run by (apply v2_write_run; [reflexivity | unfold MAX_ACCOUNTS; lia]).
  erewrite bind_run by (apply v2_write_run; [reflexivity | unfold MAX_ACCOUNTS; lia]).
  erewrite bind_run
    by (apply v2_read_hit with (c := V2.client2);
        [reflexivity | unfold MAX_ACCOUNTS; lia
        | unfold contents; cbn [w_disk]; apply occupiedb_after_write;
          apply v2_samples_typed]).
  cbn [acct_num V2.client2 Z.eqb Pos.eqb negb].
  erewrite bind_run
    by (apply v2_read_hit with (c := V2.client1);
        [reflexivity | unfold MAX_ACCOUNTS; lia
        | unfold contents; cbn [w_disk];
          apply slot_write_keep; [reflexivity | lia | lia | lia |];
          apply occupiedb_after_write; apply v2_samples_typed]).
  cbn [acct_num V2.client1 Z.eqb Pos.eqb negb].
  unfold V2.close_data_file, fclose. run_world. auto.
Qed.

Lemma v2_tests_missing (E : Env) (w : World) :
  w_disk w = None ->
  (result (V2.test_file_reading E) w = 0
   /\ w_disk (after (V2.test_file_reading E) w) = None)
  /\ (result (V2.test_file_positioning E) w = 0
      /\ w_disk (after (V2.test_file_positioning E) w) = None)
  /\ (result (V2.display_file_contents E) w = None
      /\ w_disk (after (V2.display_file_contents E) w) = None
      /\ w_shown (after (V2.display_file_contents E) w) = w_shown w).
Proof.
  intros Hd.
  unfold result, after, V2.test_file_reading, V2.test_file_positioning,
    V2.display_file_contents, V2.open_data_file.
  rewrite !(bind_run _ _ _ _ _ (fopen_missing RBplus w eq_refl Hd)).
  rewrite !(bind_run _ _ _ _ _ (fopen_missing RB w eq_refl Hd)).
  cbn. auto.
Qed.

(* ================================================================= *)
(** ** The accounts of a store *)

Lemma record_at_length (d : list byte) (j : nat) : (length (record_at d j) <= 1)%nat.
Proof.
  unfold record_at. destruct (slot d (Z.of_nat j)) as [c|]; [|cbn; lia].
  destruct (acct_num c =? 0); cbn; lia.
Qed.

Lemma records_from_length (d : list byte) (from n : nat) :
  (length (records_from d from n) <= n)%nat.
Proof.
  revert from. induction n as [|n IH]; intros from; [cbn; lia|].
  rewrite records_from_step, length_app.
  pose proof (record_at_length d from). specialize (IH (S from)). lia.
Qed.

Lemma in_record_at (d : list byte) (j : nat) (c : client_data) :
  In c (record_at d j) <-> slot d (Z.of_nat j) = Some c /\ acct_num c <> 0.
Proof.
  unfold record_at. destruct (slot d (Z.of_nat j)) as [r|].
  - destruct (acct_num r =? 0) eqn:Hz.
    + apply Z.eqb_eq in Hz. split; [intros []|]. intros [[= ->] Hne]. contradiction.
    + apply Z.eqb_neq in Hz. split.
      * intros [-> | []]. auto.
      * intros [[= ->] _]. now left.
  - split; [intros [] | intros [H _]; discriminate].
Qed.

Lemma in_records_from (d : list byte) (from n : nat) (c : client_data) :
  In c (records_from d from n)
  <-> exists j, (from <= j < from + n)%nat
                /\ slot d (Z.of_nat j) = Some c /\ acct_num c <> 0.
Proof.
  unfold records_from. rewrite in_flat_map. split.
  - intros (j & Hj & Hc). apply in_seq in Hj. apply in_record_at in Hc.
    exists j. auto.
  - intros (j & Hj & Hc). exists j. split; [now apply in_seq | now apply in_record_at].
Qed.

Lemma in_accounts (d : list byte) (c : client_data) :
  In c (accounts d)
  <-> exists i, 0 <= i < MAX_ACCOUNTS /\ slot d i = Some c /\ acct_num c <> 0.
Proof.
  unfold accounts. rewrite in_records_from. split.
  - intros (j & Hj & Hc). exists (Z.of_nat j). split; [unfold MAX_ACCOUNTS in *; lia | exact Hc].
  - intros (i & Hi & Hc). exists (Z.to_nat i).
    split; [unfold MAX_ACCOUNTS in *; lia|]. now rewrite Z2Nat.id by lia.
Qed.

Lemma slot_none_beyond (d : list byte) (i : Z) :
  0 <= i -> (length d < (Z.to_nat i + 1) * RECORD_SIZE)%nat -> slot d i = None.
Proof.
  intros Hi Hlen. destruct (slot d i) as [c|] eqn:Hs; [|reflexivity].
  apply slot_length in Hs; [lia | exact Hi].
Qed.

Lemma v3_tests_missing (E : Env) (w : World) :
  w_disk w = None ->
  (result (V3.test_crud_operations E) w = 0
   /\ w_disk (after (V3.test_crud_operations E) w) = None)
  /\ (result (V3.test_account_management E) w = 0
      /\ w_disk (after (V3.test_account_management E) w) = None)
  /\ (w_disk (after (V3.display_all_accounts E) w) = None
      /\ w_shown (after (V3.display_all_accounts E) w) = w_shown w).
Proof.
  intros Hd.
  unfold result, after, V3.test_crud_operations, V3.test_account_management,
    V3.display_all_accounts, V3.open_data_file.
  rewrite !(bind_run _ _ _ _ _ (fopen_missing RBplus w eq_refl Hd)).
  rewrite !(bind_run _ _ _ _ _ (fopen_missing RB w eq_refl Hd)).
  cbn. auto.
Qed.

(* ================================================================= *)
(** ** What one write leaves in the slots *)

Lemma write_slot_decoded (d : list byte) (c : client_data) (p : Z) :
  length (last_name c) = LAST_NAME_SIZE ->
  length (first_name c) = FIRST_NAME_SIZE ->
  0 <= p ->
  ((Z.to_nat p + 1) * RECORD_SIZE <= length d)%nat ->
  slot_set d (file_write_at d (slot_offset p) (encode c)) p (decode (encode c)).
Proof.
  intros Hl Hf Hp Hfit.
  pose proof (encode_length c Hl Hf) as Henc.
  split; [|split].
  - apply file_write_length. rewrite Henc.
    unfold slot_offset, RECORD_SIZE in *. lia.
  - unfold slot_offset. now apply slot_write_same.
  - intros i Hi Hne. unfold slot_offset. now apply slot_write_other.
Qed.

Lemma write_slot_set (d : list byte) (c : client_data) (p : Z) :
  well_typed c -> 0 <= p ->
  ((Z.to_nat p + 1) * RECORD_SIZE <= length d)%nat ->
  slot_set d (file_write_at d (slot_offset p) (encode c)) p c.
Proof.
  intros Hc Hp Hfit. pose proof Hc as (_ & Hl & Hf & _).
  rewrite <- (decode_encode c Hc) at 2. now apply write_slot_decoded.
Qed.

Lemma store_inv_fits (d : list byte) (p : Z) :
  length d = (Z.to_nat MAX_ACCOUNTS * RECORD_SIZE)%nat -> 0 <= p < MAX_ACCOUNTS ->
  ((Z.to_nat p + 1) * RECORD_SIZE <= length d)%nat.
Proof.
  intros Hlen Hp. rewrite Hlen. unfold MAX_ACCOUNTS, RECORD_SIZE in *. lia.
Qed.

Lemma update_store_inv (d : list byte) (c c' : client_data) (p : Z) :
  store_inv d -> 0 <= p < MAX_ACCOUNTS ->
  slot d p = Some c -> acct_num c <> 0 -> acct_num c' = acct_num c ->
  length (last_name c') = LAST_NAME_SIZE ->
  length (first_name c') = FIRST_NAME_SIZE ->
  store_inv (file_write_at d (slot_offset p) (encode c')).
Proof.
  intros Hinv Hp Hs Hne Hid Hl Hf.
  apply store_inv_write; try assumption.
  right. rewrite Hid.
  pose proof (slot_typed _ _ _ Hs) as (Ha & _).
  rewrite Z.mod_small by exact Ha.
  destruct Hinv as [_ Hids]. now apply Hids.
Qed.

(* ================================================================= *)
(** ** The writes of a log *)

Lemma writes_app (l1 l2 : list io_event) : writes (l1 ++ l2) = writes l1 ++ writes l2.
Proof. unfold writes. apply flat_map_app. Qed.

Lemma writes_empty_writes (n : nat) : writes (empty_writes 0 n) = empty_records n.
Proof.
  unfold writes, empty_writes, empty_records.
  induction (seq 0 n) as [|i l IH]; [reflexivity|].
  cbn [map flat_map app]. rewrite IH. f_equal.
Qed.

Lemma writes_init_log (n : nat) : writes (init_log n) = empty_records n.
Proof.
  unfold init_log. change (EvOpen WB true :: empty_writes 0 n ++ [EvClose])
    with ([EvOpen WB true] ++ empty_writes 0 n ++ [EvClose]).
  rewrite !writes_app, writes_empty_writes. cbn. apply app_nil_r.
Qed.

(* ================================================================= *)
(** ** Stored names *)








(* ================================================================= *)
(** ** The record Create stores *)

Lemma create_form_names (E : Env) (s : list byte) (n bal : Z) (last first : list byte) :
  length (uninit_last E) = LAST_NAME_SIZE ->
  length (uninit_first E) = FIRST_NAME_SIZE ->
  create_form E s = (n, last, first, bal) ->
  (length last = LAST_NAME_SIZE /\ terminated last)
  /\ (length first = FIRST_NAME_SIZE /\ terminated first).
Proof.
  intros Hl Hf. unfold create_form.
  destruct (on_stdin (V3.get_account_number E) s) as [n' s1].
  destruct (on_stdin (V3.get_name_input _ LAST_NAME_SIZE) s1) as [l' s2] eqn:H2.
  destruct (on_stdin (V3.get_name_input _ FIRST_NAME_SIZE) s2) as [f' s3] eqn:H3.
  destruct (on_stdin (V3.get_balance_input E) s3) as [b' s4].
  intros [= <- <- <- <-].
  apply get_name_input_string in H2; [|exact Hl | unfold LAST_NAME_SIZE; lia].
  apply get_name_input_string in H3; [|exact Hf | unfold FIRST_NAME_SIZE; lia].
  destruct H2 as (H2l & H2t & _). destruct H3 as (H3l & H3t & _). auto.
Qed.

Lemma cstr_fits (a : list byte) (n : nat) :
  terminated a -> length a = S n -> firstn n (cstr a) = cstr a.
Proof.
  intros Ht Hlen. apply firstn_all2.
  pose proof (strlen_terminated a Ht) as H. unfold strlen in H. lia.
Qed.

Lemma new_record_fields (E : Env) (n bal : Z) (last first : list byte) :
  env_ok E ->
  length last = LAST_NAME_SIZE -> terminated last ->
  length first = FIRST_NAME_SIZE -> terminated first ->
  let r := new_record E n last first bal in
  acct_num r = n /\ balance r = bal
  /\ cstr (last_name r) = cstr last /\ cstr (first_name r) = cstr first.
Proof.
  intros HE Hll Hlt Hfl Hft r. subst r.
  destruct (uninit_client_typed E HE) as (_ & Hl & Hf & _).
  unfold new_record, initialize_client. cbn [acct_num balance last_name first_name].
  destruct (copy_name_spec (last_name (uninit_client E)) LAST_NAME_SIZE (Some last) Hl)
    as (_ & _ & Hcl); [unfold LAST_NAME_SIZE; lia|].
  destruct (copy_name_spec (first_name (uninit_client E)) FIRST_NAME_SIZE (Some first) Hf)
    as (_ & _ & Hcf); [unfold FIRST_NAME_SIZE; lia|].
  rewrite Hcl, Hcf. split; [reflexivity|]. split; [reflexivity|]. split.
  - apply cstr_fits; assumption.
  - apply cstr_fits; assumption.
Qed.

(* ================================================================= *)
(** * The claims *)

(** C1, as stated, fails on the slot store: [write_client_to_file] stores
    the record it is given at the position it is given, whatever the id.
    The first test of version 2 writes id 99 to slot 10, and the file then
    holds a non-zero id that is not 10 + 1 at that slot. *)
Lemma write_places_foreign_record :
  let w0 := input String.EmptyString None in
  result V2.test_file_writing w0 = 1
  /\ exists c, slot (contents (after V2.test_file_writing w0)) 10 = Some c
               /\ acct_num c = 99 /\ acct_num c <> 0 /\ acct_num c <> 10 + 1.
Proof.
  split; [reflexivity|]. eexists. split; [vm_compute; reflexivity|].
  cbn. repeat split; lia.
Qed.

(** C1 (amended): on an initialised store of 100 slots in which every
    non-zero id stored at slot i is i + 1, this still holds after a Create,
    an Update and a Delete of version 3, whatever is typed.  Each of them
    leaves the file as it was or changes one slot and no other: Create puts
    a record of id n at slot n - 1, which was not occupied; Update puts at
    an occupied slot a record with the id of the record that was there;
    Delete puts the empty record at an occupied slot.  The file keeps its
    length. *)
Theorem crud_keeps_store_inv (E : Env) (w : World) (d : list byte) :
  env_ok E -> w_disk w = Some d -> store_inv d ->
  (exists d', w_disk (after (V3.create_account E) w) = Some d'
              /\ store_inv d' /\ created d d')
  /\ (exists d', w_disk (after (V3.update_account E) w) = Some d'
                 /\ store_inv d' /\ updated d d')
  /\ (exists d', w_disk (after (V3.delete_account E) w) = Some d'
                 /\ store_inv d' /\ deleted d d').
Proof.
  intros HE Hd Hinv. pose proof Hinv as [Hlen _]. split; [|split].
  - destruct (create_form E (w_stdin w)) as [[[n last] first] bal] eqn:Hform.
    destruct (create_form_facts _ _ _ _ _ _ HE Hform) as [[-> | Hn] Hb].
    + destruct (create_form_acct _ _ _ _ _ _ Hform) as [s1 H1].
      unfold after. rewrite (create_account_bad_id _ _ _ H1).
      exists d. split; [exact Hd|]. split; [exact Hinv | now left].
    + pose proof (create_account_present E w d n bal last first Hd Hform Hn) as H.
      cbv zeta in H.
      pose proof (new_record_typed E n bal last first HE Hn Hb) as Hty.
      assert (Hp : 0 <= n - 1 < MAX_ACCOUNTS) by (unfold MAX_ACCOUNTS; lia).
      destruct (occupiedb d (n - 1)) eqn:Hocc; [|destruct (names_valid last first)].
      * destruct H as (_ & H & _). exists d. split; [exact H|].
        split; [exact Hinv | now left].
      * destruct H as (_ & H & _). eexists. split; [exact H|].
        pose proof Hty as (Ha & Hl & Hf & _). split.
        -- apply store_inv_write; try assumption.
           right. rewrite Z.mod_small by exact Ha. cbn. lia.
        -- right. exists n, (new_record E n last first bal).
           split; [exact Hn|]. split; [now apply occupiedb_false|].
           split; [reflexivity|].
           apply write_slot_set; [exact Hty | lia | now apply store_inv_fits].
      * destruct H as (_ & H & _). exists d. split; [exact H|].
        split; [exact Hinv | now left].
  - destruct (update_account_disk E w d Hd)
      as (d' & Hd' & [-> | (p & c & c' & Hp & Hs & Hne & Hid & Hl & Hf & ->)]).
    + exists d. split; [exact Hd'|]. split; [exact Hinv | now left].
    + eexists. split; [exact Hd'|]. split.
      * eapply update_store_inv; eassumption.
      * right. exists p, c, (decode (encode c')).
        split; [exact Hp|]. split; [exact Hs|]. split; [exact Hne|]. split.
        -- rewrite decode_encode_fields by assumption. cbn [acct_num].
           rewrite Hid. apply Z.mod_small. apply (slot_typed _ _ _ Hs).
        -- apply write_slot_decoded; [exact Hl | exact Hf | lia |].
           now apply store_inv_fits.
  - destruct (delete_form E (w_stdin w)) as [n conf] eqn:Hform.
    destruct (delete_form_acct _ _ _ _ Hform) as [s1 H1].
    destruct (get_account_number_valid _ _ _ _ H1) as [-> | Hn].
    + unfold after. rewrite (delete_account_bad_id _ _ _ H1).
      exists d. split; [exact Hd|]. split; [exact Hinv | now left].
    + pose proof (delete_account_present E w d n conf Hd Hform Hn) as H.
      cbv zeta in H.
      assert (Hp : 0 <= n - 1 < MAX_ACCOUNTS) by (unfold MAX_ACCOUNTS; lia).
      destruct (occupiedb d (n - 1) && confirmed conf) eqn:Hgo.
      * destruct H as (_ & H). eexists. split; [exact H|]. split.
        -- apply store_inv_write; try assumption; try reflexivity. now left.
        -- right. exists n. split; [exact Hn|].
           apply andb_true_iff in Hgo as [Hocc _]. split; [now apply occupiedb_true|].
           apply write_slot_set; [apply empty_client_typed | lia |].
           now apply store_inv_fits.
      * destruct H as (_ & H). exists d. split; [exact H|].
        split; [exact Hinv | now left].
Qed.

Lemma crud_keeps_store_inv_witness :
  exists d', w_disk (after (V3.create_account sample_env)
                       (typed ["5"; "Smith"; "John"; "100"]%string fresh_store))
             = Some d'
             /\ store_inv d' /\ created fresh_store d'.
Proof.
  apply (crud_keeps_store_inv sample_env
           (typed ["5"; "Smith"; "John"; "100"]%string fresh_store) fresh_store).
  - exact sample_env_ok.
  - reflexivity.
  - apply store_invb_sound. vm_compute. reflexivity.
Defined.

(** C2: a record of the C type survives the codec, [decode (encode c) = c];
    the block of zeros decodes to the empty record; and a record written to
    a slot 0..99 through a stream open for reading and writing is the
    record a read of that slot hands back, in version 2 as in version 3:
    account number, names and balance are those written. *)
Theorem record_round_trip (c buf : client_data) (f : FILE) (p : Z) (w : World) :
  well_typed c ->
  can_read (f_mode f) = true -> can_write (f_mode f) = true ->
  0 <= p < MAX_ACCOUNTS ->
  decode (encode c) = c
  /\ decode (repeat x00 RECORD_SIZE) = empty_client
  /\ result (V2.write_client_to_file (Some f) c p) w = 1
  /\ result (V2.read_client_from_file (Some f) buf p)
            (after (V2.write_client_to_file (Some f) c p) w) = (1, c)
  /\ result (V3.write_client_to_file (Some f) c p) w = 1
  /\ result (V3.read_client_from_file (Some f) buf p)
            (after (V3.write_client_to_file (Some f) c p) w) = (1, c).
Proof.
  intros Hc Hr Hw Hp. split; [now apply decode_encode|]. split; [reflexivity|].
  unfold result, after.
  rewrite v2_write_run, v3_write_run by assumption. cbn [fst snd].
  repeat split.
  - erewrite v2_read_hit; [reflexivity | assumption | assumption |].
    unfold contents. cbn [w_disk]. now apply occupiedb_after_write.
  - erewrite v3_read_hit; [reflexivity | assumption | assumption |].
    unfold contents. cbn [w_disk]. now apply occupiedb_after_write.
Qed.

Lemma record_round_trip_witness :
  decode (encode V2.write_client) = V2.write_client
  /\ result (V2.read_client_from_file (Some (mk_FILE RBplus)) empty_client 20)
       (after (V2.write_client_to_file (Some (mk_FILE RBplus)) V2.write_client 20)
              (input String.EmptyString (Some fresh_store)))
     = (1, V2.write_client).
Proof.
  pose proof (record_round_trip V2.write_client empty_client (mk_FILE RBplus) 20
                (input String.EmptyString (Some fresh_store))) as H.
  assert (Hty : well_typed V2.write_client).
  { repeat split; vm_compute; (reflexivity || discriminate). }
  specialize (H Hty eq_refl eq_refl).
  assert (Hp : 0 <= 20 < MAX_ACCOUNTS) by (unfold MAX_ACCOUNTS; lia).
  specialize (H Hp). split; [apply H | apply H].
Defined.

(** C3: [validate_name] returns 0 exactly for the empty string and for a
    string with a character that is not a letter, a space, a hyphen or an
    apostrophe, and 1 exactly for a non-empty string made of those
    characters only. *)
Theorem validate_name_spec (a : list byte) :
  (V3.validate_name (Some a) = 0
   <-> cstr a = [] \/ exists c, In c (cstr a) /\ ~ name_char c)
  /\ (V3.validate_name (Some a) = 1
      <-> cstr a <> [] /\ Forall name_char (cstr a)).
Proof.
  unfold V3.validate_name, strlen.
  destruct (cstr a) as [|c s] eqn:Hs.
  - cbn. split; split; try tauto; try discriminate; auto.
  - cbn [length Nat.eqb].
    destruct (V3.name_chars_ok (c :: s)) eqn:Hok.
    + pose proof (proj1 (name_chars_ok_iff _) Hok) as Hall. split; split.
      * discriminate.
      * intros [H | (x & Hin & Hx)]; [discriminate|].
        rewrite Forall_forall in Hall. exfalso. apply Hx, Hall, Hin.
      * intros _. split; [discriminate | exact Hall].
      * reflexivity.
    + pose proof (proj1 (name_chars_bad_iff _) Hok) as Hbad. split; split.
      * intros _. now right.
      * reflexivity.
      * discriminate.
      * intros [_ Hall]. apply name_chars_ok_iff in Hall. congruence.
Qed.

(** C4: [validate_account_number] returns 1 exactly for 1..100.  With the
    id [v] typed: outside 1..100 (so for 0 and 101) Create returns 0 at the
    range check and neither the file nor the log of stdio calls changes;
    inside (so for 1 and 100), on a file whose slot [v - 1] is not
    occupied and with names that pass [validate_name], Create returns 1 and
    slot [v - 1] then holds the record made of the answers. *)
Theorem account_number_bounds (E : Env) (w : World) (v bal : Z)
    (rest last first : list byte) :
  env_ok E ->
  scan_uint E (w_stdin w) = (Some v, rest) ->
  (V3.validate_account_number v = 1 <-> 1 <= v <= 100)
  /\ (~ (1 <= v <= 100) ->
      V3.validate_account_number v = 0
      /\ result (V3.create_account E) w = 0
      /\ w_disk (after (V3.create_account E) w) = w_disk w
      /\ w_log (after (V3.create_account E) w) = w_log w)
  /\ (1 <= v <= 100 ->
      forall d,
        w_disk w = Some d -> ~ occupied d (v - 1) ->
        create_form E (w_stdin w) = (v, last, first, bal) ->
        names_valid last first = true ->
        result (V3.create_account E) w = 1
        /\ exists d', w_disk (after (V3.create_account E) w) = Some d'
                      /\ slot d' (v - 1) = Some (new_record E v last first bal)).
Proof.
  intros HE Hscan. split; [apply validate_account_number_iff|]. split.
  - intros Hv.
    assert (Hz : V3.validate_account_number v = 0).
    { destruct (validate_account_number_bool v) as [H | H]; [exact H|].
      apply validate_account_number_iff in H. contradiction. }
    pose proof (get_account_number_scan E _ _ _ Hscan) as H1.
    rewrite Hz in H1. cbn [Z.eqb] in H1.
    unfold result, after. rewrite (create_account_bad_id _ _ _ H1).
    cbn. auto.
  - intros Hv d Hd Hfree Hform Hnames.
    pose proof (create_account_present E w d v bal last first Hd Hform Hv) as H.
    cbv zeta in H.
    destruct (occupiedb d (v - 1)) eqn:Hocc.
    { apply occupiedb_true in Hocc. contradiction. }
    rewrite Hnames in H. destruct H as (Hr & Hdisk & _).
    split; [exact Hr|]. eexists. split; [exact Hdisk|].
    apply occupiedb_after_write, new_record_typed; try assumption.
    eapply create_form_facts; eassumption.
Qed.

Lemma account_number_bounds_witness :
  (result (V3.create_account sample_env)
          (typed ["1"; "Smith"; "John"; "100"]%string fresh_store) = 1
   /\ result (V3.create_account sample_env)
             (typed ["100"; "Smith"; "John"; "100"]%string fresh_store) = 1)
  /\ (result (V3.create_account sample_env)
             (typed ["0"; "Smith"; "John"; "100"]%string fresh_store) = 0
      /\ result (V3.create_account sample_env)
                (typed ["101"; "Smith"; "John"; "100"]%string fresh_store) = 0).
Proof.
  assert (Hfree : forall v, 1 <= v <= 100 -> ~ occupied fresh_store (v - 1)).
  { intros v Hv (c & Hs & Hne).
    rewrite slot_fresh_store in Hs by (unfold MAX_ACCOUNTS; lia).
    injection Hs as <-. now apply Hne. }
  split; split.
  - eapply (proj1 (proj2 (proj2 (account_number_bounds sample_env
              (typed ["1"; "Smith"; "John"; "100"]%string fresh_store)
              1 _ _ _ _ sample_env_ok eq_refl))
            ltac:(lia) fresh_store eq_refl (Hfree 1 ltac:(lia)) eq_refl eq_refl)).
  - eapply (proj1 (proj2 (proj2 (account_number_bounds sample_env
              (typed ["100"; "Smith"; "John"; "100"]%string fresh_store)
              100 _ _ _ _ sample_env_ok eq_refl))
            ltac:(lia) fresh_store eq_refl (Hfree 100 ltac:(lia)) eq_refl eq_refl)).
  - eapply (proj1 (proj2 (proj1 (proj2 (account_number_bounds sample_env
              (typed ["0"; "Smith"; "John"; "100"]%string fresh_store)
              0 0 _ [] [] sample_env_ok eq_refl))
            ltac:(lia)))).
  - eapply (proj1 (proj2 (proj1 (proj2 (account_number_bounds sample_env
              (typed ["101"; "Smith"; "John"; "100"]%string fresh_store)
              101 0 _ [] [] sample_env_ok eq_refl))
            ltac:(lia)))).
Defined.

(** C5, as stated, fails on version 3: its simplified
    [read_client_from_file] does not clear the caller's record after a
    short read.  On an empty data file a read of slot 0 into a record that
    held account 99 returns 0 and leaves that record as it was. *)
Lemma v3_short_read_keeps_record :
  let w0 := input String.EmptyString (Some []) in
  slot (contents w0) 0 = None
  /\ result (V3.read_client_from_file (Some (mk_FILE RB)) V2.test_client 0) w0
     = (0, V2.test_client)
  /\ acct_num V2.test_client = 99
  /\ V2.test_client <> empty_client.
Proof.
  repeat split; try reflexivity. discriminate.
Qed.

(** C5 (amended): for a position outside 0..99 the read of both versions
    returns 0 and changes neither the world (no seek, no read) nor the
    caller's record.  For a position in 0..99 whose block the file does not
    hold in full, both return 0 and leave the file alone; version 2 hands
    back the empty record, version 3 promises nothing about the record. *)
Theorem read_rejects_and_short (f : FILE) (buf : client_data) (p : Z) (w : World) :
  (p < 0 \/ MAX_ACCOUNTS <= p ->
   V2.read_client_from_file (Some f) buf p w = (0, buf, w)
   /\ V3.read_client_from_file (Some f) buf p w = (0, buf, w))
  /\ (0 <= p < MAX_ACCOUNTS -> can_read (f_mode f) = true ->
      slot (contents w) p = None ->
      result (V2.read_client_from_file (Some f) buf p) w = (0, empty_client)
      /\ fst (result (V3.read_client_from_file (Some f) buf p) w) = 0
      /\ w_disk (after (V2.read_client_from_file (Some f) buf p) w) = w_disk w
      /\ w_disk (after (V3.read_client_from_file (Some f) buf p) w) = w_disk w).
Proof.
  split.
  - intros Hp. split; [now apply v2_read_out_of_range | now apply v3_read_out_of_range].
  - intros Hp Hm Hs. unfold result, after.
    rewrite (v2_read_miss f buf p w Hm Hp Hs), (v3_read_miss f buf p w Hm Hp Hs).
    cbn. auto.
Qed.

Lemma read_rejects_and_short_witness :
  V3.read_client_from_file (Some (mk_FILE RB)) V2.test_client 100
    (input String.EmptyString (Some fresh_store))
  = (0, V2.test_client, input String.EmptyString (Some fresh_store))
  /\ result (V2.read_client_from_file (Some (mk_FILE RB)) V2.test_client 0)
            (input String.EmptyString (Some []))
     = (0, empty_client).
Proof.
  split.
  - apply (proj1 (read_rejects_and_short (mk_FILE RB) V2.test_client 100
                    (input String.EmptyString (Some fresh_store)))).
    right. unfold MAX_ACCOUNTS. lia.
  - apply (proj2 (read_rejects_and_short (mk_FILE RB) V2.test_client 0
                    (input String.EmptyString (Some [])))).
    + unfold MAX_ACCOUNTS. lia.
    + reflexivity.
    + reflexivity.
Defined.

(** C6: where there is no data file yet, [initialize_data_file] of version
    2 and [initialize_data_file_if_needed] of version 3 leave a file of
    exactly 100 records, [100 * RECORD_SIZE] bytes, every slot of which
    reads as the empty record; what they write is the empty record 100
    times, one record at a time at the offsets of the slots 0, 1, ..., 99
    in this order; and [account_exists k] is 0 for every k in 1..100. *)
Theorem initialize_gives_empty_store (E : Env) (w : World) (k : Z) :
  w_disk w = None -> 1 <= k <= 100 ->
  let w2 := after V2.initialize_data_file w in
  let w3 := after V3.initialize_data_file_if_needed w in
  (exists d2 l2,
      w_disk w2 = Some d2 /\ w_log w2 = w_log w ++ l2
      /\ length d2 = (100 * RECORD_SIZE)%nat
      /\ slot d2 (k - 1) = Some empty_client
      /\ writes l2 = empty_records 100)
  /\ (exists d3 l3,
         w_disk w3 = Some d3 /\ w_log w3 = w_log w ++ l3
         /\ length d3 = (100 * RECORD_SIZE)%nat
         /\ slot d3 (k - 1) = Some empty_client
         /\ writes l3 = empty_records 100)
  /\ result (V3.account_exists E k) w2 = 0
  /\ result (V3.account_exists E k) w3 = 0.
Proof.
  intros Hd Hk w2 w3. subst w2 w3. unfold after.
  rewrite v2_initialize_run, (v3_initialize_run w Hd). cbn [snd w_disk w_log].
  assert (Hs : slot fresh_store (k - 1) = Some empty_client)
    by (apply slot_fresh_store; unfold MAX_ACCOUNTS; lia).
  assert (Hlen : length fresh_store = (100 * RECORD_SIZE)%nat)
    by apply fresh_store_inv.
  split; [|split; [|split]].
  - exists fresh_store, (init_log (Z.to_nat MAX_ACCOUNTS)).
    split; [reflexivity|]. split; [reflexivity|]. split; [exact Hlen|].
    split; [exact Hs | apply writes_init_log].
  - exists fresh_store, (EvOpen RB false :: init_log (Z.to_nat MAX_ACCOUNTS)).
    split; [reflexivity|]. split; [reflexivity|]. split; [exact Hlen|].
    split; [exact Hs|].
    change (EvOpen RB false :: init_log (Z.to_nat MAX_ACCOUNTS))
      with ([EvOpen RB false] ++ init_log (Z.to_nat MAX_ACCOUNTS)).
    rewrite writes_app. apply writes_init_log.
  - unfold result. erewrite account_exists_run; [|reflexivity | exact Hk].
    unfold occupiedb. rewrite Hs. reflexivity.
  - unfold result. erewrite account_exists_run; [|reflexivity | exact Hk].
    unfold occupiedb. rewrite Hs. reflexivity.
Qed.

Lemma initialize_gives_empty_store_witness :
  (exists d3 l3,
      w_disk (after V3.initialize_data_file_if_needed (input String.EmptyString None))
      = Some d3
      /\ w_log (after V3.initialize_data_file_if_needed (input String.EmptyString None))
         = w_log (input String.EmptyString None) ++ l3
      /\ length d3 = (100 * RECORD_SIZE)%nat
      /\ slot d3 (100 - 1) = Some empty_client
      /\ writes l3 = empty_records 100)
  /\ result (V3.account_exists sample_env 100)
            (after V3.initialize_data_file_if_needed (input String.EmptyString None))
     = 0.
Proof.
  pose proof (initialize_gives_empty_store sample_env
                (input String.EmptyString None) 100 eq_refl ltac:(lia)) as H.
  cbv zeta in H. destruct H as (_ & H3 & _ & He). split; [exact H3 | exact He].
Defined.

(** C7: a Create for an id whose slot is occupied returns 0, leaves the
    file byte for byte as it was, adds only the reads of the existence
    check to the log of stdio calls (no write) and displays nothing; the
    record at the slot is the one that was there. *)
Theorem duplicate_create_rejected (E : Env) (w : World) (d : list byte)
    (n bal : Z) (last first : list byte) :
  w_disk w = Some d ->
  create_form E (w_stdin w) = (n, last, first, bal) ->
  1 <= n <= 100 ->
  occupied d (n - 1) ->
  result (V3.create_account E) w = 0
  /\ w_disk (after (V3.create_account E) w) = Some d
  /\ slot (contents (after (V3.create_account E) w)) (n - 1) = slot d (n - 1)
  /\ (exists l, w_log (after (V3.create_account E) w) = w_log w ++ l
                /\ reads_only l = true)
  /\ w_shown (after (V3.create_account E) w) = w_shown w.
Proof.
  intros Hd Hform Hn Hocc.
  pose proof (create_account_present E w d n bal last first Hd Hform Hn) as H.
  cbv zeta in H. apply occupiedb_true in Hocc. rewrite Hocc in H.
  destruct H as (Hr & Hdisk & Hlog & Hshown).
  repeat split; try assumption.
  - unfold contents. now rewrite Hdisk.
  - exists (probe_log d (n - 1)). split; [exact Hlog | reflexivity].
Qed.

Lemma duplicate_create_rejected_witness :
  let w1 := after (V3.create_account sample_env)
                  (typed ["5"; "Smith"; "John"; "100"]%string fresh_store) in
  let w2 := typed ["5"; "Jones"; "Mary"; "7"]%string (contents w1) in
  result (V3.create_account sample_env) w2 = 0
  /\ w_disk (after (V3.create_account sample_env) w2) = w_disk w1.
Proof.
  intros w1 w2.
  pose proof (duplicate_create_rejected sample_env w2 (contents w1) 5 7
                (V3.trim_buffer (char_array LAST_NAME_SIZE "Jones"%string))
                (V3.trim_buffer (char_array FIRST_NAME_SIZE "Mary"%string))
                eq_refl) as H.
  assert (Hform : create_form sample_env (w_stdin w2)
                  = (5, V3.trim_buffer (char_array LAST_NAME_SIZE "Jones"%string),
                     V3.trim_buffer (char_array FIRST_NAME_SIZE "Mary"%string), 7))
    by (vm_compute; reflexivity).
  assert (Hocc : occupied (contents w1) (5 - 1))
    by (apply occupiedb_true; vm_compute; reflexivity).
  specialize (H Hform ltac:(lia) Hocc).
  split; [apply H|]. destruct H as (_ & H & _). rewrite H.
  vm_compute. reflexivity.
Defined.

(** C8, as stated, fails for a name that does not pass validation:
    [create_account] asks [account_exists] first, and that opens the data
    file and reads the slot before any name is read.  With 5 typed for the
    id and 123 for the last name Create returns 0 after an open, a seek, a
    read and a close on the store. *)
Lemma create_reads_before_validating :
  let w0 := typed ["5"; "123"; "Mary"; "100"]%string fresh_store in
  (exists last first bal,
      create_form sample_env (w_stdin w0) = (5, last, first, bal)
      /\ V3.validate_name (Some last) = 0)
  /\ result (V3.create_account sample_env) w0 = 0
  /\ w_log w0 = []
  /\ w_log (after (V3.create_account sample_env) w0)
     = [EvOpen RB true; EvSeek 160; EvRead 160 40; EvClose].
Proof.
  split; [|repeat split; vm_compute; reflexivity].
  do 3 eexists. split; vm_compute; reflexivity.
Qed.

(** C8 (amended): a Create whose id does not pass the range check (0 is
    what [get_account_number] hands back for an id outside 1..100 or for
    no number at all) returns 0 with no stdio call on the store and the
    file unchanged.  A Create with an id in range and a last or first name
    that fails [validate_name] returns 0 and writes nothing: the file is
    unchanged and the calls made on the store are those of the existence
    check, none of them a write. *)
Theorem create_invalid_input (E : Env) (w : World) (n bal : Z)
    (last first : list byte) :
  create_form E (w_stdin w) = (n, last, first, bal) ->
  (forall v rest, scan_uint E (w_stdin w) = (Some v, rest) ->
                  ~ (1 <= v <= 100) -> n = 0)
  /\ (n = 0 ->
      result (V3.create_account E) w = 0
      /\ w_disk (after (V3.create_account E) w) = w_disk w
      /\ w_log (after (V3.create_account E) w) = w_log w)
  /\ (n <> 0 -> names_valid last first = false ->
      result (V3.create_account E) w = 0
      /\ w_disk (after (V3.create_account E) w) = w_disk w
      /\ exists l, w_log (after (V3.create_account E) w) = w_log w ++ l
                   /\ reads_only l = true).
Proof.
  intros Hform. destruct (create_form_acct _ _ _ _ _ _ Hform) as [s1 H1].
  split; [|split].
  - intros v rest Hscan Hv.
    rewrite (get_account_number_scan E _ _ _ Hscan) in H1.
    destruct (validate_account_number_bool v) as [Hz | Hz].
    + rewrite Hz in H1. cbn in H1. congruence.
    + apply validate_account_number_iff in Hz. contradiction.
  - intros ->. unfold result, after. rewrite (create_account_bad_id _ _ _ H1).
    cbn. auto.
  - intros Hne Hnames.
    destruct (get_account_number_valid _ _ _ _ H1) as [-> | Hn]; [contradiction|].
    destruct (w_disk w) as [d|] eqn:Hd.
    + pose proof (create_account_present E w d n bal last first Hd Hform Hn) as H.
      cbv zeta in H. rewrite Hnames in H.
      destruct (occupiedb d (n - 1));
        destruct H as (Hr & Hdisk & Hlog & _);
        (repeat split; [exact Hr | exact Hdisk |]);
        exists (probe_log d (n - 1)); (split; [exact Hlog | reflexivity]).
    + now apply create_account_missing.
Qed.

Lemma create_invalid_input_witness :
  let w0 := typed ["5"; "123"; "Mary"; "100"]%string fresh_store in
  result (V3.create_account sample_env) w0 = 0
  /\ w_disk (after (V3.create_account sample_env) w0) = Some fresh_store.
Proof.
  intros w0.
  pose proof (create_invalid_input sample_env w0 5 100
                (V3.trim_buffer (char_array LAST_NAME_SIZE "123"%string))
                (V3.trim_buffer (char_array FIRST_NAME_SIZE "Mary"%string))) as H.
  assert (Hform : create_form sample_env (w_stdin w0)
                  = (5, V3.trim_buffer (char_array LAST_NAME_SIZE "123"%string),
                     V3.trim_buffer (char_array FIRST_NAME_SIZE "Mary"%string), 100))
    by (vm_compute; reflexivity).
  specialize (H Hform). destruct H as (_ & _ & H).
  assert (Hne : 5 <> 0) by lia.
  specialize (H Hne eq_refl). split; apply H.
Defined.

(** C9: a confirmed Delete of a slot that holds a record [c] of non-zero
    id, whatever the balance of [c], returns 1 and leaves the empty record
    at the slot, so that [account_exists] is 0; a Create for the same id
    with valid names then returns 1, and Read returns 1 and displays the
    record [c'] that the slot holds now.  That record has the id, the two
    names as they were read for the Create and the balance read for it; it
    is not the record [c] that was deleted wherever one of the names or the
    balance differs from those of [c].  The two arrays that
    [create_account] reads the names into have their sizes 15 and 10. *)
Theorem delete_then_recreate (E : Env) (w1 w2 w3 : World) (d s3 : list byte)
    (c : client_data) (n bal : Z) (conf : option byte) (last first : list byte) :
  env_ok E ->
  length (uninit_last E) = LAST_NAME_SIZE ->
  length (uninit_first E) = FIRST_NAME_SIZE ->
  w_disk w1 = Some d ->
  delete_form E (w_stdin w1) = (n, conf) ->
  1 <= n <= 100 ->
  slot d (n - 1) = Some c -> acct_num c <> 0 ->
  confirmed conf = true ->
  w_disk w2 = w_disk (after (V3.delete_account E) w1) ->
  create_form E (w_stdin w2) = (n, last, first, bal) ->
  names_valid last first = true ->
  w_disk w3 = w_disk (after (V3.create_account E) w2) ->
  on_stdin (V3.get_account_number E) (w_stdin w3) = (n, s3) ->
  exists c',
    result (V3.delete_account E) w1 = 1
    /\ slot (contents w2) (n - 1) = Some empty_client
    /\ result (V3.account_exists E n) w2 = 0
    /\ result (V3.create_account E) w2 = 1
    /\ slot (contents w3) (n - 1) = Some c'
    /\ result (V3.read_account E) w3 = 1
    /\ w_shown (after (V3.read_account E) w3) = w_shown w3 ++ [c']
    /\ acct_num c' = n
    /\ cstr (last_name c') = cstr last
    /\ cstr (first_name c') = cstr first
    /\ balance c' = bal
    /\ (cstr last <> cstr (last_name c) \/ cstr first <> cstr (first_name c)
        \/ bal <> balance c -> c' <> c).
Proof.
  intros HE Hul Huf Hd1 Hdel Hn Hslot Hid Hconf Hd2 Hform Hnames Hd3 Hread.
  pose proof (delete_account_present E w1 d n conf Hd1 Hdel Hn) as H1.
  cbv zeta in H1.
  assert (Hocc : occupiedb d (n - 1) = true)
    by (apply occupiedb_true; exists c; split; assumption).
  rewrite Hocc, Hconf in H1.
  cbn [andb] in H1. destruct H1 as [Hr1 Hdisk1].
  rewrite Hdisk1 in Hd2.
  set (d2 := file_write_at d (slot_offset (n - 1)) (encode empty_client)) in *.
  assert (Hs2 : slot d2 (n - 1) = Some empty_client)
    by apply occupiedb_after_write, empty_client_typed.
  assert (Hfree : occupiedb d2 (n - 1) = false)
    by (unfold occupiedb; rewrite Hs2; reflexivity).
  pose proof (create_account_present E w2 d2 n bal last first Hd2 Hform Hn) as H2.
  cbv zeta in H2. rewrite Hfree, Hnames in H2.
  destruct H2 as (Hr2 & Hdisk2 & _). rewrite Hdisk2 in Hd3.
  assert (Hty : well_typed (new_record E n last first bal)).
  { apply new_record_typed; try assumption.
    eapply create_form_facts; eassumption. }
  pose proof (occupiedb_after_write d2 _ (n - 1) Hty) as Hs3.
  pose proof (read_account_present E w3 _ s3 n Hd3 Hread Hn) as H3.
  cbv zeta in H3. rewrite Hs3 in H3.
  replace (acct_num (new_record E n last first bal) =? 0) with false in H3
    by (symmetry; apply Z.eqb_neq; cbn; lia).
  destruct H3 as [[Hr3 Hshown3] _].
  destruct (create_form_names E _ n bal last first Hul Huf Hform)
    as [[Hll Hlt] [Hfl Hft]].
  pose proof (new_record_fields E n bal last first HE Hll Hlt Hfl Hft) as Hfields.
  cbv zeta in Hfields. destruct Hfields as (Hfa & Hfb & Hfn & Hff).
  exists (new_record E n last first bal).
  split; [exact Hr1|].
  split; [unfold contents; now rewrite Hd2|].
  split; [unfold result; erewrite account_exists_run;
            [now rewrite Hfree | exact Hd2 | exact Hn]|].
  split; [exact Hr2|].
  split; [unfold contents; now rewrite Hd3|].
  split; [exact Hr3|]. split; [exact Hshown3|].
  split; [exact Hfa|]. split; [exact Hfn|]. split; [exact Hff|].
  split; [exact Hfb|].
  intros Hdiff Heq. rewrite Heq in Hfn, Hff, Hfb.
  destruct Hdiff as [Hdiff | [Hdiff | Hdiff]]; apply Hdiff; congruence.
Qed.

Lemma delete_then_recreate_witness :
  let w0 := typed ["3"; "Old"; "Name"; "250"]%string fresh_store in
  let w1 := typed ["3"; "y"]%string (contents (after (V3.create_account sample_env) w0)) in
  let w2 := typed ["3"; "New"; "Owner"; "7"]%string
                  (contents (after (V3.delete_account sample_env) w1)) in
  let w3 := typed ["3"]%string (contents (after (V3.create_account sample_env) w2)) in
  exists c',
    result (V3.delete_account sample_env) w1 = 1
    /\ result (V3.account_exists sample_env 3) w2 = 0
    /\ result (V3.create_account sample_env) w2 = 1
    /\ result (V3.read_account sample_env) w3 = 1
    /\ w_shown (after (V3.read_account sample_env) w3) = [c']
    /\ acct_num c' = 3
    /\ cstr (last_name c') = String.list_byte_of_string "New"
    /\ cstr (first_name c') = String.list_byte_of_string "Owner"
    /\ c' <> new_record sample_env 3
               (V3.trim_buffer (char_array LAST_NAME_SIZE "Old"%string))
               (V3.trim_buffer (char_array FIRST_NAME_SIZE "Name"%string)) 250.
Proof.
  intros w0 w1 w2 w3.
  pose proof (delete_then_recreate sample_env w1 w2 w3
                (contents (after (V3.create_account sample_env) w0)) []
                (new_record sample_env 3
                   (V3.trim_buffer (char_array LAST_NAME_SIZE "Old"%string))
                   (V3.trim_buffer (char_array FIRST_NAME_SIZE "Name"%string)) 250)
                3 7 (Some "y"%byte)
                (V3.trim_buffer (char_array LAST_NAME_SIZE "New"%string))
                (V3.trim_buffer (char_array FIRST_NAME_SIZE "Owner"%string))
                sample_env_ok eq_refl eq_refl eq_refl) as H.
  assert (Hdel : delete_form sample_env (w_stdin w1) = (3, Some "y"%byte))
    by (vm_compute; reflexivity).
  assert (Hslot : slot (contents (after (V3.create_account sample_env) w0)) (3 - 1)
                  = Some (new_record sample_env 3
                            (V3.trim_buffer (char_array LAST_NAME_SIZE "Old"%string))
                            (V3.trim_buffer (char_array FIRST_NAME_SIZE "Name"%string))
                            250))
    by (vm_compute; reflexivity).
  assert (Hid : acct_num (new_record sample_env 3
                            (V3.trim_buffer (char_array LAST_NAME_SIZE "Old"%string))
                            (V3.trim_buffer (char_array FIRST_NAME_SIZE "Name"%string))
                            250) <> 0)
    by (cbn; lia).
  specialize (H Hdel ltac:(lia) Hslot Hid eq_refl).
  assert (Hd2 : w_disk w2 = w_disk (after (V3.delete_account sample_env) w1))
    by (vm_compute; reflexivity).
  assert (Hform : create_form sample_env (w_stdin w2)
                  = (3, V3.trim_buffer (char_array LAST_NAME_SIZE "New"%string),
                     V3.trim_buffer (char_array FIRST_NAME_SIZE "Owner"%string), 7))
    by (vm_compute; reflexivity).
  specialize (H Hd2 Hform eq_refl).
  assert (Hd3 : w_disk w3 = w_disk (after (V3.create_account sample_env) w2))
    by (vm_compute; reflexivity).
  specialize (H Hd3 eq_refl).
  destruct H as (c' & Hr1 & _ & He & Hr2 & _ & Hr3 & Hshown & Ha & Hl & Hf & _ & Hnew).
  exists c'.
  split; [exact Hr1|]. split; [exact He|]. split; [exact Hr2|].
  split; [exact Hr3|]. split; [exact Hshown|]. split; [exact Ha|].
  split; [rewrite Hl; vm_compute; reflexivity|].
  split; [rewrite Hf; vm_compute; reflexivity|].
  apply Hnew. left. vm_compute. discriminate.
Defined.





(* ================================================================= *)
(** * Further properties of the programs *)

(** X1: the name [get_name_input] leaves in a buffer of [n] chars is the
    line [fgets] took, without the newline at its end and without the
    white space on both sides (the empty string at end of input).  The
    buffer keeps its size and holds a NUL, the name has at most [n - 1]
    characters and neither begins nor ends with white space. *)
Theorem get_name_input_trims (buf : list byte) (n : nat) (s s' r : list byte) :
  length buf = n -> (1 <= n)%nat ->
  on_stdin (V3.get_name_input buf n) s = (r, s') ->
  length r = n /\ terminated r /\ (strlen r <= n - 1)%nat
  /\ cstr r = match s with
              | [] => []
              | _ => trimmed (cstr (fst (take_line (n - 1) s)))
              end
  /\ (forall c t, cstr r = c :: t -> isspace c = false)
  /\ (forall c t, cstr r = t ++ [c] -> isspace c = false).
Proof.
  intros Hlen Hn Hrun.
  destruct (get_name_input_string buf n s s' r Hlen Hn Hrun) as (Hl & Ht & _ & Hc).
  pose proof (strlen_terminated r Ht) as Hs.
  repeat split; try assumption; try lia.
  - intros c t Hr. rewrite Hc in Hr. destruct s; [discriminate|].
    eapply (proj1 (trimmed_edges _)). exact Hr.
  - intros c t Hr. rewrite Hc in Hr. destruct s; [now destruct t|].
    eapply (proj2 (trimmed_edges _)). exact Hr.
Qed.

Lemma get_name_input_trims_witness :
  cstr (fst (on_stdin (V3.get_name_input (repeat x00 LAST_NAME_SIZE) LAST_NAME_SIZE)
                      (lines ["  Mc Kay  "; "Ann"]%string)))
  = String.list_byte_of_string "Mc Kay".
Proof.
  destruct (on_stdin (V3.get_name_input (repeat x00 LAST_NAME_SIZE) LAST_NAME_SIZE)
                     (lines ["  Mc Kay  "; "Ann"]%string)) as [r s'] eqn:Hrun.
  destruct (get_name_input_trims (repeat x00 LAST_NAME_SIZE) LAST_NAME_SIZE _ s' r eq_refl
              ltac:(unfold LAST_NAME_SIZE; lia) Hrun) as (_ & _ & _ & Hc & _).
  cbn [fst]. rewrite Hc. vm_compute. reflexivity.
Defined.

(** X2: when the line taken holds white space only (a blank or an empty
    line, or nothing at end of input), the name left in the buffer is
    empty and [validate_name] rejects it, although a space is among the
    characters it allows. *)
Theorem blank_name_rejected (buf : list byte) (n : nat) (s s' r : list byte) :
  length buf = n -> (1 <= n)%nat ->
  on_stdin (V3.get_name_input buf n) s = (r, s') ->
  Forall (fun c => isspace c = true) (cstr (fst (take_line (n - 1) s))) ->
  cstr r = [] /\ V3.validate_name (Some r) = 0.
Proof.
  intros Hlen Hn Hrun Hblank.
  destruct (get_name_input_string buf n s s' r Hlen Hn Hrun) as (_ & _ & _ & Hc).
  assert (He : cstr r = []).
  { rewrite Hc. destruct s; [reflexivity|]. now apply trimmed_blank. }
  split; [exact He | now apply validate_name_empty].
Qed.

Lemma blank_name_rejected_witness :
  V3.validate_name
    (Some (fst (on_stdin (V3.get_name_input (repeat x00 FIRST_NAME_SIZE) FIRST_NAME_SIZE)
                         (lines ["   "; "Ann"]%string)))) = 0.
Proof.
  destruct (on_stdin (V3.get_name_input (repeat x00 FIRST_NAME_SIZE) FIRST_NAME_SIZE)
                     (lines ["   "; "Ann"]%string)) as [r s'] eqn:Hrun.
  apply (blank_name_rejected (repeat x00 FIRST_NAME_SIZE) FIRST_NAME_SIZE _ s' r eq_refl
           ltac:(unfold FIRST_NAME_SIZE; lia) Hrun).
  vm_compute. repeat constructor.
Defined.

(** X3: of a line of [l] characters before its newline, [get_name_input]
    with a buffer of [n] chars takes the whole line and its newline when
    [l] has fewer than [n - 1] characters; otherwise it takes the first
    [n - 1] characters only, and what follows them, newline included, stays
    on the input for the next read. *)
Theorem get_name_input_consumes (buf : list byte) (n : nat)
    (l rest s' r : list byte) :
  length buf = n -> (1 <= n)%nat ->
  Forall (fun c => is_newline c = false) l ->
  on_stdin (V3.get_name_input buf n) (l ++ x0a :: rest) = (r, s') ->
  ((length l < n - 1)%nat ->
   s' = rest /\ cstr r = trimmed (cstr (l ++ [x0a])))
  /\ ((n - 1 <= length l)%nat ->
      s' = skipn (n - 1) l ++ x0a :: rest
      /\ cstr r = trimmed (cstr (firstn (n - 1) l))).
Proof.
  intros Hlen Hn Hl Hrun.
  destruct (get_name_input_string buf n _ s' r Hlen Hn Hrun) as (_ & _ & Hs & Hc).
  assert (Hne : exists c t, l ++ x0a :: rest = c :: t)
    by (destruct l; cbn; eauto).
  destruct Hne as (c0 & t0 & Hne). rewrite Hne in Hc. rewrite <- Hne in Hc.
  split; intros Hcmp.
  - rewrite take_line_short in Hs, Hc by assumption. now split.
  - rewrite take_line_long in Hs, Hc by assumption. now split.
Qed.

Lemma get_name_input_consumes_witness :
  snd (on_stdin (V3.get_name_input (repeat x00 FIRST_NAME_SIZE) FIRST_NAME_SIZE)
                (lines ["Bartholomew"; "100"]%string))
  = lines ["ew"; "100"]%string.
Proof.
  destruct (on_stdin (V3.get_name_input (repeat x00 FIRST_NAME_SIZE) FIRST_NAME_SIZE)
                     (lines ["Bartholomew"; "100"]%string)) as [r s'] eqn:Hrun.
  cbn [snd].
  refine (proj1 (proj2 (get_name_input_consumes (repeat x00 FIRST_NAME_SIZE)
            FIRST_NAME_SIZE (String.list_byte_of_string "Bartholomew")
            (lines ["100"]%string) s' r eq_refl _ _ Hrun) _)).
  - unfold FIRST_NAME_SIZE. lia.
  - vm_compute. repeat constructor.
  - vm_compute. lia.
Defined.

(** X4: a last name typed with exactly 14 characters, the most the field
    holds, makes Create fail: [fgets] takes the 14 characters and leaves
    the newline, the first name is then read as the empty line, and
    Create returns 0 with the file unchanged, whatever is typed next. *)
Theorem create_full_width_last_name (E : Env) (w : World) (n : Z)
    (l rest : list byte) :
  length (uninit_last E) = LAST_NAME_SIZE ->
  length (uninit_first E) = FIRST_NAME_SIZE ->
  on_stdin (V3.get_account_number E) (w_stdin w) = (n, l ++ x0a :: rest) ->
  Forall (fun c => is_newline c = false) l ->
  length l = 14%nat ->
  result (V3.create_account E) w = 0
  /\ w_disk (after (V3.create_account E) w) = w_disk w.
Proof.
  intros HL HF H1 Hl Hlen.
  destruct (create_form E (w_stdin w)) as [[[n' last] first] bal] eqn:Hform.
  apply (create_account_rejects E w n' bal last first Hform). right.
  unfold create_form in Hform. rewrite H1 in Hform.
  destruct (on_stdin (V3.get_name_input _ LAST_NAME_SIZE) (l ++ x0a :: rest))
    as [last' s2] eqn:H2.
  destruct (on_stdin (V3.get_name_input _ FIRST_NAME_SIZE) s2) as [first' s3] eqn:H3.
  destruct (on_stdin (V3.get_balance_input E) s3) as [b' s4].
  injection Hform as <- <- <- <-.
  destruct (get_name_input_string _ _ _ _ _ HL ltac:(unfold LAST_NAME_SIZE; lia) H2)
    as (_ & _ & Hs2 & _).
  rewrite take_line_long in Hs2 by (assumption || (unfold LAST_NAME_SIZE; lia)).
  cbn [snd] in Hs2. rewrite skipn_all2 in Hs2 by (unfold LAST_NAME_SIZE; lia).
  cbn [app] in Hs2. subst s2.
  destruct (get_name_input_string _ _ _ _ _ HF ltac:(unfold FIRST_NAME_SIZE; lia) H3)
    as (_ & _ & _ & Hc).
  assert (He : cstr first' = []) by (rewrite Hc; reflexivity).
  unfold names_valid. rewrite (validate_name_empty first' He).
  apply andb_false_r.
Qed.

Lemma create_full_width_last_name_witness :
  result (V3.create_account sample_env)
         (typed ["5"; "Featherstoneha"; "John"; "100"]%string fresh_store) = 0.
Proof.
  apply (create_full_width_last_name sample_env
           (typed ["5"; "Featherstoneha"; "John"; "100"]%string fresh_store) 5
           (String.list_byte_of_string "Featherstoneha")
           (lines ["John"; "100"]%string) eq_refl eq_refl eq_refl).
  - vm_compute. repeat constructor.
  - reflexivity.
Defined.

(** X5: [get_account_number] hands back the number [scanf] read when it is
    in 1..100 and 0 when it is not or when no number was read, and
    [get_balance_input] the amount read, or 0.0 when none was; both drop
    the rest of the line.  So the result of [get_account_number] is 0 or
    in 1..100. *)
Theorem input_numbers_spec (E : Env) (s : list byte) :
  on_stdin (V3.get_account_number E) s
  = (match fst (scan_uint E s) with
     | Some v => if (1 <=? v) && (v <=? 100) then v else 0
     | None => 0
     end, skip_line (snd (scan_uint E s)))
  /\ on_stdin (V3.get_balance_input E) s
     = (match fst (scan_double E s) with
        | Some v => v
        | None => 0
        end, skip_line (snd (scan_double E s)))
  /\ (fst (on_stdin (V3.get_account_number E) s) = 0
      \/ 1 <= fst (on_stdin (V3.get_account_number E) s) <= 100).
Proof.
  split; [|split].
  - unfold on_stdin, V3.get_account_number, scanf_with, clear_input_buffer.
    run_world. destruct (scan_uint E s) as [[v|] rest]; cbn [w_stdin fst snd];
      [|reflexivity].
    unfold V3.validate_account_number, MIN_ACCOUNT_NUM, MAX_ACCOUNT_NUM.
    rewrite Z.geb_leb. destruct ((1 <=? v) && (v <=? 100)); reflexivity.
  - unfold on_stdin, V3.get_balance_input, scanf_with, clear_input_buffer.
    run_world. destruct (scan_double E s) as [[v|] rest]; reflexivity.
  - destruct (on_stdin (V3.get_account_number E) s) as [n s1] eqn:H.
    exact (get_account_number_valid E s s1 n H).
Qed.

(** X6: [account_exists acct] is 1 exactly when [acct] is in 1..100, the
    data file is there and the record at slot [acct - 1] has a non-zero id,
    whatever that id is; otherwise it is 0.  It never changes the file and
    makes no write call, and for an [acct] outside 1..100 it makes no call
    on the file at all. *)
Theorem account_exists_spec (E : Env) (acct : Z) (w : World) :
  (result (V3.account_exists E acct) w = 1
   <-> 1 <= acct <= 100
       /\ exists d, w_disk w = Some d /\ occupied d (acct - 1))
  /\ (result (V3.account_exists E acct) w = 0
      \/ result (V3.account_exists E acct) w = 1)
  /\ w_disk (after (V3.account_exists E acct) w) = w_disk w
  /\ w_stdin (after (V3.account_exists E acct) w) = w_stdin w
  /\ (exists l, w_log (after (V3.account_exists E acct) w) = w_log w ++ l
                /\ reads_only l = true)
  /\ (~ (1 <= acct <= 100) -> V3.account_exists E acct w = (0, w)).
Proof.
  unfold result, after.
  destruct (Z_le_dec 1 acct) as [H1 | H1]; [destruct (Z_le_dec acct 100) as [H2 | H2]|].
  - assert (Hn : 1 <= acct <= 100) by lia.
    destruct (w_disk w) as [d|] eqn:Hd.
    + rewrite (account_exists_run E acct w d Hd Hn). cbn [fst snd w_disk w_stdin w_log].
      split; [|split; [|split; [|split; [|split]]]].
      * split.
        -- intros Hr. split; [exact Hn|]. exists d. split; [reflexivity|].
           apply occupiedb_true.
           destruct (occupiedb d (acct - 1)); [reflexivity | discriminate].
        -- intros (_ & d' & [= <-] & Hocc). apply occupiedb_true in Hocc.
           now rewrite Hocc.
      * destruct (occupiedb d (acct - 1)); cbn; auto.
      * reflexivity.
      * reflexivity.
      * exists (probe_log d (acct - 1)). split; reflexivity.
      * intros Hc. contradiction.
    + rewrite (account_exists_missing E acct w Hd Hn). cbn [fst snd w_disk w_stdin w_log].
      split; [|split; [|split; [|split; [|split]]]].
      * split; [discriminate|]. intros (_ & d' & Hc & _). discriminate.
      * now left.
      * reflexivity.
      * reflexivity.
      * exists [EvOpen RB false]. split; reflexivity.
      * intros Hc. contradiction.
  - rewrite (account_exists_invalid E acct w) by lia. cbn [fst snd].
    split; [|split; [|split; [|split; [|split]]]].
    + split; [discriminate|]. intros ((_ & Hc) & _). lia.
    + now left.
    + reflexivity.
    + reflexivity.
    + exists []. now rewrite app_nil_r.
    + reflexivity.
  - rewrite (account_exists_invalid E acct w) by lia. cbn [fst snd].
    split; [|split; [|split; [|split; [|split]]]].
    + split; [discriminate|]. intros ((Hc & _) & _). lia.
    + now left.
    + reflexivity.
    + reflexivity.
    + exists []. now rewrite app_nil_r.
    + reflexivity.
Qed.

Lemma account_exists_spec_witness :
  result (V3.account_exists sample_env 11)
         (input String.EmptyString (w_disk (after V2.test_file_writing
                                              (input String.EmptyString None)))) = 1.
Proof.
  apply (proj1 (account_exists_spec sample_env 11
                  (input String.EmptyString
                     (w_disk (after V2.test_file_writing
                                    (input String.EmptyString None)))))).
  split; [lia|]. eexists. split; [reflexivity|].
  apply occupiedb_true. vm_compute. reflexivity.
Defined.

(** X7: with [n] what [get_account_number] hands back, [read_account]
    returns 1 exactly when [n] is not 0, the file is there and slot [n - 1]
    holds a record of non-zero id; it then displays that record as it is
    stored, and otherwise displays nothing.  It never changes the file. *)
Theorem read_account_spec (E : Env) (w : World) (n : Z) (s1 : list byte) :
  on_stdin (V3.get_account_number E) (w_stdin w) = (n, s1) ->
  (result (V3.read_account E) w = 1
   <-> n <> 0 /\ exists d, w_disk w = Some d /\ occupied d (n - 1))
  /\ (forall d c, w_disk w = Some d -> n <> 0 ->
                  slot d (n - 1) = Some c -> acct_num c <> 0 ->
                  w_shown (after (V3.read_account E) w) = w_shown w ++ [c])
  /\ (result (V3.read_account E) w <> 1 ->
      result (V3.read_account E) w = 0
      /\ w_shown (after (V3.read_account E) w) = w_shown w)
  /\ w_disk (after (V3.read_account E) w) = w_disk w.
Proof.
  intros H1.
  destruct (get_account_number_valid _ _ _ _ H1) as [-> | Hn].
  { unfold result, after. rewrite (read_account_bad_id _ _ _ H1). cbn [fst snd].
    split; [|split; [|split]].
    - split; [discriminate|]. intros [Hc _]. contradiction.
    - intros d c _ Hc. contradiction.
    - intros _. split; reflexivity.
    - reflexivity. }
  destruct (w_disk w) as [d|] eqn:Hd.
  2:{ destruct (read_account_missing E w Hd) as (Hr & Hdisk & Hshown).
      rewrite Hr, Hdisk, Hshown. split; [|split; [|split]].
      - split; [discriminate|]. intros (_ & d' & Hc & _). discriminate.
      - intros d' c Hc. discriminate.
      - intros _. split; reflexivity.
      - reflexivity. }
  pose proof (read_account_present E w d s1 n Hd H1 Hn) as H. cbv zeta in H.
  destruct H as [H Hdisk]. rewrite Hdisk.
  destruct (slot d (n - 1)) as [c|] eqn:Hs;
    [destruct (acct_num c =? 0) eqn:Hz|]; destruct H as [Hr Hshown];
    rewrite Hr, Hshown; (split; [|split; [|split]]); try reflexivity.
  - apply Z.eqb_eq in Hz. split; [discriminate|].
    intros (_ & d' & [= <-] & c' & Hs' & Hne). congruence.
  - apply Z.eqb_eq in Hz. intros d' c' Hd' _ Hs' Hne. congruence.
  - intros _. split; reflexivity.
  - apply Z.eqb_neq in Hz. split; [|reflexivity]. intros _. split; [lia|].
    exists d. split; [reflexivity|]. now exists c.
  - intros d' c' Hd' _ Hs' _. congruence.
  - intros Hc. contradiction.
  - split; [discriminate|].
    intros (_ & d' & [= <-] & c' & Hs' & _). congruence.
  - intros d' c' Hd' _ Hs'. congruence.
  - intros _. split; reflexivity.
Qed.

Lemma read_account_spec_witness :
  let w0 := typed ["3"; "Old"; "Name"; "250"]%string fresh_store in
  let w1 := typed ["3"]%string (contents (after (V3.create_account sample_env) w0)) in
  result (V3.read_account sample_env) w1 = 1
  /\ w_disk (after (V3.read_account sample_env) w1) = w_disk w1.
Proof.
  intros w0 w1.
  destruct (read_account_spec sample_env w1 3 [] eq_refl) as (Hr & _ & _ & Hd).
  split; [|exact Hd]. apply Hr. split; [lia|].
  eexists. split; [reflexivity|]. apply occupiedb_true. vm_compute. reflexivity.
Defined.

(** X8: Update with choice 1 on a slot that holds a record [c] of non-zero
    id returns 1 and writes [c] back to its slot with the transaction added
    to the balance and the id and names as they were; the record is
    displayed before and after.  Neither the sign of the amount nor that of
    the new balance is checked. *)
Theorem update_adds_to_balance (E : Env) (w : World) (d s3 s4 : list byte)
    (c : client_data) (n t : Z) :
  w_disk w = Some d ->
  update_form E (w_stdin w) = (n, Some 1, s3) ->
  1 <= n <= 100 ->
  slot d (n - 1) = Some c -> acct_num c <> 0 ->
  on_stdin (V3.get_balance_input E) s3 = (t, s4) ->
  0 <= double_add E (balance c) t < DOUBLE_MOD ->
  let c' := mk_client (acct_num c) (last_name c) (first_name c)
                      (double_add E (balance c) t) in
  result (V3.update_account E) w = 1
  /\ slot (contents (after (V3.update_account E) w)) (n - 1) = Some c'
  /\ (forall i r, 0 <= i -> i <> n - 1 -> slot d i = Some r ->
                  slot (contents (after (V3.update_account E) w)) i = Some r)
  /\ w_shown (after (V3.update_account E) w) = w_shown w ++ [c; c'].
Proof.
  intros Hd Hform Hn Hs Hid Ht Hsum c'.
  destruct (update_balance_run E w d s3 s4 c n t Hd Hform Hn Hs Hid Ht)
    as (Hr & Hdisk & Hshown).
  pose proof (slot_typed _ _ _ Hs) as (Ha & Hl & Hf & _).
  assert (Hty : well_typed c')
    by (unfold well_typed, c'; cbn [acct_num last_name first_name balance]; tauto).
  unfold contents. rewrite Hdisk. repeat split.
  - exact Hr.
  - now apply occupiedb_after_write.
  - intros i r Hi Hne Hsi. apply slot_write_keep; try assumption; try lia.
    now apply encode_length.
  - exact Hshown.
Qed.

Lemma update_adds_to_balance_witness :
  let w0 := typed ["10"; "Doe"; "Jane"; "100"]%string fresh_store in
  let w1 := typed ["10"; "1"; "50"]%string
                  (contents (after (V3.create_account sample_env) w0)) in
  result (V3.update_account sample_env) w1 = 1
  /\ option_map balance (slot (contents (after (V3.update_account sample_env) w1)) 9)
     = Some 150.
Proof.
  intros w0 w1.
  pose proof (update_adds_to_balance sample_env w1
                (contents (after (V3.create_account sample_env) w0)) _ []
                (new_record sample_env 10
                   (V3.trim_buffer (char_array LAST_NAME_SIZE "Doe"%string))
                   (V3.trim_buffer (char_array FIRST_NAME_SIZE "Jane"%string)) 100)
                10 50 eq_refl eq_refl ltac:(lia)) as H.
  assert (Hs : slot (contents (after (V3.create_account sample_env) w0)) (10 - 1)
               = Some (new_record sample_env 10
                         (V3.trim_buffer (char_array LAST_NAME_SIZE "Doe"%string))
                         (V3.trim_buffer (char_array FIRST_NAME_SIZE "Jane"%string)) 100))
    by (vm_compute; reflexivity).
  specialize (H Hs ltac:(cbn; lia) eq_refl).
  assert (Hsum : 0 <= double_add sample_env 100 50 < DOUBLE_MOD)
    by (vm_compute; split; [discriminate | reflexivity]).
  specialize (H Hsum). cbv zeta in H. destruct H as (Hr & Hslot & _).
  split; [exact Hr|]. replace 9 with (10 - 1) by lia. rewrite Hslot. reflexivity.
Defined.

(** X9: Update with choice 2 or 3 on a slot that holds a record [c] of
    non-zero id, when the two names read pass [validate_name], returns 1
    and leaves at the slot the record with those names and the id of [c];
    the balance is that of [c] for choice 2 and the amount read for choice
    3.  The records at the other slots stay. *)
Theorem update_replaces_names (E : Env) (w : World) (d s3 s5 : list byte)
    (c : client_data) (n choice : Z) (last first : list byte) :
  env_ok E ->
  w_disk w = Some d ->
  update_form E (w_stdin w) = (n, Some choice, s3) ->
  1 <= n <= 100 ->
  slot d (n - 1) = Some c -> acct_num c <> 0 ->
  choice = 2 \/ choice = 3 ->
  update_names c s3 = (last, first, s5) ->
  names_valid last first = true ->
  let c' := mk_client (acct_num c) last first
              (if choice =? 2 then balance c
               else fst (on_stdin (V3.get_balance_input E) s5)) in
  result (V3.update_account E) w = 1
  /\ slot (contents (after (V3.update_account E) w)) (n - 1) = Some c'
  /\ (forall i r, 0 <= i -> i <> n - 1 -> slot d i = Some r ->
                  slot (contents (after (V3.update_account E) w)) i = Some r)
  /\ w_shown (after (V3.update_account E) w) = w_shown w ++ [c; c'].
Proof.
  intros HE Hd Hform Hn Hs Hid Hch Hnames Hvalid c'.
  pose proof (update_names_run E w d s3 s5 c n choice last first
                Hd Hform Hn Hs Hid Hch Hnames) as H.
  cbv zeta in H. rewrite Hvalid in H.
  assert (Heq : (if choice =? 2 then V3.with_names c last first
                 else V3.with_balance (V3.with_names c last first)
                        (fst (on_stdin (V3.get_balance_input E) s5))) = c')
    by (subst c'; destruct (choice =? 2); reflexivity).
  rewrite Heq in H. destruct H as (Hr & Hdisk & Hshown).
  pose proof (slot_typed _ _ _ Hs) as (Ha & Hl & Hf & Hb).
  unfold update_names in Hnames.
  destruct (on_stdin (V3.get_name_input (last_name c) LAST_NAME_SIZE) s3)
    as [l s4] eqn:H3.
  destruct (on_stdin (V3.get_name_input (first_name c) FIRST_NAME_SIZE) s4)
    as [f s5'] eqn:H4.
  injection Hnames as -> -> ->.
  apply get_name_input_length in H3, H4.
  assert (Hbal : 0 <= (if choice =? 2 then balance c
                        else fst (on_stdin (V3.get_balance_input E) s5)) < DOUBLE_MOD).
  { destruct (choice =? 2); [exact Hb|].
    destruct (on_stdin (V3.get_balance_input E) s5) as [b s6] eqn:Hbal.
    eapply get_balance_input_range; eassumption. }
  assert (Hty : well_typed c').
  { unfold well_typed, c'. cbn [acct_num last_name first_name balance].
    split; [exact Ha | split; [congruence | split; [congruence | exact Hbal]]]. }
  unfold contents. rewrite Hdisk. repeat split.
  - exact Hr.
  - now apply occupiedb_after_write.
  - intros i r Hi Hne Hsi. apply slot_write_keep; try assumption; try lia.
    apply encode_length; apply Hty.
  - exact Hshown.
Qed.

Lemma update_replaces_names_witness :
  let w0 := typed ["10"; "Doe"; "Jane"; "100"]%string fresh_store in
  let w1 := typed ["10"; "2"; "Roe"; "Ann"]%string
                  (contents (after (V3.create_account sample_env) w0)) in
  result (V3.update_account sample_env) w1 = 1
  /\ option_map (fun c => cstr (last_name c))
                (slot (contents (after (V3.update_account sample_env) w1)) 9)
     = Some (String.list_byte_of_string "Roe").
Proof.
  intros w0 w1.
  set (c := new_record sample_env 10
              (V3.trim_buffer (char_array LAST_NAME_SIZE "Doe"%string))
              (V3.trim_buffer (char_array FIRST_NAME_SIZE "Jane"%string)) 100).
  destruct (update_names c (lines ["Roe"; "Ann"]%string)) as [[last first] s5] eqn:Hn.
  pose proof (update_replaces_names sample_env w1
                (contents (after (V3.create_account sample_env) w0)) _ s5 c
                10 2 last first sample_env_ok eq_refl eq_refl ltac:(lia)) as H.
  assert (Hs : slot (contents (after (V3.create_account sample_env) w0)) (10 - 1) = Some c)
    by (vm_compute; reflexivity).
  specialize (H Hs ltac:(cbn; lia) (or_introl eq_refl) Hn).
  assert (Hv : names_valid last first = true).
  { vm_compute in Hn. injection Hn as <- <- _. vm_compute. reflexivity. }
  specialize (H Hv). cbv zeta in H. destruct H as (Hr & Hslot & _).
  split; [exact Hr|]. replace 9 with (10 - 1) by lia. rewrite Hslot.
  cbn [option_map last_name]. vm_compute in Hn. injection Hn as <- _ _.
  vm_compute. reflexivity.
Defined.

(** X10: an Update that does not go through writes nothing.  It returns 0
    and leaves the file as it was when the id is rejected, when the slot is
    not occupied (nothing is displayed then), when the choice is not a
    number or not 1, 2 or 3, and when with choice 2 or 3 one of the new
    names fails [validate_name]. *)
Theorem update_aborts_leave_file (E : Env) (w : World) (d s3 : list byte)
    (n : Z) (choice : option Z) :
  w_disk w = Some d ->
  update_form E (w_stdin w) = (n, choice, s3) ->
  (n = 0 \/ ~ occupied d (n - 1) ->
   result (V3.update_account E) w = 0
   /\ w_disk (after (V3.update_account E) w) = Some d
   /\ w_shown (after (V3.update_account E) w) = w_shown w)
  /\ (forall c, 1 <= n <= 100 -> slot d (n - 1) = Some c -> acct_num c <> 0 ->
        (match choice with
         | Some k => k <> 1 /\ k <> 2 /\ k <> 3
         | None => True
         end ->
         result (V3.update_account E) w = 0
         /\ w_disk (after (V3.update_account E) w) = Some d)
        /\ (forall last first s5,
              choice = Some 2 \/ choice = Some 3 ->
              update_names c s3 = (last, first, s5) ->
              names_valid last first = false ->
              result (V3.update_account E) w = 0
              /\ w_disk (after (V3.update_account E) w) = Some d)).
Proof.
  intros Hd Hform.
  destruct (update_form_acct _ _ _ _ _ Hform) as (s1 & s2 & H1 & H2 & Hs3).
  split.
  - intros Hbad.
    destruct (get_account_number_valid _ _ _ _ H1) as [-> | Hn].
    + unfold result, after. rewrite (update_account_bad_id _ _ _ H1). cbn. auto.
    + destruct Hbad as [-> | Hfree]; [lia|].
      apply occupiedb_false in Hfree.
      now apply (update_account_not_found E w d s1 n).
  - intros c Hn Hs Hid. split.
    + intros Hch. now apply (update_no_choice_run E w d s3 c n choice).
    + intros last first s5 Hch Hnames Hinvalid.
      assert (Hk : exists k, choice = Some k /\ (k = 2 \/ k = 3))
        by (destruct Hch as [-> | ->]; eexists; split; eauto).
      destruct Hk as (k & -> & Hk).
      pose proof (update_names_run E w d s3 s5 c n k last first
                    Hd Hform Hn Hs Hid Hk Hnames) as H.
      cbv zeta in H. now rewrite Hinvalid in H.
Qed.

Lemma update_aborts_leave_file_witness :
  let w0 := typed ["10"; "Doe"; "Jane"; "100"]%string fresh_store in
  let d1 := contents (after (V3.create_account sample_env) w0) in
  (result (V3.update_account sample_env) (typed ["10"; "7"]%string d1) = 0
   /\ w_disk (after (V3.update_account sample_env) (typed ["10"; "7"]%string d1))
      = Some d1)
  /\ (result (V3.update_account sample_env) (typed ["11"; "1"; "5"]%string d1) = 0
      /\ w_disk (after (V3.update_account sample_env) (typed ["11"; "1"; "5"]%string d1))
         = Some d1).
Proof.
  intros w0 d1. split.
  - refine (proj1 (proj2 (update_aborts_leave_file sample_env
              (typed ["10"; "7"]%string d1) d1 _ 10 (Some 7) eq_refl eq_refl)
              (new_record sample_env 10
                 (V3.trim_buffer (char_array LAST_NAME_SIZE "Doe"%string))
                 (V3.trim_buffer (char_array FIRST_NAME_SIZE "Jane"%string)) 100)
              _ _ _) _).
    + lia.
    + vm_compute. reflexivity.
    + cbn. lia.
    + repeat split; lia.
  - destruct (proj1 (update_aborts_leave_file sample_env
              (typed ["11"; "1"; "5"]%string d1) d1 _ 11 (Some 1) eq_refl eq_refl))
      as (Hr & Hdisk & _).
    + right. apply occupiedb_false. vm_compute. reflexivity.
    + split; assumption.
Defined.

(** X11: a Delete that is not confirmed with y or Y, or whose slot is not
    occupied, or whose id is rejected, returns 0 and leaves the file as it
    was; a Delete returns 1 only for an occupied slot and a confirmation. *)
Theorem delete_needs_confirmation (E : Env) (w : World) (d : list byte)
    (n : Z) (conf : option byte) :
  w_disk w = Some d ->
  delete_form E (w_stdin w) = (n, conf) ->
  (n = 0 \/ ~ occupied d (n - 1) \/ confirmed conf = false ->
   result (V3.delete_account E) w = 0
   /\ w_disk (after (V3.delete_account E) w) = Some d)
  /\ (result (V3.delete_account E) w = 1 ->
      1 <= n <= 100 /\ occupied d (n - 1) /\ confirmed conf = true).
Proof.
  intros Hd Hform.
  destruct (delete_form_acct _ _ _ _ Hform) as [s1 H1].
  destruct (get_account_number_valid _ _ _ _ H1) as [-> | Hn].
  - unfold result, after. rewrite (delete_account_bad_id _ _ _ H1). cbn [fst snd].
    split; [intros _; split; [reflexivity | exact Hd] | discriminate].
  - pose proof (delete_account_present E w d n conf Hd Hform Hn) as H.
    cbv zeta in H.
    destruct (occupiedb d (n - 1)) eqn:Hocc; destruct (confirmed conf) eqn:Hconf;
      cbn [andb] in H; destruct H as [Hr Hdisk]; rewrite Hr.
    + split.
      * intros [-> | [Hfree | Hc]]; [lia | | discriminate].
        apply occupiedb_true in Hocc. contradiction.
      * intros _. apply occupiedb_true in Hocc. auto.
    + split; [auto | discriminate].
    + split; [auto | discriminate].
    + split; [auto | discriminate].
Qed.

Lemma delete_needs_confirmation_witness :
  let w0 := typed ["10"; "Doe"; "Jane"; "100"]%string fresh_store in
  let d1 := contents (after (V3.create_account sample_env) w0) in
  result (V3.delete_account sample_env) (typed ["10"; "n"]%string d1) = 0
  /\ w_disk (after (V3.delete_account sample_env) (typed ["10"; "n"]%string d1))
     = Some d1.
Proof.
  intros w0 d1.
  apply (proj1 (delete_needs_confirmation sample_env (typed ["10"; "n"]%string d1)
                  d1 10 (Some "n"%byte) eq_refl eq_refl)).
  right. right. reflexivity.
Defined.

(** X12: with [n] the account number read, a Create, an Update and a
    Delete leave every record stored at a slot other than [n - 1] as it
    was: each writes to the slot of its own id or not at all. *)
Theorem crud_keeps_other_slots (E : Env) (w : World) (d s1 : list byte) (n : Z) :
  env_ok E ->
  w_disk w = Some d ->
  on_stdin (V3.get_account_number E) (w_stdin w) = (n, s1) ->
  let kept (w' : World) :=
    forall i r, 0 <= i -> i <> n - 1 -> slot d i = Some r ->
                slot (contents w') i = Some r in
  kept (after (V3.create_account E) w)
  /\ kept (after (V3.update_account E) w)
  /\ kept (after (V3.delete_account E) w).
Proof.
  intros HE Hd H1 kept. subst kept. cbv beta.
  assert (Hkeep : forall d' c,
             length (encode c) = RECORD_SIZE -> 1 <= n <= 100 ->
             d' = d \/ d' = file_write_at d (slot_offset (n - 1)) (encode c) ->
             forall i r, 0 <= i -> i <> n - 1 -> slot d i = Some r ->
                         slot d' i = Some r).
  { intros d' c Hlen Hn [-> | ->] i r Hi Hne Hs; [exact Hs|].
    apply slot_write_keep; try assumption; lia. }
  destruct (get_account_number_valid _ _ _ _ H1) as [-> | Hn].
  { unfold after. rewrite (create_account_bad_id _ _ _ H1),
      (update_account_bad_id _ _ _ H1), (delete_account_bad_id _ _ _ H1).
    unfold contents. cbn [snd put_stdin w_disk]. rewrite Hd. auto. }
  split; [|split].
  - destruct (create_form E (w_stdin w)) as [[[n' last] first] bal] eqn:Hform.
    destruct (create_form_acct _ _ _ _ _ _ Hform) as [s1' H1'].
    rewrite H1 in H1'. injection H1' as <- _.
    destruct (create_form_facts _ _ _ _ _ _ HE Hform) as [_ Hb].
    pose proof (new_record_typed E n bal last first HE Hn Hb) as (_ & Hl & Hf & _).
    pose proof (create_account_present E w d n bal last first Hd Hform Hn) as H.
    cbv zeta in H. unfold contents.
    apply (Hkeep _ (new_record E n last first bal));
      [now apply encode_length | exact Hn |].
    destruct (occupiedb d (n - 1)); [|destruct (names_valid last first)];
      destruct H as (_ & -> & _); auto.
  - destruct (update_form E (w_stdin w)) as [[n' choice] s3] eqn:Hform.
    destruct (update_form_acct _ _ _ _ _ Hform) as (s1' & s2 & H1' & H2 & Hs3).
    rewrite H1 in H1'. injection H1' as <- <-.
    destruct (occupiedb d (n - 1)) eqn:Hocc.
    2:{ destruct (update_account_not_found E w d s1 n Hd H1 Hn Hocc) as (_ & Hdisk & _).
        unfold contents. rewrite Hdisk. auto. }
    apply occupiedb_true in Hocc. destruct Hocc as (c & Hs & Hid).
    pose proof (slot_typed _ _ _ Hs) as (_ & Hl & Hf & _).
    assert (Hother : (match choice with
                      | Some k => k <> 1 /\ k <> 2 /\ k <> 3
                      | None => True
                      end)
                     \/ choice = Some 1 \/ choice = Some 2 \/ choice = Some 3).
    { destruct choice as [k|]; [|now left].
      destruct (Z.eq_dec k 1) as [-> | K1]; [now right; left|].
      destruct (Z.eq_dec k 2) as [-> | K2]; [now right; right; left|].
      destruct (Z.eq_dec k 3) as [-> | K3]; [now right; right; right|].
      left. auto. }
    destruct Hother as [Hno | [-> | Hch]].
    + destruct (update_no_choice_run E w d s3 c n choice Hd Hform Hn Hs Hid Hno)
        as (_ & Hdisk).
      unfold contents. rewrite Hdisk. auto.
    + destruct (on_stdin (V3.get_balance_input E) s3) as [t s4] eqn:Ht.
      destruct (update_balance_run E w d s3 s4 c n t Hd Hform Hn Hs Hid Ht)
        as (_ & Hdisk & _).
      unfold contents. rewrite Hdisk.
      eapply Hkeep; [| exact Hn | right; reflexivity].
      now apply with_balance_encode_length.
    + assert (Hk : exists k, choice = Some k /\ (k = 2 \/ k = 3))
        by (destruct Hch as [-> | ->]; eexists; split; eauto).
      destruct Hk as (k & -> & Hk).
      destruct (update_names c s3) as [[last first] s5] eqn:Hnames.
      pose proof (update_names_run E w d s3 s5 c n k last first
                    Hd Hform Hn Hs Hid Hk Hnames) as H.
      cbv zeta in H.
      unfold update_names in Hnames.
      destruct (on_stdin (V3.get_name_input (last_name c) LAST_NAME_SIZE) s3)
        as [l s4] eqn:H3.
      destruct (on_stdin (V3.get_name_input (first_name c) FIRST_NAME_SIZE) s4)
        as [f s5'] eqn:H4.
      injection Hnames as -> -> ->.
      apply get_name_input_length in H3, H4.
      destruct (names_valid last first).
      * destruct H as (_ & Hdisk & _). unfold contents. rewrite Hdisk.
        eapply Hkeep; [| exact Hn | right; reflexivity].
        destruct (k =? 2); apply encode_length; cbn; congruence.
      * destruct H as (_ & Hdisk). unfold contents. rewrite Hdisk. auto.
  - destruct (delete_form E (w_stdin w)) as [n' conf] eqn:Hform.
    destruct (delete_form_acct _ _ _ _ Hform) as [s1' H1'].
    rewrite H1 in H1'. injection H1' as <- _.
    pose proof (delete_account_present E w d n conf Hd Hform Hn) as H.
    cbv zeta in H. unfold contents.
    apply (Hkeep _ empty_client); [reflexivity | exact Hn |].
    destruct (occupiedb d (n - 1) && confirmed conf);
      destruct H as (_ & ->); auto.
Qed.

Lemma crud_keeps_other_slots_witness :
  let w0 := typed ["10"; "Doe"; "Jane"; "100"]%string fresh_store in
  let d1 := contents (after (V3.create_account sample_env) w0) in
  option_map acct_num
    (slot (contents (after (V3.delete_account sample_env) (typed ["4"; "y"]%string d1))) 9)
  = Some 10.
Proof.
  intros w0 d1.
  destruct (crud_keeps_other_slots sample_env (typed ["4"; "y"]%string d1) d1 _ 4
              sample_env_ok eq_refl eq_refl) as (_ & _ & H).
  rewrite (H 9 (new_record sample_env 10
                  (V3.trim_buffer (char_array LAST_NAME_SIZE "Doe"%string))
                  (V3.trim_buffer (char_array FIRST_NAME_SIZE "Jane"%string)) 100)).
  - reflexivity.
  - lia.
  - lia.
  - vm_compute. reflexivity.
Defined.

(** X13: on a stream open for writing, [write_client_to_file] of either
    version with a position in 0..99 returns 1 and puts the record at its
    slot; every complete record at another slot stays; the file grows to
    reach the end of the slot where it was shorter, and a slot wholly in
    the gap between the old end and the record reads as the empty record.
    The two versions do the same. *)
Theorem write_client_effect (f : FILE) (c : client_data) (p : Z) (w : World) :
  can_write (f_mode f) = true -> 0 <= p < MAX_ACCOUNTS -> well_typed c ->
  let d := contents w in
  let r2 := V2.write_client_to_file (Some f) c p w in
  let r3 := V3.write_client_to_file (Some f) c p w in
  r2 = r3 /\ fst r3 = 1
  /\ slot (contents (snd r3)) p = Some c
  /\ (forall i r, 0 <= i -> i <> p -> slot d i = Some r ->
                  slot (contents (snd r3)) i = Some r)
  /\ (forall i, 0 <= i < p -> (length d <= Z.to_nat i * RECORD_SIZE)%nat ->
                slot (contents (snd r3)) i = Some empty_client)
  /\ length (contents (snd r3))
     = Nat.max (length d) ((Z.to_nat p + 1) * RECORD_SIZE).
Proof.
  intros Hm Hp Hc d r2 r3. subst d r2 r3.
  rewrite (v2_write_run f c p w Hm Hp), (v3_write_run f c p w Hm Hp).
  cbn [fst snd]. unfold contents. cbn [w_disk].
  pose proof Hc as (_ & Hl & Hf & _).
  pose proof (encode_length c Hl Hf) as Hlen.
  split; [reflexivity|]. split; [reflexivity|].
  split; [now apply occupiedb_after_write|].
  split; [intros i r Hi Hne Hs; apply slot_write_keep; auto; lia|].
  split; [intros i Hi Hshort; now apply slot_write_gap|].
  rewrite file_write_length_max, Hlen. unfold slot_offset, RECORD_SIZE. lia.
Qed.

Lemma write_client_effect_witness :
  slot (contents (snd (V3.write_client_to_file (Some (mk_FILE RBplus)) V2.client1 5
                         (input String.EmptyString (Some [])))))
       5 = Some V2.client1
  /\ length (contents (snd (V3.write_client_to_file (Some (mk_FILE RBplus)) V2.client1 5
                              (input String.EmptyString (Some [])))))
     = (6 * RECORD_SIZE)%nat.
Proof.
  pose proof (write_client_effect (mk_FILE RBplus) V2.client1 5
                (input String.EmptyString (Some [])) eq_refl
                ltac:(unfold MAX_ACCOUNTS; lia)
                (proj1 (proj2 (proj2 v2_samples_typed)))) as H.
  cbv zeta in H. destruct H as (_ & _ & Hs & _ & _ & Hlen).
  split; [exact Hs|]. rewrite Hlen. reflexivity.
Defined.

(** X14: [write_client_to_file] of either version returns 0 and leaves the
    file as it is for a NULL stream, for a position below 0 or above 99,
    and for a stream that is not open for writing. *)
Theorem write_client_refused (fp : option FILE) (c : client_data) (p : Z) (w : World) :
  fp = None \/ p < 0 \/ MAX_ACCOUNTS <= p
  \/ (exists f, fp = Some f /\ can_write (f_mode f) = false) ->
  (result (V2.write_client_to_file fp c p) w = 0
   /\ w_disk (after (V2.write_client_to_file fp c p) w) = w_disk w)
  /\ (result (V3.write_client_to_file fp c p) w = 0
      /\ w_disk (after (V3.write_client_to_file fp c p) w) = w_disk w).
Proof.
  intros H.
  assert (Hcase : (fp = None \/ p < 0 \/ MAX_ACCOUNTS <= p)
                  \/ (0 <= p < MAX_ACCOUNTS
                      /\ exists f, fp = Some f /\ can_write (f_mode f) = false)).
  { destruct H as [H | [H | [H | H]]]; auto.
    destruct (Z_lt_dec p 0); [auto|].
    destruct (Z_le_dec MAX_ACCOUNTS p); [auto|].
    right. split; [lia | exact H]. }
  destruct Hcase as [Hr | (Hp & f & -> & Hm)].
  - unfold result, after.
    rewrite (v2_write_refused fp c p w Hr), (v3_write_refused fp c p w Hr).
    cbn. auto.
  - now apply write_read_only.
Qed.

Lemma write_client_refused_witness :
  result (V3.write_client_to_file (Some (mk_FILE RBplus)) V2.client1 100)
         (input String.EmptyString (Some fresh_store)) = 0
  /\ result (V2.write_client_to_file (Some (mk_FILE RB)) V2.client1 5)
            (input String.EmptyString (Some fresh_store)) = 0.
Proof.
  split.
  - apply (write_client_refused (Some (mk_FILE RBplus)) V2.client1 100
             (input String.EmptyString (Some fresh_store))).
    right. right. left. unfold MAX_ACCOUNTS. lia.
  - apply (write_client_refused (Some (mk_FILE RB)) V2.client1 5
             (input String.EmptyString (Some fresh_store))).
    right. right. right. exists (mk_FILE RB). split; reflexivity.
Defined.

(** X15: two records written to two different positions of 0..99 through
    one stream are both read back from their positions, by either version,
    whatever the file held and in whatever order they are read. *)
Theorem writes_to_distinct_slots (f : FILE) (c1 c2 buf : client_data)
    (p1 p2 : Z) (w : World) :
  can_write (f_mode f) = true -> can_read (f_mode f) = true ->
  0 <= p1 < MAX_ACCOUNTS -> 0 <= p2 < MAX_ACCOUNTS -> p1 <> p2 ->
  well_typed c1 -> well_typed c2 ->
  let w' := after (V3.write_client_to_file (Some f) c2 p2)
                  (after (V3.write_client_to_file (Some f) c1 p1) w) in
  fst (V3.read_client_from_file (Some f) buf p1 w') = (1, c1)
  /\ fst (V3.read_client_from_file (Some f) buf p2 w') = (1, c2)
  /\ fst (V2.read_client_from_file (Some f) buf p1 w') = (1, c1)
  /\ fst (V2.read_client_from_file (Some f) buf p2 w') = (1, c2).
Proof.
  intros Hw Hr Hp1 Hp2 Hne Hc1 Hc2 w'. subst w'. unfold after.
  rewrite (v3_write_run f c1 p1 w Hw Hp1). cbn [snd].
  rewrite v3_write_run by assumption. cbn [snd].
  unfold contents at 1 2 3 4. cbn [w_disk].
  pose proof Hc2 as (_ & Hl2 & Hf2 & _).
  pose proof (encode_length c2 Hl2 Hf2) as Hlen2.
  set (d2 := file_write_at
               (file_write_at (contents w) (slot_offset p1) (encode c1))
               (slot_offset p2) (encode c2)).
  assert (H1 : slot d2 p1 = Some c1).
  { subst d2. apply slot_write_keep; [exact Hlen2 | lia | lia | exact Hne |].
    now apply occupiedb_after_write. }
  assert (H2 : slot d2 p2 = Some c2) by (subst d2; now apply occupiedb_after_write).
  rewrite (v3_read_hit f buf c1 p1), (v3_read_hit f buf c2 p2),
    (v2_read_hit f buf c1 p1), (v2_read_hit f buf c2 p2);
    try assumption; auto.
Qed.

Lemma writes_to_distinct_slots_witness :
  fst (V2.read_client_from_file (Some (mk_FILE RBplus)) empty_client 5
         (after (V3.write_client_to_file (Some (mk_FILE RBplus)) V2.client2 15)
            (after (V3.write_client_to_file (Some (mk_FILE RBplus)) V2.client1 5)
               (input String.EmptyString (Some fresh_store)))))
  = (1, V2.client1).
Proof.
  pose proof (writes_to_distinct_slots (mk_FILE RBplus) V2.client1 V2.client2
                empty_client 5 15 (input String.EmptyString (Some fresh_store))
                eq_refl eq_refl ltac:(unfold MAX_ACCOUNTS; lia)
                ltac:(unfold MAX_ACCOUNTS; lia) ltac:(lia)
                (proj1 (proj2 (proj2 v2_samples_typed)))
                (proj2 (proj2 (proj2 v2_samples_typed)))) as H.
  cbv zeta in H. destruct H as (_ & _ & H & _). exact H.
Defined.

(** X16: where a data file exists, whatever it holds, [initialize_data_file]
    of version 2 replaces it by a file of 100 records that all read as the
    empty record, and [initialize_data_file_if_needed] of version 3 opens
    and closes it and leaves it as it is, also when it is empty or shorter
    than 100 records. *)
Theorem initialize_existing_file (w : World) (d : list byte) (k : Z) :
  w_disk w = Some d -> 1 <= k <= 100 ->
  (exists d2, w_disk (after V2.initialize_data_file w) = Some d2
              /\ length d2 = (100 * RECORD_SIZE)%nat
              /\ slot d2 (k - 1) = Some empty_client)
  /\ w_disk (after V3.initialize_data_file_if_needed w) = Some d
  /\ w_log (after V3.initialize_data_file_if_needed w)
     = w_log w ++ [EvOpen RB true; EvClose].
Proof.
  intros Hd Hk. unfold after. rewrite v2_initialize_run. cbn [snd w_disk].
  split.
  { exists fresh_store. split; [reflexivity|]. split; [apply fresh_store_inv|].
    apply slot_fresh_store. unfold MAX_ACCOUNTS. lia. }
  unfold V3.initialize_data_file_if_needed.
  erewrite bind_run by (apply fopen_existing; [reflexivity | exact Hd]).
  cbv beta iota. unfold fclose. run_world. rewrite <- app_assoc. auto.
Qed.

Lemma initialize_existing_file_witness :
  w_disk (after V3.initialize_data_file_if_needed (input String.EmptyString (Some [])))
  = Some []
  /\ exists d2, w_disk (after V2.initialize_data_file (input String.EmptyString (Some [])))
                = Some d2
                /\ length d2 = (100 * RECORD_SIZE)%nat
                /\ slot d2 (1 - 1) = Some empty_client.
Proof.
  destruct (initialize_existing_file (input String.EmptyString (Some [])) [] 1 eq_refl
              ltac:(lia)) as (H2 & H3 & _).
  split; assumption.
Defined.

(** X17: [count_records] on a readable stream returns the number of records
    of the 100 slots whose id is not 0, whatever the ids are and wherever
    the stream stood; the number is between 0 and 100, the file is not
    changed, and a NULL stream gives -1. *)
Theorem count_records_spec (E : Env) (f : FILE) (w : World) (d : list byte) :
  can_read (f_mode f) = true -> w_disk w = Some d ->
  result (V2.count_records E (Some f)) w = Z.of_nat (length (accounts d))
  /\ 0 <= result (V2.count_records E (Some f)) w <= MAX_ACCOUNTS
  /\ w_disk (after (V2.count_records E (Some f)) w) = Some d
  /\ V2.count_records E None w = (-1, w).
Proof.
  intros Hm Hd. destruct (count_records_run E f w d Hm Hd) as [Hr Hdisk].
  rewrite Hr. split; [reflexivity|]. split; [|split; [exact Hdisk | reflexivity]].
  pose proof (records_from_length d 0 (Z.to_nat MAX_ACCOUNTS)) as Hlen.
  unfold accounts, MAX_ACCOUNTS in *. lia.
Qed.

Lemma count_records_spec_witness :
  let d0 := file_write_at (file_write_at fresh_store (slot_offset 15) (encode V2.client2))
              (slot_offset 5) (encode V2.client1) in
  result (V2.count_records sample_env (Some (mk_FILE RBplus)))
         (input String.EmptyString (Some d0)) = 2.
Proof.
  intros d0.
  destruct (count_records_spec sample_env (mk_FILE RBplus)
              (input String.EmptyString (Some d0)) d0 eq_refl eq_refl) as (Hr & _).
  rewrite Hr. vm_compute. reflexivity.
Defined.

(** X18: [get_file_size] returns the length of the file, leaves the file as
    it is and puts the stream back where it stood; a NULL stream gives -1.
    After [initialize_data_file] the size is 4000 bytes. *)
Theorem get_file_size_spec (f : FILE) (w : World) :
  0 <= w_fpos w ->
  result (V2.get_file_size (Some f)) w = Z.of_nat (length (contents w))
  /\ w_fpos (after (V2.get_file_size (Some f)) w) = w_fpos w
  /\ w_disk (after (V2.get_file_size (Some f)) w) = w_disk w
  /\ V2.get_file_size None w = (-1, w)
  /\ result (V2.get_file_size (Some f)) (after V2.initialize_data_file w)
     = MAX_ACCOUNTS * Z.of_nat RECORD_SIZE.
Proof.
  intros Hpos. unfold result, after.
  rewrite (get_file_size_run f w Hpos). cbn [fst snd w_fpos w_disk].
  split; [reflexivity|]. split; [reflexivity|]. split; [reflexivity|].
  split; [reflexivity|].
  rewrite v2_initialize_run. cbn [snd].
  rewrite get_file_size_run by (cbn [w_fpos]; unfold slot_offset, MAX_ACCOUNTS; lia).
  cbn [fst]. unfold contents. cbn [w_disk].
  pose proof fresh_store_inv as [Hlen _]. rewrite Hlen.
  unfold MAX_ACCOUNTS. lia.
Qed.

Lemma get_file_size_spec_witness :
  result (V2.get_file_size (Some (mk_FILE RB)))
         (input String.EmptyString
            (Some (file_write_at [] (slot_offset 10) (encode V2.test_client)))) = 440.
Proof.
  destruct (get_file_size_spec (mk_FILE RB)
              (input String.EmptyString
                 (Some (file_write_at [] (slot_offset 10) (encode V2.test_client)))))
    as (Hr & _).
  - cbn. lia.
  - rewrite Hr. vm_compute. reflexivity.
Defined.

(** X19: [display_all_accounts] shows the records of the slots 0..99 whose
    id is not 0, each once and in the order of the slots, and nothing
    else; it writes nothing.  Over a store that keeps [store_inv] the ids
    shown are strictly increasing. *)
Theorem display_all_accounts_spec (E : Env) (w : World) (d : list byte) :
  w_disk w = Some d ->
  let w' := after (V3.display_all_accounts E) w in
  w_shown w' = w_shown w ++ accounts d
  /\ w_disk w' = Some d
  /\ (exists l, w_log w' = w_log w ++ l /\ reads_only l = true)
  /\ (forall c, In c (accounts d)
                <-> exists i, 0 <= i < MAX_ACCOUNTS
                              /\ slot d i = Some c /\ acct_num c <> 0)
  /\ (store_inv d -> StronglySorted Z.lt (map acct_num (accounts d))).
Proof.
  intros Hd w'. subst w'.
  pose proof (display_all_accounts_run E w d Hd) as H. cbv zeta in H.
  destruct H as (Hshown & Hdisk & _ & Hlog).
  split; [exact Hshown|]. split; [exact Hdisk|]. split; [exact Hlog|].
  split; [intros c; apply in_accounts|].
  intros Hinv. apply (records_from_ids d 0 (Z.to_nat MAX_ACCOUNTS) Hinv). lia.
Qed.

Lemma display_all_accounts_spec_witness :
  let d0 := file_write_at (file_write_at fresh_store (slot_offset 15) (encode V2.client2))
              (slot_offset 5) (encode V2.client1) in
  map acct_num
    (w_shown (after (V3.display_all_accounts sample_env)
                (input String.EmptyString (Some d0))))
  = [11; 22].
Proof.
  intros d0.
  destruct (display_all_accounts_spec sample_env
              (input String.EmptyString (Some d0)) d0 eq_refl) as (Hs & _).
  rewrite Hs. vm_compute. reflexivity.
Defined.

(** X20: [display_file_contents] of version 2 prints one row for each
    record of the slots 0..99 whose id is not 0, in the order of the slots,
    and the total it prints is the number [count_records] returns; it
    writes nothing. *)
Theorem display_file_contents_spec (E : Env) (w : World) (d : list byte) :
  w_disk w = Some d ->
  let r := V2.display_file_contents E w in
  w_shown (snd r) = w_shown w ++ accounts d
  /\ fst r = Some (Z.of_nat (length (accounts d)))
  /\ (forall f, can_read (f_mode f) = true ->
                fst r = Some (result (V2.count_records E (Some f)) w))
  /\ w_disk (snd r) = Some d
  /\ exists l, w_log (snd r) = w_log w ++ l /\ reads_only l = true.
Proof.
  intros Hd r. subst r.
  pose proof (display_file_contents_run E w d Hd) as H. cbv zeta in H.
  destruct H as (Hr & Hshown & Hdisk & _ & Hlog).
  split; [exact Hshown|]. split; [exact Hr|].
  split; [|split; [exact Hdisk | exact Hlog]].
  intros f Hm. destruct (count_records_run E f w d Hm Hd) as [Hc _].
  now rewrite Hr, Hc.
Qed.

Lemma display_file_contents_spec_witness :
  let d0 := file_write_at (file_write_at fresh_store (slot_offset 15) (encode V2.client2))
              (slot_offset 5) (encode V2.client1) in
  fst (V2.display_file_contents sample_env (input String.EmptyString (Some d0)))
  = Some 2.
Proof.
  intros d0.
  destruct (display_file_contents_spec sample_env
              (input String.EmptyString (Some d0)) d0 eq_refl) as (_ & Hr & _).
  rewrite Hr. vm_compute. reflexivity.
Defined.

(** X21: on an existing data file [test_crud_operations] returns 1 whatever
    the file holds, and leaves the empty record at slot 98: an account 99
    that was stored there is gone.  The complete records of the other
    slots stay.  With no data file it returns 0 and creates none. *)
Theorem test_crud_operations_spec (E : Env) (w w0 : World) (d : list byte) :
  env_ok E -> w_disk w = Some d -> w_disk w0 = None ->
  result (V3.test_crud_operations E) w = 1
  /\ slot (contents (after (V3.test_crud_operations E) w)) 98 = Some empty_client
  /\ (forall i r, 0 <= i -> i <> 98 -> slot d i = Some r ->
        slot (contents (after (V3.test_crud_operations E) w)) i = Some r)
  /\ result (V3.test_crud_operations E) w0 = 0
  /\ w_disk (after (V3.test_crud_operations E) w0) = None.
Proof.
  intros HE Hd Hd0.
  destruct (test_crud_operations_run E w d HE Hd) as (c1 & c2 & H1 & H2 & Hr & Hdisk).
  destruct (v3_tests_missing E w0 Hd0) as ((Hr0 & Hdisk0) & _).
  unfold contents. rewrite Hdisk.
  split; [exact Hr|]. split; [apply occupiedb_after_write, empty_client_typed|].
  split; [|split; assumption].
  intros i r Hi Hne Hs.
  apply slot_write_keep; [reflexivity | lia | lia | lia |].
  apply slot_write_keep; [exact H2 | lia | lia | lia |].
  apply slot_write_keep; [exact H1 | lia | lia | lia | exact Hs].
Qed.

Lemma test_crud_operations_spec_witness :
  let d0 := file_write_at fresh_store (slot_offset 98) (encode V2.test_client) in
  slot d0 98 = Some V2.test_client
  /\ result (V3.test_crud_operations sample_env) (input String.EmptyString (Some d0)) = 1
  /\ slot (contents (after (V3.test_crud_operations sample_env)
                       (input String.EmptyString (Some d0)))) 98
     = Some empty_client.
Proof.
  intros d0.
  destruct (test_crud_operations_spec sample_env (input String.EmptyString (Some d0))
              (input String.EmptyString None) d0 sample_env_ok eq_refl eq_refl)
    as (Hr & Hs & _).
  split; [vm_compute; reflexivity|]. split; assumption.
Defined.

(** X22: on an existing data file [test_account_management] puts its
    record of id 77 at slot 76 in place of what was there, keeps the
    complete records of the other slots, and returns 1 exactly when slot
    87 of the file is not occupied: it fails on a file that holds an
    account 88. *)
Theorem test_account_management_spec (E : Env) (w : World) (d : list byte) :
  w_disk w = Some d ->
  (result (V3.test_account_management E) w = 1 <-> ~ occupied d 87)
  /\ (result (V3.test_account_management E) w = 0 <-> occupied d 87)
  /\ slot (contents (after (V3.test_account_management E) w)) 76
     = Some V3.test_account
  /\ (forall i r, 0 <= i -> i <> 76 -> slot d i = Some r ->
        slot (contents (after (V3.test_account_management E) w)) i = Some r).
Proof.
  intros Hd. destruct (test_account_management_run E w d Hd) as [Hr Hdisk].
  unfold contents. rewrite Hdisk, Hr.
  assert (Hty : well_typed V3.test_account).
  { unfold well_typed, V3.test_account, V3.d_200, UINT_MOD, DOUBLE_MOD.
    cbn [acct_num last_name first_name balance].
    split; [lia|]. split; [reflexivity|]. split; [reflexivity | lia]. }
  split; [|split; [|split]].
  - destruct (occupiedb d 87) eqn:Hocc; cbn.
    + apply occupiedb_true in Hocc. split; [discriminate | contradiction].
    + apply occupiedb_false in Hocc. split; [auto | reflexivity].
  - destruct (occupiedb d 87) eqn:Hocc; cbn.
    + apply occupiedb_true in Hocc. split; [auto | reflexivity].
    + apply occupiedb_false in Hocc. split; [discriminate | contradiction].
  - now apply occupiedb_after_write.
  - intros i r Hi Hne Hs. apply slot_write_keep; [reflexivity | lia | lia | lia | exact Hs].
Qed.

Lemma test_account_management_spec_witness :
  let d0 := file_write_at fresh_store (slot_offset 87) (encode V2.write_client) in
  result (V3.test_account_management sample_env) (input String.EmptyString (Some d0)) = 0
  /\ result (V3.test_account_management sample_env)
            (input String.EmptyString (Some fresh_store)) = 1.
Proof.
  intros d0. split.
  - apply (test_account_management_spec sample_env
             (input String.EmptyString (Some d0)) d0 eq_refl).
    apply occupiedb_true. vm_compute. reflexivity.
  - apply (test_account_management_spec sample_env
             (input String.EmptyString (Some fresh_store)) fresh_store eq_refl).
    apply occupiedb_false. vm_compute. reflexivity.
Defined.

(** X23: [test_file_writing] of version 2 opens the data file with "wb+"
    and so empties it: whatever the file held, also the 100 records that
    [initialize_data_file] has just written, it returns 1 and leaves a
    file of 11 records, the first ten reading as the empty record and the
    last its record of id 99; there is no slot 11 or above any more. *)
Theorem test_file_writing_truncates (w : World) (i : Z) :
  let d' := contents (after V2.test_file_writing w) in
  result V2.test_file_writing w = 1
  /\ length d' = (11 * RECORD_SIZE)%nat
  /\ slot d' 10 = Some V2.test_client
  /\ (0 <= i < 10 -> slot d' i = Some empty_client)
  /\ (11 <= i -> slot d' i = None)
  /\ length (contents (after V2.test_file_writing (after V2.initialize_data_file w)))
     = (11 * RECORD_SIZE)%nat.
Proof.
  intros d'. subst d'.
  destruct (test_file_writing_run w) as [Hr Hdisk].
  destruct (test_file_writing_run (after V2.initialize_data_file w)) as [_ Hdisk'].
  unfold contents. rewrite Hdisk, Hdisk'.
  assert (Hlen : length (file_write_at [] (slot_offset 10) (encode V2.test_client))
                 = (11 * RECORD_SIZE)%nat) by reflexivity.
  split; [exact Hr|]. split; [exact Hlen|].
  split; [apply occupiedb_after_write, v2_samples_typed|].
  split; [|split; [|exact Hlen]].
  - intros Hi. apply slot_write_gap; [reflexivity | lia | cbn; lia].
  - intros Hi. apply slot_none_beyond; [lia|]. rewrite Hlen.
    unfold RECORD_SIZE. lia.
Qed.

Lemma test_file_writing_truncates_witness :
  slot (contents (after V2.test_file_writing (input String.EmptyString (Some fresh_store))))
       3 = Some empty_client
  /\ slot (contents (after V2.test_file_writing
                       (input String.EmptyString (Some fresh_store)))) 11 = None.
Proof.
  split.
  - apply (test_file_writing_truncates (input String.EmptyString (Some fresh_store)) 3).
    lia.
  - apply (test_file_writing_truncates (input String.EmptyString (Some fresh_store)) 11).
    lia.
Defined.

(** X24: on an existing data file, whatever it holds, [test_file_reading]
    and [test_file_positioning] of version 2 return 1; the first puts its
    record at slot 20, the second its two records at slots 5 and 15, in
    place of what was there, and the complete records of the other slots
    stay.  With no data file both return 0 and create none. *)
Theorem v2_tests_overwrite (E : Env) (w w0 : World) (d : list byte) :
  w_disk w = Some d -> w_disk w0 = None ->
  (result (V2.test_file_reading E) w = 1
   /\ slot (contents (after (V2.test_file_reading E) w)) 20 = Some V2.write_client
   /\ forall i r, 0 <= i -> i <> 20 -> slot d i = Some r ->
        slot (contents (after (V2.test_file_reading E) w)) i = Some r)
  /\ (result (V2.test_file_positioning E) w = 1
      /\ slot (contents (after (V2.test_file_positioning E) w)) 5 = Some V2.client1
      /\ slot (contents (after (V2.test_file_positioning E) w)) 15 = Some V2.client2
      /\ forall i r, 0 <= i -> i <> 5 -> i <> 15 -> slot d i = Some r ->
           slot (contents (after (V2.test_file_positioning E) w)) i = Some r)
  /\ (result (V2.test_file_reading E) w0 = 0
      /\ w_disk (after (V2.test_file_reading E) w0) = None)
  /\ (result (V2.test_file_positioning E) w0 = 0
      /\ w_disk (after (V2.test_file_positioning E) w0) = None).
Proof.
  intros Hd Hd0.
  destruct (test_file_reading_run E w d Hd) as [Hr1 Hdisk1].
  destruct (test_file_positioning_run E w d Hd) as [Hr2 Hdisk2].
  destruct (v2_tests_missing E w0 Hd0) as (Hm1 & Hm2 & _).
  destruct v2_samples_typed as (_ & Hw & Hc1 & Hc2).
  unfold contents. rewrite Hdisk1, Hdisk2.
  split; [|split; [|split; assumption]].
  - split; [exact Hr1|]. split; [now apply occupiedb_after_write|].
    intros i r Hi Hne Hs. apply slot_write_keep; [reflexivity | lia | lia | lia | exact Hs].
  - split; [exact Hr2|]. split; [|split].
    + apply slot_write_keep; [reflexivity | lia | lia | lia |].
      now apply occupiedb_after_write.
    + now apply occupiedb_after_write.
    + intros i r Hi Hn5 Hn15 Hs.
      apply slot_write_keep; [reflexivity | lia | lia | lia |].
      apply slot_write_keep; [reflexivity | lia | lia | lia | exact Hs].
Qed.

Lemma v2_tests_overwrite_witness :
  let d0 := file_write_at fresh_store (slot_offset 20) (encode V2.test_client) in
  slot d0 20 = Some V2.test_client
  /\ result (V2.test_file_reading sample_env) (input String.EmptyString (Some d0)) = 1
  /\ slot (contents (after (V2.test_file_reading sample_env)
                       (input String.EmptyString (Some d0)))) 20
     = Some V2.write_client.
Proof.
  intros d0.
  destruct (v2_tests_overwrite sample_env (input String.EmptyString (Some d0))
              (input String.EmptyString None) d0 eq_refl eq_refl)
    as ((Hr & Hs & _) & _).
  split; [vm_compute; reflexivity|]. split; assumption.
Defined.
